(** * alx_travel_app: the payment flow and the review table

    A shallow embedding of [listings/models.py], [listings/serializers.py]
    and [listings/views.py].  The relational tables are lists of rows, every
    view is a function in a state-and-exception monad over the database, and
    the framework around a view (permission check, exception handler) is the
    wrapper [api_view].

    What comes from outside a request is read from an environment [Env]:
    the clock, the uuid generator, the reply of the payment gateway and the
    authentication scheme of the deployment.

    Python values are the type [pyval]; floating point numbers are left out.
    The database runs in autocommit mode, as Django does unless its settings
    ask for atomic requests (the settings module is not among the sources):
    a row written before an exception stays written. *)

From Stdlib Require Import ZArith List String Ascii Bool Lia DecimalString.
Import ListNotations.

Open Scope Z_scope.
Open Scope string_scope.

(** ** Python values *)

#[warnings="-register-all"]
Inductive pyval : Type :=
| PNone
| PBool (b : bool)
| PInt (n : Z)
| PStr (s : string)
| PList (xs : list pyval)
| PDict (kvs : list (string * pyval))
| PDecimal (hundredths : Z)
| PDatetime (t : Z).

(** [bool(v)]. *)
Definition truthy (v : pyval) : bool :=
  match v with
  | PNone => false
  | PBool b => b
  | PInt n => negb (n =? 0)%Z
  | PStr s => negb (s =? "")
  | PList xs => match xs with [] => false | _ => true end
  | PDict kvs => match kvs with [] => false | _ => true end
  | PDecimal h => negb (h =? 0)%Z
  | PDatetime _ => true
  end.

(** [type(v).__name__]. *)
Definition type_name (v : pyval) : string :=
  match v with
  | PNone => "NoneType"
  | PBool _ => "bool"
  | PInt _ => "int"
  | PStr _ => "str"
  | PList _ => "list"
  | PDict _ => "dict"
  | PDecimal _ => "decimal.Decimal"
  | PDatetime _ => "datetime.datetime"
  end.

(** [v == s] for a string literal [s]: only a [str] compares equal. *)
Definition eq_str (v : pyval) (s : string) : bool :=
  match v with
  | PStr s' => s' =? s
  | _ => false
  end.

(** [str(n)] for an [int]. *)
Definition str_int (n : Z) : string := NilZero.string_of_int (Z.to_int n).

Fixpoint assoc (k : string) (kvs : list (string * pyval)) : option pyval :=
  match kvs with
  | [] => None
  | (k', v) :: rest => if k' =? k then Some v else assoc k rest
  end.

Definition opt_pyval (o : option string) : pyval :=
  match o with
  | None => PNone
  | Some s => PStr s
  end.

Definition opt_datetime (o : option Z) : pyval :=
  match o with
  | None => PNone
  | Some t => PDatetime t
  end.

(** ** Exceptions *)

Inductive model : Type := MDestination | MBooking | MPayment | MReview.

Definition model_eqb (a b : model) : bool :=
  match a, b with
  | MDestination, MDestination | MBooking, MBooking
  | MPayment, MPayment | MReview, MReview => true
  | _, _ => false
  end.

Inductive exn : Type :=
| AttributeError (msg : string)
| UnboundLocalError (name : string)
| DoesNotExist (m : model)
| RelatedObjectDoesNotExist (m : model) (msg : string)
| MultipleObjectsReturned (m : model)
| IntegrityError
| Http404
| ValidationError (msg : string)
| RequestException (msg : string)
| JSONDecodeError (msg : string)
| NotAuthenticated.

(** [isinstance(e, AttributeError)]: the exception of a missing related
    object derives from both [<Model>.DoesNotExist] and [AttributeError]. *)
Definition is_AttributeError (e : exn) : bool :=
  match e with
  | AttributeError _ | RelatedObjectDoesNotExist _ _ => true
  | _ => false
  end.

(** [isinstance(e, <m>.DoesNotExist)]. *)
Definition is_DoesNotExist (m : model) (e : exn) : bool :=
  match e with
  | DoesNotExist m' | RelatedObjectDoesNotExist m' _ => model_eqb m m'
  | _ => false
  end.

Definition is_ValidationError (e : exn) : bool :=
  match e with
  | ValidationError _ => true
  | _ => false
  end.

Definition no_attribute (v : pyval) (attr : string) : exn :=
  AttributeError ("'" ++ type_name v ++ "' object has no attribute '" ++ attr ++ "'").

Definition model_name (m : model) : string :=
  match m with
  | MDestination => "Destination"
  | MBooking => "Booking"
  | MPayment => "Payment"
  | MReview => "Review"
  end.

(** [str(e)].  Only [ChapaPaymentAPI] reads the text of an exception, and
    only a transport error, a body that is not JSON and a missing [get] can
    be raised there; the text of a database error depends on the backend. *)
Definition str_exn (e : exn) : string :=
  match e with
  | AttributeError msg | RequestException msg | JSONDecodeError msg
  | ValidationError msg | RelatedObjectDoesNotExist _ msg => msg
  | UnboundLocalError name =>
      "cannot access local variable '" ++ name ++ "' where it is not associated with a value"
  | DoesNotExist m => model_name m ++ " matching query does not exist."
  | MultipleObjectsReturned m => "get() returned more than one " ++ model_name m
  | IntegrityError => "constraint failed"
  | Http404 => "No object matches the given query."
  | NotAuthenticated => "Authentication credentials were not provided."
  end.

Inductive result (A : Type) : Type :=
| Ok (a : A)
| Raise (e : exn).
Arguments Ok {A} a.
Arguments Raise {A} e.

(** [d.get(k, default)]; on anything but a [dict] the attribute is missing. *)
Definition py_get (d : pyval) (k : string) (default : pyval) : result pyval :=
  match d with
  | PDict kvs => Ok (match assoc k kvs with Some v => v | None => default end)
  | _ => Raise (no_attribute d "get")
  end.

(** ** models.py *)

Module User.
(** [django.contrib.auth.models.User], the fields the serializers show. *)
Record t : Type := mk {
  id : Z;
  username : string;
  email : string;
  first_name : string;
  last_name : string
}.
End User.

Module Destination.
Record t : Type := mk {
  id : Z;
  name : string;
  description : string;
  image : option string;
  price_per_night : Z;              (* hundredths *)
  location : string;
  created_at : Z;
  updated_at : Z
}.
End Destination.

Module Booking.
Record t : Type := mk {
  id : Z;
  user : Z;                         (* ForeignKey(User) *)
  destination : Z;                  (* ForeignKey(Destination) *)
  check_in_date : Z;
  check_out_date : Z;
  number_of_guests : Z;
  total_amount : Z;                 (* hundredths *)
  status : string;
  booking_reference : string;       (* unique *)
  special_requests : string;
  created_at : Z;
  updated_at : Z
}.

Definition set_status (s : string) (b : t) : t :=
  mk (id b) (user b) (destination b) (check_in_date b) (check_out_date b)
     (number_of_guests b) (total_amount b) s (booking_reference b)
     (special_requests b) (created_at b) (updated_at b).

Definition set_booking_reference (r : string) (b : t) : t :=
  mk (id b) (user b) (destination b) (check_in_date b) (check_out_date b)
     (number_of_guests b) (total_amount b) (status b) r
     (special_requests b) (created_at b) (updated_at b).

Definition set_updated_at (now : Z) (b : t) : t :=
  mk (id b) (user b) (destination b) (check_in_date b) (check_out_date b)
     (number_of_guests b) (total_amount b) (status b) (booking_reference b)
     (special_requests b) (created_at b) now.
End Booking.

Module Payment.
Record t : Type := mk {
  id : Z;
  booking : Z;                      (* OneToOneField(Booking) *)
  amount : Z;                       (* hundredths *)
  currency : string;
  payment_method : string;
  status : string;
  chapa_transaction_id : option string;   (* unique, null=True *)
  chapa_reference : option string;        (* unique, null=True *)
  chapa_payment_url : option string;
  verification_response : pyval;          (* JSONField, null=True *)
  payment_date : option Z;
  created_at : Z;
  updated_at : Z
}.

Definition set_status (s : string) (p : t) : t :=
  mk (id p) (booking p) (amount p) (currency p) (payment_method p) s
     (chapa_transaction_id p) (chapa_reference p) (chapa_payment_url p)
     (verification_response p) (payment_date p) (created_at p) (updated_at p).

Definition set_verification_response (v : pyval) (p : t) : t :=
  mk (id p) (booking p) (amount p) (currency p) (payment_method p) (status p)
     (chapa_transaction_id p) (chapa_reference p) (chapa_payment_url p)
     v (payment_date p) (created_at p) (updated_at p).

Definition set_payment_date (d : option Z) (p : t) : t :=
  mk (id p) (booking p) (amount p) (currency p) (payment_method p) (status p)
     (chapa_transaction_id p) (chapa_reference p) (chapa_payment_url p)
     (verification_response p) d (created_at p) (updated_at p).

Definition set_updated_at (now : Z) (p : t) : t :=
  mk (id p) (booking p) (amount p) (currency p) (payment_method p) (status p)
     (chapa_transaction_id p) (chapa_reference p) (chapa_payment_url p)
     (verification_response p) (payment_date p) (created_at p) now.

Definition PAYMENT_METHOD_CHOICES : list string :=
  ["card"; "bank"; "mobile_money"; "crypto"].
End Payment.

Module Review.
Record t : Type := mk {
  id : Z;
  user : Z;                         (* ForeignKey(User) *)
  destination : Z;                  (* ForeignKey(Destination) *)
  rating : Z;
  comment : string;
  created_at : Z;
  updated_at : Z
}.

(** [unique_together = ['user', 'destination']]. *)
Definition pair (r : t) : Z * Z := (user r, destination r).
End Review.

(** The database: one list of rows per table, and the next primary key of
    the two tables the views insert into. *)
Record DB : Type := mkDB {
  destinations : list Destination.t;
  bookings : list Booking.t;
  payments : list Payment.t;
  reviews : list Review.t;
  payment_seq : Z;
  review_seq : Z
}.

Definition set_bookings (bs : list Booking.t) (db : DB) : DB :=
  mkDB (destinations db) bs (payments db) (reviews db) (payment_seq db) (review_seq db).

Definition set_payments (ps : list Payment.t) (db : DB) : DB :=
  mkDB (destinations db) (bookings db) ps (reviews db) (payment_seq db) (review_seq db).

Definition set_reviews (rs : list Review.t) (db : DB) : DB :=
  mkDB (destinations db) (bookings db) (payments db) rs (payment_seq db) (review_seq db).

(** The reply of the gateway to the one outbound call a view makes:
    [requests] raises, or there is a response with its status code, its
    text, and what [response.json()] gives (the parsed body, or the text of
    the decoding error). *)
Inductive http_reply : Type :=
| TransportError (msg : string)
| HttpReply (status_code : Z) (text : string) (json : string + pyval).

(** What a request reads from outside the database. *)
Record Env : Type := mkEnv {
  now : Z;                            (* timezone.now() *)
  uuid4 : string;                     (* str(uuid.uuid4()) *)
  gateway : http_reply;               (* requests.post / requests.get *)
  www_authenticate : bool;            (* the first authentication class
                                         sends a WWW-Authenticate header *)
  py_repr : pyval -> string           (* str() of a list or a dict *)
}.

(** ** The monad of a request: state and exceptions *)

Definition M (A : Type) : Type := DB -> result A * DB.

Definition ret {A} (a : A) : M A := fun db => (Ok a, db).

Definition raise {A} (e : exn) : M A := fun db => (Raise e, db).

Definition bind {A B} (m : M A) (k : A -> M B) : M B :=
  fun db =>
    match m db with
    | (Ok a, db') => k a db'
    | (Raise e, db') => (Raise e, db')
    end.

(** [try: m  except <catches>: handler]; an exception the clause does not
    name goes on, and one raised by the handler does too. *)
Definition try_except {A} (m : M A) (catches : exn -> bool) (handler : exn -> M A) : M A :=
  fun db =>
    match m db with
    | (Ok a, db') => (Ok a, db')
    | (Raise e, db') => if catches e then handler e db' else (Raise e, db')
    end.

Definition lift {A} (r : result A) : M A := fun db => (r, db).

Definition write (f : DB -> DB) : M unit := fun db => (Ok tt, f db).

Declare Scope py_scope.
Delimit Scope py_scope with py.
Notation "x <- m ;; k" := (bind m (fun x => k))
  (at level 100, m at next level, right associativity) : py_scope.
Notation "m ;;; k" := (bind m (fun _ => k))
  (at level 100, right associativity) : py_scope.
Open Scope py_scope.

Definition Exception (e : exn) : bool := true.

(** ** The object-relational layer *)

Section Table.
Variable R : Type.
Variable pk : R -> Z.

(** [queryset.get()]: exactly one row, or an exception. *)
Definition get (m : model) (rows : list R) : result R :=
  match rows with
  | [] => Raise (DoesNotExist m)
  | [r] => Ok r
  | _ => Raise (MultipleObjectsReturned m)
  end.

(** [UPDATE ... WHERE id = r.id]. *)
Definition replace_row (r : R) (rows : list R) : list R :=
  map (fun q => if (pk q =? pk r)%Z then r else q) rows.

(** [Model.save()] writes the row: an update when the key is in the
    table, an insert otherwise. *)
Definition upsert (r : R) (rows : list R) : list R :=
  if existsb (fun q => (pk q =? pk r)%Z) rows then replace_row r rows
  else rows ++ [r].

Definition delete_row (k : Z) (rows : list R) : list R :=
  filter (fun q => negb (pk q =? k)%Z) rows.
End Table.
Arguments get {R} m rows.
Arguments replace_row {R} pk r rows.
Arguments upsert {R} pk r rows.
Arguments delete_row {R} pk k rows.

Definition opt_clash (a b : option string) : bool :=
  match a, b with
  | Some x, Some y => x =? y
  | _, _ => false
  end.

(** [get_object_or_404]: only [DoesNotExist] becomes [Http404]. *)
Definition get_object_or_404 {R} (m : model) (rows : list R) : result R :=
  match get m rows with
  | Raise (DoesNotExist _) => Raise Http404
  | r => r
  end.

(** [str(v)]; the text of a list, a dict, a Decimal or a datetime is read
    from the environment. *)
Definition py_str (env : Env) (v : pyval) : string :=
  match v with
  | PNone => "None"
  | PBool true => "True"
  | PBool false => "False"
  | PInt n => str_int n
  | PStr s => s
  | _ => py_repr env v
  end.

(** [CharField.to_python]: what a character column stores for a value. *)
Definition to_python (env : Env) (v : pyval) : option string :=
  match v with
  | PNone => None
  | _ => Some (py_str env v)
  end.

Definition has_txid (t : string) (p : Payment.t) : bool :=
  opt_clash (Payment.chapa_transaction_id p) (Some t).

Definition fk_ok {R} (pk : R -> Z) (k : Z) (rows : list R) : bool :=
  existsb (fun q => (pk q =? k)%Z) rows.

(** *** Booking *)

Definition Booking_violates_unique (b : Booking.t) (rows : list Booking.t) : bool :=
  existsb (fun q => negb (Booking.id q =? Booking.id b)%Z
                    && (Booking.booking_reference q =? Booking.booking_reference b)) rows.

(** [Booking.save]: a missing reference is generated, then the row is
    written under the constraints of the table. *)
Definition Booking_save (env : Env) (self : Booking.t) : M Booking.t :=
  let self :=
    if Booking.booking_reference self =? ""
    then Booking.set_booking_reference (uuid4 env) self else self in
  let self := Booking.set_updated_at (now env) self in
  fun db =>
    if Booking_violates_unique self (bookings db)
       || negb (fk_ok Destination.id (Booking.destination self) (destinations db))
    then (Raise IntegrityError, db)
    else (Ok self, set_bookings (upsert Booking.id self (bookings db)) db).

(** [booking.payment], the reverse side of the one-to-one relation. *)
Definition Booking_payment (self : Booking.t) : M Payment.t :=
  fun db =>
    match get MPayment (filter (fun p => (Payment.booking p =? Booking.id self)%Z) (payments db)) with
    | Raise (DoesNotExist _) =>
        (Raise (RelatedObjectDoesNotExist MPayment "Booking has no payment."), db)
    | r => (r, db)
    end.

(** [booking.destination]. *)
Definition Booking_destination (self : Booking.t) : M Destination.t :=
  fun db =>
    match get MDestination
            (filter (fun d => (Destination.id d =? Booking.destination self)%Z) (destinations db)) with
    | Raise (DoesNotExist _) =>
        (Raise (RelatedObjectDoesNotExist MDestination "Booking has no destination."), db)
    | r => (r, db)
    end.

(** *** Payment *)

Definition Payment_violates_unique (p : Payment.t) (rows : list Payment.t) : bool :=
  existsb (fun q => negb (Payment.id q =? Payment.id p)%Z
                    && ((Payment.booking q =? Payment.booking p)%Z
                        || opt_clash (Payment.chapa_transaction_id q) (Payment.chapa_transaction_id p)
                        || opt_clash (Payment.chapa_reference q) (Payment.chapa_reference p))) rows.

(** [Model.save] of a payment ([updated_at] is [auto_now]). *)
Definition Payment_save (env : Env) (self : Payment.t) : M Payment.t :=
  let self := Payment.set_updated_at (now env) self in
  fun db =>
    if Payment_violates_unique self (payments db)
       || negb (fk_ok Booking.id (Payment.booking self) (bookings db))
    then (Raise IntegrityError, db)
    else (Ok self, set_payments (upsert Payment.id self (payments db)) db).

(** [Payment.update_status(new_status, chapa_response=None)]. *)
Definition Payment_update_status (env : Env) (new_status : string)
    (chapa_response : pyval) (self : Payment.t) : M Payment.t :=
  let self := Payment.set_status new_status self in
  let self :=
    if truthy chapa_response
    then Payment.set_verification_response chapa_response self else self in
  let self :=
    if new_status =? "completed"
    then Payment.set_payment_date (Some (now env)) self else self in
  Payment_save env self.

(** [payment.booking]. *)
Definition Payment_booking (self : Payment.t) : M Booking.t :=
  fun db =>
    match get MBooking (filter (fun b => (Booking.id b =? Payment.booking self)%Z) (bookings db)) with
    | Raise (DoesNotExist _) =>
        (Raise (RelatedObjectDoesNotExist MBooking "Payment has no booking."), db)
    | r => (r, db)
    end.

(** [Payment.objects.get(chapa_transaction_id=t)]. *)
Definition Payment_objects_get (t : string) : M Payment.t :=
  fun db => (get MPayment (filter (has_txid t) (payments db)), db).

(** [Payment.objects.create(...)]: the new row takes the next key. *)
Definition Payment_objects_create (env : Env) (booking : Booking.t) (amount : Z)
    (currency payment_method : string)
    (chapa_transaction_id chapa_reference chapa_payment_url : pyval)
    (status : string) : M Payment.t :=
  fun db =>
    let self :=
      Payment.mk (payment_seq db) (Booking.id booking) amount currency payment_method
        status (to_python env chapa_transaction_id) (to_python env chapa_reference)
        (to_python env chapa_payment_url) PNone None (now env) (now env) in
    if Payment_violates_unique self (payments db)
       || negb (fk_ok Booking.id (Payment.booking self) (bookings db))
    then (Raise IntegrityError, db)
    else (Ok self,
          mkDB (destinations db) (bookings db) (payments db ++ [self]) (reviews db)
               (payment_seq db + 1) (review_seq db)).

(** *** Review *)

Definition Review_violates_unique (r : Review.t) (rows : list Review.t) : bool :=
  existsb (fun q => negb (Review.id q =? Review.id r)%Z
                    && (Review.user q =? Review.user r)%Z
                    && (Review.destination q =? Review.destination r)%Z) rows.

Definition Review_save (env : Env) (self : Review.t) : M Review.t :=
  let self :=
    Review.mk (Review.id self) (Review.user self) (Review.destination self)
      (Review.rating self) (Review.comment self) (Review.created_at self) (now env) in
  fun db =>
    if Review_violates_unique self (reviews db)
       || negb (fk_ok Destination.id (Review.destination self) (destinations db))
    then (Raise IntegrityError, db)
    else (Ok self, set_reviews (upsert Review.id self (reviews db)) db).

Definition Review_objects_create (env : Env) (user destination_id rating : Z)
    (comment : string) : M Review.t :=
  fun db =>
    let self :=
      Review.mk (review_seq db) user destination_id rating comment (now env) (now env) in
    if Review_violates_unique self (reviews db)
       || negb (fk_ok Destination.id destination_id (destinations db))
    then (Raise IntegrityError, db)
    else (Ok self,
          mkDB (destinations db) (bookings db) (payments db) (reviews db ++ [self])
               (payment_seq db) (review_seq db + 1)).

Definition Review_delete (self : Review.t) : M unit :=
  write (fun db => set_reviews (delete_row Review.id (Review.id self) (reviews db)) db).

(** ** serializers.py *)

(** What a serializer field makes of a member of the request body: the
    member is absent, the field's own conversion rejects it with a message,
    or it is converted (a string comes out trimmed). *)
Inductive field (T : Type) : Type :=
| Missing
| Invalid (msg : string)
| Parsed (v : T).
Arguments Missing {T}.
Arguments Invalid {T} msg.
Arguments Parsed {T} v.

(** [field.run_validation] for a required field without further checks. *)
Definition required {T} (f : field T) : M T :=
  match f with
  | Missing => raise (ValidationError "This field is required.")
  | Invalid msg => raise (ValidationError msg)
  | Parsed v => ret v
  end.

(** [CharField(max_length=n)], with a default when it has one. *)
Definition CharField (max_length : option nat) (default : option string)
    (f : field string) : M string :=
  match f with
  | Missing =>
      match default with
      | Some d => ret d
      | None => raise (ValidationError "This field is required.")
      end
  | Invalid msg => raise (ValidationError msg)
  | Parsed v =>
      if v =? "" then raise (ValidationError "This field may not be blank.")
      else
        match max_length with
        | Some n =>
            if (n <? String.length v)%nat
            then raise (ValidationError
                          ("Ensure this field has no more than "
                           ++ str_int (Z.of_nat n) ++ " characters."))
            else ret v
        | None => ret v
        end
  end.

Definition dquote : string := String (ascii_of_nat 34) "".

Definition ChoiceField (choices : list string) (f : field string) : M string :=
  v <- required f ;;
  if existsb (String.eqb v) choices then ret v
  else raise (ValidationError (dquote ++ v ++ dquote ++ " is not a valid choice.")).

(** One field of [Serializer.to_internal_value]: a [ValidationError] is
    kept as the field's error, any other exception leaves the serializer. *)
Definition run_field {A} (name : string) (m : M A) : M ((string * pyval) + A) :=
  try_except (a <- m ;; ret (inr a)) is_ValidationError
    (fun e => ret (inl (name, PList [PStr (str_exn e)]))).

Definition error_of {A} (r : (string * pyval) + A) : list (string * pyval) :=
  match r with
  | inl e => [e]
  | inr _ => []
  end.

(** A model instance has no attribute [exists]. *)
Definition Payment_exists (p : Payment.t) : M bool :=
  raise (AttributeError "'Payment' object has no attribute 'exists'").

Module PaymentInitiationSerializer.
Record data : Type := mk_data {
  booking_id : field Z;
  payment_method : field string;
  currency : field string
}.

Record validated_data : Type := mk {
  v_booking_id : Z;
  v_payment_method : string;
  v_currency : string
}.

Definition validate_booking_id (user : User.t) (value : Z) : M Z :=
  try_except
    (booking <- (fun db =>
                   (get MBooking
                      (filter (fun b => (Booking.id b =? value)%Z
                                        && (Booking.user b =? User.id user)%Z)
                              (bookings db)), db)) ;;
     payment <- Booking_payment booking ;;
     e <- Payment_exists payment ;;
     if e then raise (ValidationError "Payment already exists for this booking")
     else ret value)
    (is_DoesNotExist MBooking)
    (fun _ => raise (ValidationError "Booking not found")).

Definition is_valid (user : User.t) (d : data)
  : M (list (string * pyval) + validated_data) :=
  r1 <- run_field "booking_id"
          (v <- required (booking_id d) ;; validate_booking_id user v) ;;
  r2 <- run_field "payment_method"
          (ChoiceField Payment.PAYMENT_METHOD_CHOICES (payment_method d)) ;;
  r3 <- run_field "currency" (CharField (Some 3%nat) (Some "NGN") (currency d)) ;;
  match r1, r2, r3 with
  | inr b, inr m, inr c => ret (inr (mk b m c))
  | _, _, _ => ret (inl (error_of r1 ++ error_of r2 ++ error_of r3)%list)
  end.
End PaymentInitiationSerializer.

Module PaymentVerificationSerializer.
Record data : Type := mk_data { transaction_id : field string }.

Definition validate_transaction_id (value : string) : M string :=
  try_except
    (Payment_objects_get value ;;; ret value)
    (is_DoesNotExist MPayment)
    (fun _ => raise (ValidationError "Transaction ID not found")).

Definition is_valid (d : data) : M (list (string * pyval) + string) :=
  r1 <- run_field "transaction_id"
          (v <- CharField (Some 100%nat) None (transaction_id d) ;;
           validate_transaction_id v) ;;
  match r1 with
  | inr t => ret (inr t)
  | inl e => ret (inl [e])
  end.
End PaymentVerificationSerializer.

Definition UserSerializer_data (u : User.t) : pyval :=
  PDict [("id", PInt (User.id u)); ("username", PStr (User.username u));
         ("email", PStr (User.email u)); ("first_name", PStr (User.first_name u));
         ("last_name", PStr (User.last_name u))].

Definition DestinationSerializer_data (d : Destination.t) : pyval :=
  PDict [("id", PInt (Destination.id d)); ("name", PStr (Destination.name d));
         ("description", PStr (Destination.description d));
         ("image", opt_pyval (Destination.image d));
         ("price_per_night", PDecimal (Destination.price_per_night d));
         ("location", PStr (Destination.location d));
         ("created_at", PDatetime (Destination.created_at d));
         ("updated_at", PDatetime (Destination.updated_at d))].

Module ReviewSerializer.
Record data : Type := mk_data {
  destination_id : field Z;
  rating : field Z;
  comment : field string
}.

(** The validated data; under [partial=True] an absent member is left out. *)
Record validated_data : Type := mk {
  v_destination_id : option Z;
  v_rating : option Z;
  v_comment : option string
}.

(** With [partial=True] an absent member is skipped. *)
Definition run_field_partial {A} (partial : bool) (name : string)
    (f : field A) (check : field A -> M A) : M ((string * pyval) + option A) :=
  match partial, f with
  | true, Missing => ret (inr None)
  | _, _ => run_field name (a <- check f ;; ret (Some a))
  end.

(** [rating] is a choice among 1..5. *)
Definition rating_field (f : field Z) : M Z :=
  v <- required f ;;
  if ((1 <=? v) && (v <=? 5))%Z then ret v
  else raise (ValidationError (dquote ++ str_int v ++ dquote ++ " is not a valid choice.")).

(** No validator for [unique_together] is derived: [user] and
    [destination] are read-only members of the serializer. *)
Definition is_valid (partial : bool) (d : data)
  : M (list (string * pyval) + validated_data) :=
  r1 <- run_field_partial partial "destination_id" (destination_id d) required ;;
  r2 <- run_field_partial partial "rating" (rating d) rating_field ;;
  r3 <- run_field_partial partial "comment" (comment d) (CharField None None) ;;
  match r1, r2, r3 with
  | inr a, inr b, inr c => ret (inr (mk a b c))
  | _, _, _ => ret (inl (error_of r1 ++ error_of r2 ++ error_of r3)%list)
  end.

Definition or_else {A} (o : option A) (a : A) : A :=
  match o with
  | Some x => x
  | None => a
  end.

(** [create]: the caller becomes the review's user.  The data of a
    full validation holds the three members. *)
Definition create (env : Env) (user : User.t) (v : validated_data) : M Review.t :=
  Review_objects_create env (User.id user) (or_else (v_destination_id v) 0)
    (or_else (v_rating v) 0) (or_else (v_comment v) "").

(** [update]: the members of the validated data are set, the row saved. *)
Definition update (env : Env) (instance : Review.t) (v : validated_data) : M Review.t :=
  Review_save env
    (Review.mk (Review.id instance) (Review.user instance)
       (or_else (v_destination_id v) (Review.destination instance))
       (or_else (v_rating v) (Review.rating instance))
       (or_else (v_comment v) (Review.comment instance))
       (Review.created_at instance) (Review.updated_at instance)).

(** [serializer.data]. *)
Definition to_representation (user : User.t) (r : Review.t) : M pyval :=
  d <- (fun db =>
          match get MDestination
                  (filter (fun d => (Destination.id d =? Review.destination r)%Z)
                          (destinations db)) with
          | Raise (DoesNotExist _) =>
              (Raise (RelatedObjectDoesNotExist MDestination "Review has no destination."), db)
          | x => (x, db)
          end) ;;
  ret (PDict [("id", PInt (Review.id r)); ("user", UserSerializer_data user);
              ("destination", DestinationSerializer_data d);
              ("rating", PInt (Review.rating r)); ("comment", PStr (Review.comment r));
              ("created_at", PDatetime (Review.created_at r));
              ("updated_at", PDatetime (Review.updated_at r))]).
End ReviewSerializer.

(** ** views.py *)

Record Response : Type := mkResponse {
  data : pyval;
  status_code : Z
}.

Definition HTTP_200_OK := 200.
Definition HTTP_201_CREATED := 201.
Definition HTTP_204_NO_CONTENT := 204.
Definition HTTP_400_BAD_REQUEST := 400.
Definition HTTP_401_UNAUTHORIZED := 401.
Definition HTTP_403_FORBIDDEN := 403.
Definition HTTP_404_NOT_FOUND := 404.
Definition HTTP_500_INTERNAL_SERVER_ERROR := 500.

(** *** ChapaPaymentAPI *)

Inductive initiate_result : Type :=
| Initiated (data payment_url reference transaction_id : pyval)
| InitiateFailed (error : string) (details : option string).

Inductive verify_result : Type :=
| Verified (data status amount currency : pyval)
| VerifyFailed (error : string) (details : option string).

(** [requests.post] and [requests.get]: the reply comes from the
    environment. *)
Definition requests_call (env : Env) : M (Z * string * (string + pyval)) :=
  match gateway env with
  | TransportError msg => raise (RequestException msg)
  | HttpReply code text json => ret (code, text, json)
  end.

Definition response_json (json : string + pyval) : M pyval :=
  match json with
  | inl msg => raise (JSONDecodeError msg)
  | inr v => ret v
  end.

(** [response_data.get('data', {}).get(k)]. *)
Definition data_get (response_data : pyval) (k : string) : M pyval :=
  d <- lift (py_get response_data "data" (PDict [])) ;;
  lift (py_get d k PNone).

(** [ChapaPaymentAPI.initiate_payment]: the payload reads the booking's
    user and destination, then the gateway is called.  Users are not a
    table of the model ([booking.user] always resolves), and the reply is
    the environment's whatever the payload. *)
Definition ChapaPaymentAPI_initiate_payment (env : Env) (booking : Booking.t)
    (payment_method currency : string) : M initiate_result :=
  try_except
    (Booking_destination booking ;;;
     response <- requests_call env ;;
     let '(code, text, json) := response in
     if (code =? 200)%Z then
       response_data <- response_json json ;;
       payment_url <- data_get response_data "checkout_url" ;;
       reference <- data_get response_data "reference" ;;
       transaction_id <- data_get response_data "id" ;;
       ret (Initiated response_data payment_url reference transaction_id)
     else
       ret (InitiateFailed ("Chapa API error: " ++ str_int code) (Some text)))
    Exception
    (fun e => ret (InitiateFailed ("Payment initiation failed: " ++ str_exn e) None)).

(** [ChapaPaymentAPI.verify_payment]. *)
Definition ChapaPaymentAPI_verify_payment (env : Env) (transaction_id : string)
  : M verify_result :=
  try_except
    (response <- requests_call env ;;
     let '(code, text, json) := response in
     if (code =? 200)%Z then
       response_data <- response_json json ;;
       status <- data_get response_data "status" ;;
       amount <- data_get response_data "amount" ;;
       currency <- data_get response_data "currency" ;;
       ret (Verified response_data status amount currency)
     else
       ret (VerifyFailed ("Verification failed: " ++ str_int code) (Some text)))
    Exception
    (fun e => ret (VerifyFailed ("Payment verification failed: " ++ str_exn e) None)).

(** *** The payment views *)

Definition internal_server_error : Response :=
  mkResponse (PDict [("error", PStr "Internal server error")])
             HTTP_500_INTERNAL_SERVER_ERROR.

(** [hasattr(booking, 'payment')]: only an [AttributeError] means no. *)
Definition hasattr_payment (booking : Booking.t) : M bool :=
  try_except (Booking_payment booking ;;; ret true) is_AttributeError
    (fun _ => ret false).

(** The [try] block of [initiate_payment], run on validated data. *)
Definition initiate_payment_try (env : Env)
    (v : PaymentInitiationSerializer.validated_data) : M Response :=
  let booking_id := PaymentInitiationSerializer.v_booking_id v in
  let payment_method := PaymentInitiationSerializer.v_payment_method v in
  let currency := PaymentInitiationSerializer.v_currency v in
  booking <- (fun db =>
                (get_object_or_404 MBooking
                   (filter (fun b => (Booking.id b =? booking_id)%Z) (bookings db)), db)) ;;
  has <- hasattr_payment booking ;;
  if has then
    ret (mkResponse (PDict [("error", PStr "Payment already exists for this booking")])
                    HTTP_400_BAD_REQUEST)
  else
    payment_result <- ChapaPaymentAPI_initiate_payment env booking payment_method currency ;;
    match payment_result with
    | Initiated _ payment_url reference transaction_id =>
        payment <- Payment_objects_create env booking (Booking.total_amount booking)
                     currency payment_method transaction_id reference payment_url
                     "pending" ;;
        ret (mkResponse
               (PDict [("message", PStr "Payment initiated successfully");
                       ("payment_id", PInt (Payment.id payment));
                       ("payment_url", payment_url);
                       ("transaction_id", transaction_id);
                       ("reference", reference)])
               HTTP_201_CREATED)
    | InitiateFailed error _ =>
        ret (mkResponse
               (PDict [("error", PStr "Failed to initiate payment");
                       ("details", PStr error)])
               HTTP_400_BAD_REQUEST)
    end.

Definition initiate_payment (env : Env) (user : User.t)
    (d : PaymentInitiationSerializer.data) : M Response :=
  valid <- PaymentInitiationSerializer.is_valid user d ;;
  match valid with
  | inr v =>
      try_except (initiate_payment_try env v) Exception
        (fun _ => ret internal_server_error)
  | inl errors => ret (mkResponse (PDict errors) HTTP_400_BAD_REQUEST)
  end.

(** The [try] block of [verify_payment]. *)
Definition verify_payment_try (env : Env) (transaction_id : string) : M Response :=
  payment <- (fun db =>
                (get_object_or_404 MPayment
                   (filter (has_txid transaction_id) (payments db)), db)) ;;
  verification_result <- ChapaPaymentAPI_verify_payment env transaction_id ;;
  match verification_result with
  | Verified response_data chapa_status _ _ =>
      if eq_str chapa_status "success" then
        payment <- Payment_update_status env "completed" response_data payment ;;
        booking <- Payment_booking payment ;;
        Booking_save env (Booking.set_status "confirmed" booking) ;;;
        ret (mkResponse
               (PDict [("message", PStr "Payment verified successfully");
                       ("status", PStr "completed");
                       ("payment_id", PInt (Payment.id payment))])
               HTTP_200_OK)
      else if eq_str chapa_status "failed" then
        payment <- Payment_update_status env "failed" response_data payment ;;
        ret (mkResponse
               (PDict [("message", PStr "Payment verification failed");
                       ("status", PStr "failed");
                       ("payment_id", PInt (Payment.id payment))])
               HTTP_200_OK)
      else
        payment <- Payment_update_status env "processing" response_data payment ;;
        ret (mkResponse
               (PDict [("message", PStr "Payment is being processed");
                       ("status", PStr "processing");
                       ("payment_id", PInt (Payment.id payment))])
               HTTP_200_OK)
  | VerifyFailed error _ =>
      ret (mkResponse
             (PDict [("error", PStr "Payment verification failed");
                     ("details", PStr error)])
             HTTP_400_BAD_REQUEST)
  end.

(** [verify_payment] never reads [request.user]. *)
Definition verify_payment (env : Env) (user : User.t)
    (d : PaymentVerificationSerializer.data) : M Response :=
  valid <- PaymentVerificationSerializer.is_valid d ;;
  match valid with
  | inr transaction_id =>
      try_except (verify_payment_try env transaction_id) Exception
        (fun _ => ret internal_server_error)
  | inl errors => ret (mkResponse (PDict errors) HTTP_400_BAD_REQUEST)
  end.

(** [payment_status]: the lookup joins the booking to compare its user;
    the [Http404] of a failed lookup is raised inside the [try]. *)
Definition payment_status (env : Env) (user : User.t) (payment_id : Z) : M Response :=
  try_except
    (payment <- (fun db =>
                   (get_object_or_404 MPayment
                      (filter (fun p =>
                                 (Payment.id p =? payment_id)%Z
                                 && existsb (fun b => (Booking.id b =? Payment.booking p)%Z
                                                      && (Booking.user b =? User.id user)%Z)
                                            (bookings db))
                              (payments db)), db)) ;;
     ret (mkResponse
            (PDict [("payment_id", PInt (Payment.id payment));
                    ("status", PStr (Payment.status payment));
                    ("amount", PDecimal (Payment.amount payment));
                    ("currency", PStr (Payment.currency payment));
                    ("transaction_id", opt_pyval (Payment.chapa_transaction_id payment));
                    ("payment_date", opt_datetime (Payment.payment_date payment));
                    ("created_at", PDatetime (Payment.created_at payment))])
            HTTP_200_OK))
    Exception
    (fun _ => ret internal_server_error).

(** *** The webhook

    Inside [chapa_webhook] the name [status] is a local variable (it is
    assigned from the body), so every [status.HTTP_...] of the function
    reads an attribute of that local: of the value from the body, or of a
    variable that is not bound yet. *)
Definition local_attr (name : string) (local : option pyval) (attr : string) : M Z :=
  match local with
  | None => raise (UnboundLocalError name)
  | Some v => raise (no_attribute v attr)
  end.

Definition chapa_webhook_try (env : Env) (webhook_data : pyval)
    (transaction_id status : pyval) : M Response :=
  if truthy transaction_id && truthy status then
    try_except
      (payment <- Payment_objects_get (py_str env transaction_id) ;;
       (if eq_str status "success" then
          payment <- Payment_update_status env "completed" webhook_data payment ;;
          booking <- Payment_booking payment ;;
          Booking_save env (Booking.set_status "confirmed" booking) ;;;
          ret tt
        else if eq_str status "failed" then
          Payment_update_status env "failed" webhook_data payment ;;; ret tt
        else ret tt) ;;;
       code <- local_attr "status" (Some status) "HTTP_200_OK" ;;
       ret (mkResponse (PDict [("status", PStr "success")]) code))
      (is_DoesNotExist MPayment)
      (fun _ =>
         code <- local_attr "status" (Some status) "HTTP_404_NOT_FOUND" ;;
         ret (mkResponse (PDict [("status", PStr "payment_not_found")]) code))
  else
    code <- local_attr "status" (Some status) "HTTP_400_BAD_REQUEST" ;;
    ret (mkResponse (PDict [("status", PStr "invalid_webhook")]) code).

(** [chapa_webhook]; the body is [request.data].  When the handler of the
    outer [try] runs, [status] is bound only if both [get] calls went
    through. *)
Definition chapa_webhook (env : Env) (user : User.t) (webhook_data : pyval) : M Response :=
  let status_local :=
    match py_get webhook_data "status" PNone with
    | Ok status => Some status
    | Raise _ => None
    end in
  try_except
    (transaction_id <- lift (py_get webhook_data "id" PNone) ;;
     status <- lift (py_get webhook_data "status" PNone) ;;
     chapa_webhook_try env webhook_data transaction_id status)
    Exception
    (fun _ =>
       code <- local_attr "status" status_local "HTTP_500_INTERNAL_SERVER_ERROR" ;;
       ret (mkResponse (PDict [("error", PStr "Internal server error")]) code)).

(** *** The review views (generic views over [ReviewSerializer]) *)

(** [get_object]: the caller's reviews, by primary key. *)
Definition Review_get_object (user : User.t) (pk : Z) : M Review.t :=
  fun db =>
    (get_object_or_404 MReview
       (filter (fun r => (Review.id r =? pk)%Z)
               (filter (fun r => (Review.user r =? User.id user)%Z) (reviews db))), db).

Definition ReviewListCreateView_post (env : Env) (user : User.t)
    (d : ReviewSerializer.data) : M Response :=
  valid <- ReviewSerializer.is_valid false d ;;
  match valid with
  | inl errors => ret (mkResponse (PDict errors) HTTP_400_BAD_REQUEST)
  | inr v =>
      r <- ReviewSerializer.create env user v ;;
      body <- ReviewSerializer.to_representation user r ;;
      ret (mkResponse body HTTP_201_CREATED)
  end.

Definition ReviewDetailView_get (user : User.t) (pk : Z) : M Response :=
  instance <- Review_get_object user pk ;;
  body <- ReviewSerializer.to_representation user instance ;;
  ret (mkResponse body HTTP_200_OK).

(** [put] ([partial = false]) and [patch] ([partial = true]). *)
Definition ReviewDetailView_update (env : Env) (partial : bool) (user : User.t)
    (pk : Z) (d : ReviewSerializer.data) : M Response :=
  instance <- Review_get_object user pk ;;
  valid <- ReviewSerializer.is_valid partial d ;;
  match valid with
  | inl errors => ret (mkResponse (PDict errors) HTTP_400_BAD_REQUEST)
  | inr v =>
      r <- ReviewSerializer.update env instance v ;;
      body <- ReviewSerializer.to_representation user r ;;
      ret (mkResponse body HTTP_200_OK)
  end.

Definition ReviewDetailView_delete (user : User.t) (pk : Z) : M Response :=
  instance <- Review_get_object user pk ;;
  Review_delete instance ;;;
  ret (mkResponse PNone HTTP_204_NO_CONTENT).

(** ** The framework around a view *)

(** What the client gets: the response of the view, the response of the
    framework's exception handler, or the server error of an exception that
    nothing handled. *)
Inductive outcome : Type :=
| Returned (r : Response)
| Handled (code : Z) (e : exn)
| Uncaught (e : exn).

Definition http_status (o : outcome) : Z :=
  match o with
  | Returned r => status_code r
  | Handled code _ => code
  | Uncaught _ => HTTP_500_INTERNAL_SERVER_ERROR
  end.

(** [@api_view] with [@permission_classes([IsAuthenticated])]; [None] is
    the anonymous user. *)
Definition api_view (env : Env) (user : option User.t) (view : User.t -> M Response)
  : DB -> outcome * DB :=
  fun db =>
    match user with
    | None =>
        (Handled (if www_authenticate env then HTTP_401_UNAUTHORIZED
                  else HTTP_403_FORBIDDEN) NotAuthenticated, db)
    | Some u =>
        match view u db with
        | (Ok r, db') => (Returned r, db')
        | (Raise Http404, db') => (Handled HTTP_404_NOT_FOUND Http404, db')
        | (Raise (ValidationError msg), db') =>
            (Handled HTTP_400_BAD_REQUEST (ValidationError msg), db')
        | (Raise e, db') => (Uncaught e, db')
        end
    end.

(** urls.py: the routes of the payment flow and of the reviews. *)
Inductive request : Type :=
| POST_payments_initiate (d : PaymentInitiationSerializer.data)
| POST_payments_verify (d : PaymentVerificationSerializer.data)
| GET_payments_status (payment_id : Z)
| POST_payments_webhook (body : pyval)
| POST_reviews (d : ReviewSerializer.data)
| GET_reviews_pk (pk : Z)
| PUT_reviews_pk (pk : Z) (d : ReviewSerializer.data)
| PATCH_reviews_pk (pk : Z) (d : ReviewSerializer.data)
| DELETE_reviews_pk (pk : Z).

Definition dispatch (env : Env) (user : option User.t) (req : request)
  : DB -> outcome * DB :=
  api_view env user
    (fun u =>
       match req with
       | POST_payments_initiate d => initiate_payment env u d
       | POST_payments_verify d => verify_payment env u d
       | GET_payments_status payment_id => payment_status env u payment_id
       | POST_payments_webhook body => chapa_webhook env u body
       | POST_reviews d => ReviewListCreateView_post env u d
       | GET_reviews_pk pk => ReviewDetailView_get u pk
       | PUT_reviews_pk pk d => ReviewDetailView_update env false u pk d
       | PATCH_reviews_pk pk d => ReviewDetailView_update env true u pk d
       | DELETE_reviews_pk pk => ReviewDetailView_delete u pk
       end).

(** A sequence of requests, each with its caller and its environment. *)
Fixpoint run (reqs : list (Env * option User.t * request)) (db : DB) : DB :=
  match reqs with
  | [] => db
  | (env, user, req) :: rest => run rest (snd (dispatch env user req db))
  end.

(** ** More of views.py: deleting bookings and destinations *)

(** [get_object] of the booking views: the caller's bookings, by primary
    key. *)
Definition Booking_get_object (user : User.t) (pk : Z) : M Booking.t :=
  fun db =>
    (get_object_or_404 MBooking
       (filter (fun b => (Booking.id b =? pk)%Z)
               (filter (fun b => (Booking.user b =? User.id user)%Z) (bookings db))), db).

(** [booking.delete()]: the payment of the booking goes with it
    ([on_delete=CASCADE]). *)
Definition Booking_delete (self : Booking.t) : M unit :=
  write (fun db =>
           mkDB (destinations db)
                (delete_row Booking.id (Booking.id self) (bookings db))
                (filter (fun p => negb (Payment.booking p =? Booking.id self)%Z)
                        (payments db))
                (reviews db) (payment_seq db) (review_seq db)).

Definition BookingDetailView_delete (user : User.t) (pk : Z) : M Response :=
  instance <- Booking_get_object user pk ;;
  Booking_delete instance ;;;
  ret (mkResponse PNone HTTP_204_NO_CONTENT).

(** [get_object] of the destination views: every destination, whoever
    asks. *)
Definition Destination_get_object (pk : Z) : M Destination.t :=
  fun db =>
    (get_object_or_404 MDestination
       (filter (fun d => (Destination.id d =? pk)%Z) (destinations db)), db).

(** The bookings a destination takes with it. *)
Definition booked_at (self : Destination.t) (b : Booking.t) : bool :=
  (Booking.destination b =? Destination.id self)%Z.

(** [destination.delete()]: its bookings, their payments and its reviews
    go with it ([on_delete=CASCADE] on each relation). *)
Definition Destination_delete (self : Destination.t) : M unit :=
  write (fun db =>
           mkDB (delete_row Destination.id (Destination.id self) (destinations db))
                (filter (fun b => negb (booked_at self b)) (bookings db))
                (filter (fun p =>
                           negb (existsb (fun b => booked_at self b
                                                   && (Booking.id b =? Payment.booking p)%Z)
                                         (bookings db)))
                        (payments db))
                (filter (fun r => negb (Review.destination r =? Destination.id self)%Z)
                        (reviews db))
                (payment_seq db) (review_seq db)).

Definition DestinationDetailView_delete (user : User.t) (pk : Z) : M Response :=
  instance <- Destination_get_object pk ;;
  Destination_delete instance ;;;
  ret (mkResponse PNone HTTP_204_NO_CONTENT).

(** urls.py: the two delete routes. *)
Inductive resource_request : Type :=
| DELETE_bookings_pk (pk : Z)
| DELETE_destinations_pk (pk : Z).

Definition dispatch_resource (env : Env) (user : option User.t) (req : resource_request)
  : DB -> outcome * DB :=
  api_view env user
    (fun u =>
       match req with
       | DELETE_bookings_pk pk => BookingDetailView_delete u pk
       | DELETE_destinations_pk pk => DestinationDetailView_delete u pk
       end).

(** A sequence of requests over all the modelled routes. *)
Fixpoint run_all (reqs : list (Env * option User.t * (request + resource_request)))
    (db : DB) : DB :=
  match reqs with
  | [] => db
  | (env, user, inl req) :: rest => run_all rest (snd (dispatch env user req db))
  | (env, user, inr req) :: rest => run_all rest (snd (dispatch_resource env user req db))
  end.

(** ** payments/tasks.py *)

(** [process_payment_webhook]: whether the body carries a transaction id
    and a status; any exception is answered [False]. *)
Definition process_payment_webhook (webhook_data : pyval) : M bool :=
  try_except
    (transaction_id <- lift (py_get webhook_data "id" PNone) ;;
     status <- lift (py_get webhook_data "status" PNone) ;;
     if negb (truthy transaction_id) || negb (truthy status) then ret false
     else ret true)
    Exception
    (fun _ => ret false).

(** ** The constraints of the schema *)

Section Unique.
Variable R : Type.
Variable pk : R -> Z.

(** A unique column: two rows with the same value are the same row. *)
Definition unique_by {K : Type} (key : R -> K) (rows : list R) : Prop :=
  forall q r, In q rows -> In r rows -> key q = key r -> pk q = pk r.

(** A unique column that may be null: nulls do not clash. *)
Definition unique_opt (key : R -> option string) (rows : list R) : Prop :=
  forall q r t, In q rows -> In r rows ->
                key q = Some t -> key r = Some t -> pk q = pk r.

(** A foreign key resolves. *)
Definition resolves {S : Type} (fk : R -> Z) (pk' : S -> Z)
    (rows : list R) (targets : list S) : Prop :=
  forall r, In r rows -> exists s, In s targets /\ pk' s = fk r.
End Unique.
Arguments unique_by {R} pk {K} key rows.
Arguments unique_opt {R} pk key rows.
Arguments resolves {R} {S} fk pk' rows targets.

(** What the database guarantees between two requests: primary keys,
    the unique columns of models.py ([Payment.booking] is one-to-one,
    [chapa_transaction_id], [chapa_reference], [booking_reference],
    [unique_together] of [Review]), the foreign keys, and keys below the
    sequences.  A stored booking has a reference ([Booking.save]). *)
Record db_wf (db : DB) : Prop := mk_wf {
  wf_payment_pk : NoDup (map Payment.id (payments db));
  wf_payment_booking : unique_by Payment.id Payment.booking (payments db);
  wf_payment_txid : unique_opt Payment.id Payment.chapa_transaction_id (payments db);
  wf_payment_reference : unique_opt Payment.id Payment.chapa_reference (payments db);
  wf_payment_fk : resolves Payment.booking Booking.id (payments db) (bookings db);
  wf_payment_seq : forall p, In p (payments db) -> Payment.id p < payment_seq db;
  wf_booking_pk : NoDup (map Booking.id (bookings db));
  wf_booking_reference : unique_by Booking.id Booking.booking_reference (bookings db);
  wf_booking_has_reference :
    forall b, In b (bookings db) -> Booking.booking_reference b <> "";
  wf_booking_fk : resolves Booking.destination Destination.id (bookings db) (destinations db);
  wf_review_pk : NoDup (map Review.id (reviews db));
  wf_review_pair : unique_by Review.id Review.pair (reviews db);
  wf_review_seq : forall r, In r (reviews db) -> Review.id r < review_seq db
}.

(** The row [Payment.update_status] writes. *)
Definition Payment_updated (env : Env) (new_status : string) (chapa_response : pyval)
    (p : Payment.t) : Payment.t :=
  Payment.mk (Payment.id p) (Payment.booking p) (Payment.amount p) (Payment.currency p)
    (Payment.payment_method p) new_status
    (Payment.chapa_transaction_id p) (Payment.chapa_reference p)
    (Payment.chapa_payment_url p)
    (if truthy chapa_response then chapa_response else Payment.verification_response p)
    (if new_status =? "completed" then Some (now env) else Payment.payment_date p)
    (Payment.created_at p) (now env).

(** The row the views write when they confirm a booking. *)
Definition Booking_confirmed (env : Env) (b : Booking.t) : Booking.t :=
  Booking.set_updated_at (now env) (Booking.set_status "confirmed" b).

(** The state after a payment is marked and, for a success, its booking
    confirmed. *)
Definition mark_payment (env : Env) (new_status : string) (payload : pyval)
    (p : Payment.t) (db : DB) : DB :=
  set_payments (replace_row Payment.id (Payment_updated env new_status payload p)
                  (payments db)) db.

Definition confirm_booking (env : Env) (b : Booking.t) (db : DB) : DB :=
  set_bookings (replace_row Booking.id (Booking_confirmed env b) (bookings db)) db.

(** The local status a gateway status is mapped to by [verify_payment]. *)
Definition local_status (chapa_status : pyval) : string :=
  if eq_str chapa_status "success" then "completed"
  else if eq_str chapa_status "failed" then "failed"
  else "processing".

(** The client got an error. *)
Definition is_error (o : outcome) : Prop := 400 <= http_status o.

(** ** A small database for the examples *)

Definition alice : User.t := User.mk 1 "alice" "alice@example.com" "Alice" "Obi".
Definition bob : User.t := User.mk 2 "bob" "bob@example.com" "Bob" "Ade".

Definition lagos : Destination.t :=
  Destination.mk 1 "Lagos" "Beach and city" None 10000 "Nigeria" 0 0.

(** Alice's booking of five nights, 500.00 in total. *)
Definition booking1 : Booking.t :=
  Booking.mk 1 1 1 30 35 2 50000 "pending" "REF-1" "" 5 5.

Definition payment1 : Payment.t :=
  Payment.mk 1 1 50000 "NGN" "card" "pending" (Some "TXN123") (Some "CHAPA-REF-1")
    (Some "https://checkout.chapa.co/1") PNone None 6 6.

Definition review1 : Review.t := Review.mk 1 1 1 5 "Great" 7 7.

Definition db_unpaid : DB := mkDB [lagos] [booking1] [] [] 1 1.
Definition db_paid : DB := mkDB [lagos] [booking1] [payment1] [review1] 2 2.

Definition env_at (t : Z) (reply : http_reply) : Env :=
  mkEnv t "0f8fad5b-d9cb-469f-a165-70867728950e" reply false (fun _ => "").

Definition gateway_down : http_reply := TransportError "Connection refused".

Definition gateway_says (chapa_status : string) : http_reply :=
  HttpReply 200 "" (inr (PDict [("data", PDict [("status", PStr chapa_status)])])).

Definition webhook_success : pyval :=
  PDict [("id", PStr "TXN123"); ("status", PStr "success")].

(** ** Notions used in the statements *)

(** A gateway call that fails: a transport error, or a status other than
    200. *)
Definition gateway_failed (env : Env) : Prop :=
  match gateway env with
  | TransportError _ => True
  | HttpReply code _ _ => code <> 200
  end.

(** What [verify_payment] answers when the gateway reported [chapa_status]. *)
Definition verified_response (chapa_status : pyval) (p : Payment.t) : Response :=
  mkResponse
    (PDict [("message",
             PStr (if eq_str chapa_status "success" then "Payment verified successfully"
                   else if eq_str chapa_status "failed" then "Payment verification failed"
                   else "Payment is being processed"));
            ("status", PStr (local_status chapa_status));
            ("payment_id", PInt (Payment.id p))])
    HTTP_200_OK.

(** The state [verify_payment] leaves when the gateway reported
    [chapa_status] for the payment [p] of the booking [b]. *)
Definition verified_state (env : Env) (chapa_status response_data : pyval)
    (p : Payment.t) (b : Booking.t) (db : DB) : DB :=
  if eq_str chapa_status "success"
  then confirm_booking env b (mark_payment env "completed" response_data p db)
  else mark_payment env (local_status chapa_status) response_data p db.

(** The state a webhook delivery leaves for the payment [p] of the
    booking [b]. *)
Definition webhook_state (env : Env) (status webhook_data : pyval)
    (p : Payment.t) (b : Booking.t) (db : DB) : DB :=
  if eq_str status "success"
  then confirm_booking env b (mark_payment env "completed" webhook_data p db)
  else if eq_str status "failed"
       then mark_payment env "failed" webhook_data p db
       else db.

(** [m] ends in an exception when run from [db]. *)
Definition raises {A : Type} (m : M A) (db : DB) : Prop :=
  exists e db', m db = (Raise e, db').

(** A field check reads nothing and fails with a [ValidationError] only. *)
Definition validates {A : Type} (m : M A) : Prop :=
  forall db, (exists a, m db = (Ok a, db))
             \/ (exists msg, m db = (Raise (ValidationError msg), db)).

(** [hoare P m Q]: run from a state in [P], [m] ends with a result and a
    state in [Q]. *)
Definition hoare {A : Type} (P : DB -> Prop) (m : M A) (Q : result A -> DB -> Prop) : Prop :=
  forall db, P db -> Q (fst (m db)) (snd (m db)).

(** [m] reads the database and writes nothing. *)
Definition pure {A : Type} (m : M A) : Prop := forall db, snd (m db) = db.

(** The constraints hold and a row that was returned is in its table. *)
Definition stored_payment (r : result Payment.t) (db : DB) : Prop :=
  db_wf db /\ forall p, r = Ok p -> In p (payments db).

Definition stored_booking (r : result Booking.t) (db : DB) : Prop :=
  db_wf db /\ forall b, r = Ok b -> In b (bookings db).

Definition stored_review (r : result Review.t) (db : DB) : Prop :=
  db_wf db /\ forall x, r = Ok x -> In x (reviews db).

(** Whatever the result, the constraints hold afterwards. *)
Definition keeps_wf {A : Type} (m : M A) : Prop :=
  hoare db_wf m (fun _ db => db_wf db).

(** The row [initiate_payment] creates for a booking, and the state it
    leaves. *)
Definition Payment_created (env : Env) (booking : Booking.t) (currency payment_method : string)
    (transaction_id reference payment_url : pyval) (db : DB) : Payment.t :=
  Payment.mk (payment_seq db) (Booking.id booking) (Booking.total_amount booking)
    currency payment_method "pending" (to_python env transaction_id)
    (to_python env reference) (to_python env payment_url) PNone None (now env) (now env).

Definition add_payment (p : Payment.t) (db : DB) : DB :=
  mkDB (destinations db) (bookings db) (payments db ++ [p]) (reviews db)
       (payment_seq db + 1) (review_seq db).

(** No stored payment carries this value in the column. *)
Definition fresh_in (key : Payment.t -> option string) (v : option string) (db : DB) : Prop :=
  forall q, In q (payments db) -> opt_clash (key q) v = false.

(** The gateway answered 200 with a JSON object whose ["data"] member, when
    there is one, is an object: what [ChapaPaymentAPI] takes for a success. *)
Definition gateway_accepts (env : Env) : Prop :=
  exists text kvs,
    gateway env = HttpReply 200 text (inr (PDict kvs))
    /\ (assoc "data" kvs = None \/ exists d, assoc "data" kvs = Some (PDict d)).

(** [d.get(k)] on the members of an object. *)
Definition member (k : string) (kvs : list (string * pyval)) : pyval :=
  match assoc k kvs with
  | Some v => v
  | None => PNone
  end.

(** [ReviewSerializer(review).data] for a review of [user] at [dest]. *)
Definition Review_data (user : User.t) (dest : Destination.t) (r : Review.t) : pyval :=
  PDict [("id", PInt (Review.id r)); ("user", UserSerializer_data user);
         ("destination", DestinationSerializer_data dest);
         ("rating", PInt (Review.rating r)); ("comment", PStr (Review.comment r));
         ("created_at", PDatetime (Review.created_at r));
         ("updated_at", PDatetime (Review.updated_at r))].

(** The destination with this key, found by a lookup. *)
Definition destination_at (k : Z) (dest : Destination.t) (db : DB) : Prop :=
  filter (fun d => (Destination.id d =? k)%Z) (destinations db) = [dest].

Definition add_review (r : Review.t) (db : DB) : DB :=
  mkDB (destinations db) (bookings db) (payments db) (reviews db ++ [r])
       (payment_seq db) (review_seq db + 1).

(** A second destination, and a database where Alice reviewed both. *)
Definition accra : Destination.t :=
  Destination.mk 2 "Accra" "Coast and markets" None 8000 "Ghana" 0 0.

Definition review2 : Review.t := Review.mk 2 1 2 4 "Nice" 8 8.

Definition db_reviews : DB :=
  mkDB [lagos; accra] [booking1] [payment1] [review1; review2] 2 3.

(** * Facts about tables *)

Section TableFacts.
Variable R : Type.
Variable pk : R -> Z.

Lemma pk_inj (rows : list R) (q r : R) :
  NoDup (map pk rows) -> In q rows -> In r rows -> pk q = pk r -> q = r.
Proof.
  induction rows as [|a rows IH]; simpl; [tauto|].
  intros Hnd Hq Hr Heq. inversion Hnd as [|? ? Hnotin Hnd']; subst.
  destruct Hq as [->|Hq], Hr as [->|Hr]; auto.
  - exfalso. apply Hnotin. rewrite Heq. now apply in_map.
  - exfalso. apply Hnotin. rewrite <- Heq. now apply in_map.
Qed.

Lemma map_pk_replace_row (r : R) (rows : list R) :
  map pk (replace_row pk r rows) = map pk rows.
Proof.
  unfold replace_row. rewrite map_map. apply map_ext_in.
  intros q _. destruct (pk q =? pk r)%Z eqn:E; [|reflexivity].
  apply Z.eqb_eq in E. now symmetry.
Qed.

Lemma In_replace_row (r : R) (rows : list R) (q' : R) :
  In q' (replace_row pk r rows) ->
  (q' = r /\ exists q, In q rows /\ pk q = pk r) \/ (In q' rows /\ pk q' <> pk r).
Proof.
  unfold replace_row. rewrite in_map_iff. intros [q [Hq Hin]].
  destruct (pk q =? pk r)%Z eqn:E.
  - apply Z.eqb_eq in E. left. split; [now symmetry|]. now exists q.
  - apply Z.eqb_neq in E. subst q'. now right.
Qed.

Lemma In_replace_row_new (r : R) (rows : list R) (q : R) :
  In q rows -> pk q = pk r -> In r (replace_row pk r rows).
Proof.
  intros Hin Heq. unfold replace_row. apply in_map_iff. exists q.
  split; [|assumption]. apply Z.eqb_eq in Heq. now rewrite Heq.
Qed.

Lemma In_replace_row_old (r : R) (rows : list R) (q : R) :
  In q rows -> pk q <> pk r -> In q (replace_row pk r rows).
Proof.
  intros Hin Hne. unfold replace_row. apply in_map_iff. exists q.
  split; [|assumption]. apply Z.eqb_neq in Hne. now rewrite Hne.
Qed.

Lemma upsert_present (r : R) (rows : list R) (q : R) :
  In q rows -> pk q = pk r -> upsert pk r rows = replace_row pk r rows.
Proof.
  intros Hin Heq. unfold upsert.
  replace (existsb (fun q0 => (pk q0 =? pk r)%Z) rows) with true; [reflexivity|].
  symmetry. apply existsb_exists. exists q. split; [assumption|]. now apply Z.eqb_eq.
Qed.

Lemma unique_by_replace {K : Type} (key : R -> K) (r : R) (rows : list R) :
  unique_by pk key rows ->
  (forall q, In q rows -> key q = key r -> pk q = pk r) ->
  unique_by pk key (replace_row pk r rows).
Proof.
  intros Hu Hr a b Ha Hb Hk.
  apply In_replace_row in Ha. apply In_replace_row in Hb.
  destruct Ha as [[-> _]|[Ha Hna]], Hb as [[-> _]|[Hb Hnb]]; auto.
  symmetry. apply Hr; auto.
Qed.

Lemma unique_opt_replace (key : R -> option string) (r : R) (rows : list R) :
  unique_opt pk key rows ->
  (forall q t, In q rows -> key q = Some t -> key r = Some t -> pk q = pk r) ->
  unique_opt pk key (replace_row pk r rows).
Proof.
  intros Hu Hr a b t Ha Hb Hka Hkb.
  apply In_replace_row in Ha. apply In_replace_row in Hb.
  destruct Ha as [[-> _]|[Ha Hna]], Hb as [[-> _]|[Hb Hnb]]; eauto.
  symmetry. eapply Hr; eauto.
Qed.

(** Appending a row under a fresh key. *)
Lemma unique_by_app {K : Type} (key : R -> K) (r : R) (rows : list R) :
  unique_by pk key rows ->
  (forall q, In q rows -> key q = key r -> pk q = pk r) ->
  unique_by pk key (rows ++ [r]).
Proof.
  intros Hu Hr a b Ha Hb Hk.
  apply in_app_or in Ha. apply in_app_or in Hb. simpl in Ha, Hb.
  destruct Ha as [Ha|[<-|[]]], Hb as [Hb|[<-|[]]]; auto.
  symmetry. apply Hr; auto.
Qed.

Lemma NoDup_pk_app (r : R) (rows : list R) :
  NoDup (map pk rows) -> (forall q, In q rows -> pk q <> pk r) ->
  NoDup (map pk (rows ++ [r])).
Proof.
  intros Hnd Hfresh. rewrite map_app. simpl.
  apply NoDup_app; [assumption|repeat constructor; simpl; tauto|].
  intros k Hk [<-|[]]. apply in_map_iff in Hk. destruct Hk as [q [Hq Hin]].
  now apply (Hfresh q).
Qed.

Lemma NoDup_pk_delete (k : Z) (rows : list R) :
  NoDup (map pk rows) -> NoDup (map pk (delete_row pk k rows)).
Proof.
  unfold delete_row. induction rows as [|a rows IH]; simpl; [auto|].
  intros Hnd. inversion Hnd as [|? ? Hnotin Hnd']; subst.
  destruct (negb (pk a =? k)%Z); simpl; auto.
  constructor; auto. intros Hin. apply Hnotin.
  apply in_map_iff in Hin. destruct Hin as [q [Hq Hin]].
  apply filter_In in Hin. rewrite <- Hq. apply in_map. tauto.
Qed.

(** A unique column without repeated keys has no repeated value. *)
Lemma unique_by_NoDup {K : Type} (key : R -> K) (rows : list R) :
  NoDup (map pk rows) -> unique_by pk key rows -> NoDup (map key rows).
Proof.
  induction rows as [|a rows IH]; simpl; intros Hnd Hu; [constructor|].
  inversion Hnd as [|? ? Hnotin Hnd']; subst. constructor.
  - intros Hin. apply in_map_iff in Hin. destruct Hin as [q [Hq Hin]].
    apply Hnotin. rewrite <- (Hu q a); simpl; auto. now apply in_map.
  - apply IH; [assumption|]. intros q r Hq Hr. apply Hu; simpl; auto.
Qed.

(** A query that can match one row only returns that row. *)
Lemma filter_unique (P : R -> bool) (rows : list R) (p : R) :
  NoDup (map pk rows) -> In p rows -> P p = true ->
  (forall q, In q rows -> P q = true -> pk q = pk p) ->
  filter P rows = [p].
Proof.
  induction rows as [|a rows IH]; simpl; [tauto|].
  intros Hnd Hin Hp Hu. inversion Hnd as [|? ? Hnotin Hnd']; subst.
  assert (Hrest : forall q, In q rows -> P q = true -> pk q = pk p) by auto.
  destruct Hin as [->|Hin].
  - rewrite Hp. f_equal.
    destruct (filter P rows) as [|q l] eqn:E; [reflexivity|].
    exfalso. assert (Hq : In q (filter P rows)) by (rewrite E; now left).
    apply filter_In in Hq. destruct Hq as [Hq HPq].
    apply Hnotin. rewrite <- (Hrest q Hq HPq). now apply in_map.
  - destruct (P a) eqn:Ea.
    + exfalso. apply Hnotin. rewrite (Hu a); auto. now apply in_map.
    + now apply IH.
Qed.

Lemma filter_none (P : R -> bool) (rows : list R) :
  (forall q, In q rows -> P q = false) -> filter P rows = [].
Proof.
  induction rows as [|a rows IH]; simpl; intros H; [reflexivity|].
  rewrite (H a) by auto. apply IH. auto.
Qed.

Lemma fk_ok_iff (k : Z) (rows : list R) :
  fk_ok pk k rows = true <-> exists q, In q rows /\ pk q = k.
Proof.
  unfold fk_ok. rewrite existsb_exists. split; intros [q [Hin Hq]]; exists q.
  - split; [assumption|]. now apply Z.eqb_eq.
  - split; [assumption|]. now apply Z.eqb_eq.
Qed.
End TableFacts.

(** * Facts about the models *)

Lemma opt_clash_true (a b : option string) :
  opt_clash a b = true <-> exists t, a = Some t /\ b = Some t.
Proof.
  destruct a as [x|], b as [y|]; simpl; split; try discriminate;
    try (intros [t [H1 H2]]; discriminate).
  - intros H. apply String.eqb_eq in H. subst. now exists y.
  - intros [t [H1 H2]]. inversion H1; inversion H2; subst. apply String.eqb_refl.
Qed.

Lemma has_txid_true (t : string) (p : Payment.t) :
  has_txid t p = true <-> Payment.chapa_transaction_id p = Some t.
Proof.
  unfold has_txid. rewrite opt_clash_true. split.
  - intros [t' [H1 H2]]. now inversion H2; subst.
  - intros H. now exists t.
Qed.

Lemma existsb_false_In {A : Type} (f : A -> bool) (l : list A) (x : A) :
  existsb f l = false -> In x l -> f x = false.
Proof.
  intros H Hin. apply not_true_is_false. intros Hx.
  assert (Hex : existsb f l = true) by (apply existsb_exists; now exists x).
  congruence.
Qed.

(** The three unique columns of a payment, as the check reads them. *)
Lemma Payment_violates_unique_false (p : Payment.t) (rows : list Payment.t) :
  Payment_violates_unique p rows = false <->
  (forall q, In q rows -> Payment.id q <> Payment.id p ->
     Payment.booking q <> Payment.booking p
     /\ opt_clash (Payment.chapa_transaction_id q) (Payment.chapa_transaction_id p) = false
     /\ opt_clash (Payment.chapa_reference q) (Payment.chapa_reference p) = false).
Proof.
  unfold Payment_violates_unique. split.
  - intros H q Hin Hne.
    assert (Hq := existsb_false_In _ _ q H Hin). simpl in Hq.
    apply Z.eqb_neq in Hne. rewrite Hne in Hq. simpl in Hq.
    apply orb_false_iff in Hq. destruct Hq as [Hq H3].
    apply orb_false_iff in Hq. destruct Hq as [H1 H2].
    apply Z.eqb_neq in H1. auto.
  - intros H. apply not_true_is_false. intros Hex.
    apply existsb_exists in Hex. destruct Hex as [q [Hin Hq]].
    apply andb_true_iff in Hq. destruct Hq as [Hne Hq].
    apply negb_true_iff in Hne. apply Z.eqb_neq in Hne.
    destruct (H q Hin Hne) as [H1 [H2 H3]].
    apply Z.eqb_neq in H1. rewrite H1, H2, H3 in Hq. discriminate.
Qed.

Lemma Booking_violates_unique_false (b : Booking.t) (rows : list Booking.t) :
  Booking_violates_unique b rows = false <->
  (forall q, In q rows -> Booking.id q <> Booking.id b ->
     Booking.booking_reference q <> Booking.booking_reference b).
Proof.
  unfold Booking_violates_unique. split.
  - intros H q Hin Hne.
    assert (Hq := existsb_false_In _ _ q H Hin). simpl in Hq.
    apply Z.eqb_neq in Hne. rewrite Hne in Hq. simpl in Hq.
    now apply String.eqb_neq in Hq.
  - intros H. apply not_true_is_false. intros Hex.
    apply existsb_exists in Hex. destruct Hex as [q [Hin Hq]].
    apply andb_true_iff in Hq. destruct Hq as [Hne Hq].
    apply negb_true_iff in Hne. apply Z.eqb_neq in Hne.
    apply String.eqb_eq in Hq. now apply (H q Hin Hne).
Qed.

Lemma Review_violates_unique_false (r : Review.t) (rows : list Review.t) :
  Review_violates_unique r rows = false <->
  (forall q, In q rows -> Review.id q <> Review.id r -> Review.pair q <> Review.pair r).
Proof.
  unfold Review_violates_unique, Review.pair. split.
  - intros H q Hin Hne Hpair.
    assert (Hq := existsb_false_In _ _ q H Hin). simpl in Hq.
    apply Z.eqb_neq in Hne. rewrite Hne in Hq. simpl in Hq.
    inversion Hpair as [[Hu Hd]]. rewrite Hu, Hd, !Z.eqb_refl in Hq. discriminate.
  - intros H. apply not_true_is_false. intros Hex.
    apply existsb_exists in Hex. destruct Hex as [q [Hin Hq]].
    apply andb_true_iff in Hq. destruct Hq as [Hq Hd].
    apply andb_true_iff in Hq. destruct Hq as [Hne Hu].
    apply negb_true_iff in Hne. apply Z.eqb_neq in Hne.
    apply Z.eqb_eq in Hu, Hd. apply (H q Hin Hne). now rewrite Hu, Hd.
Qed.

Lemma opt_clash_false_of_unique (rows : list Payment.t) (key : Payment.t -> option string)
    (p q : Payment.t) :
  unique_opt Payment.id key rows -> In p rows -> In q rows ->
  Payment.id q <> Payment.id p -> opt_clash (key q) (key p) = false.
Proof.
  intros Hu Hp Hq Hne. apply not_true_is_false. intros Hc.
  apply opt_clash_true in Hc. destruct Hc as [t [H1 H2]].
  apply Hne. eapply Hu; eauto.
Qed.

(** A stored payment passes the checks again when its unique columns are
    left alone. *)
Lemma Payment_save_stored (env : Env) (p p' : Payment.t) (db : DB) :
  db_wf db -> In p (payments db) ->
  Payment.id p' = Payment.id p -> Payment.booking p' = Payment.booking p ->
  Payment.chapa_transaction_id p' = Payment.chapa_transaction_id p ->
  Payment.chapa_reference p' = Payment.chapa_reference p ->
  Payment_save env p' db =
  (Ok (Payment.set_updated_at (now env) p'),
   set_payments (replace_row Payment.id (Payment.set_updated_at (now env) p') (payments db)) db).
Proof.
  intros Hwf Hin Hid Hb Ht Hr. unfold Payment_save.
  replace (Payment_violates_unique (Payment.set_updated_at (now env) p') (payments db))
    with false.
  - replace (fk_ok Booking.id (Payment.booking (Payment.set_updated_at (now env) p'))
               (bookings db)) with true.
    + simpl. rewrite (upsert_present _ Payment.id _ _ p); auto.
    + symmetry. apply fk_ok_iff. simpl. rewrite Hb.
      exact (wf_payment_fk db Hwf p Hin).
  - symmetry. apply Payment_violates_unique_false. simpl.
    rewrite Hid, Hb, Ht, Hr. intros q Hq Hne. repeat split.
    + intros Heq. apply Hne. now apply (wf_payment_booking db Hwf q p).
    + apply (opt_clash_false_of_unique (payments db)); auto. apply Hwf.
    + apply (opt_clash_false_of_unique (payments db)); auto. apply Hwf.
Qed.

(** [update_status] on a stored payment writes [Payment_updated]. *)
Lemma Payment_update_status_stored (env : Env) (new_status : string) (payload : pyval)
    (p : Payment.t) (db : DB) :
  db_wf db -> In p (payments db) ->
  Payment_update_status env new_status payload p db =
  (Ok (Payment_updated env new_status payload p), mark_payment env new_status payload p db).
Proof.
  intros Hwf Hin. unfold Payment_update_status.
  rewrite (Payment_save_stored env p) by
    (auto; destruct (truthy payload), (new_status =? "completed"); reflexivity).
  unfold mark_payment, Payment_updated.
  destruct (truthy payload), (new_status =? "completed"); reflexivity.
Qed.

Lemma Booking_save_stored (env : Env) (b : Booking.t) (db : DB) :
  db_wf db -> In b (bookings db) ->
  Booking_save env (Booking.set_status "confirmed" b) db =
  (Ok (Booking_confirmed env b), confirm_booking env b db).
Proof.
  intros Hwf Hin. unfold Booking_save. simpl.
  assert (Href : (Booking.booking_reference b =? "") = false)
    by (apply String.eqb_neq; now apply (wf_booking_has_reference db Hwf)).
  rewrite Href.
  replace (Booking_violates_unique _ (bookings db)) with false.
  - replace (fk_ok Destination.id _ (destinations db)) with true.
    + simpl. rewrite (upsert_present _ Booking.id _ _ b); auto.
    + symmetry. apply fk_ok_iff. simpl. exact (wf_booking_fk db Hwf b Hin).
  - symmetry. apply Booking_violates_unique_false. simpl.
    intros q Hq Hne Heq. apply Hne. now apply (wf_booking_reference db Hwf q b).
Qed.

(** The booking of a stored payment is found. *)
Lemma Payment_booking_stored (p : Payment.t) (db : DB) :
  db_wf db -> In p (payments db) ->
  exists b, In b (bookings db) /\ Booking.id b = Payment.booking p
            /\ forall p' db', Payment.booking p' = Payment.booking p ->
                              bookings db' = bookings db ->
                              Payment_booking p' db' = (Ok b, db').
Proof.
  intros Hwf Hin. destruct (wf_payment_fk db Hwf p Hin) as [b [Hb Hid]].
  exists b. repeat split; auto. intros p' db' Hp' Hdb'.
  unfold Payment_booking. rewrite Hdb', Hp'.
  rewrite (filter_unique _ Booking.id _ _ b); auto.
  - apply Hwf.
  - now apply Z.eqb_eq.
  - intros q _ Hq. apply Z.eqb_eq in Hq. congruence.
Qed.

(** A stored payment is the one its transaction id finds. *)
Lemma Payment_objects_get_stored (t : string) (p : Payment.t) (db : DB) :
  db_wf db -> In p (payments db) -> Payment.chapa_transaction_id p = Some t ->
  filter (has_txid t) (payments db) = [p].
Proof.
  intros Hwf Hin Ht. apply (filter_unique _ Payment.id); auto.
  - apply Hwf.
  - now apply has_txid_true.
  - intros q Hq Hqt. apply has_txid_true in Hqt.
    now apply (wf_payment_txid db Hwf q p t).
Qed.

(** ** The constraints are kept by the writes *)

Lemma mark_payment_wf (env : Env) (new_status : string) (payload : pyval)
    (p : Payment.t) (db : DB) :
  db_wf db -> In p (payments db) -> db_wf (mark_payment env new_status payload p db).
Proof.
  intros Hwf Hin. destruct Hwf. unfold mark_payment.
  set (p' := Payment_updated env new_status payload p).
  constructor; simpl; auto.
  - now rewrite map_pk_replace_row.
  - apply unique_by_replace; auto. intros q Hq Hk. now apply (wf_payment_booking0 q p).
  - apply unique_opt_replace; auto. intros q t Hq H1 H2.
    now apply (wf_payment_txid0 q p t).
  - apply unique_opt_replace; auto. intros q t Hq H1 H2.
    now apply (wf_payment_reference0 q p t).
  - intros q Hq. apply In_replace_row in Hq.
    destruct Hq as [[-> _]|[Hq _]]; auto. now apply (wf_payment_fk0 p).
  - intros q Hq. apply In_replace_row in Hq.
    destruct Hq as [[-> _]|[Hq _]]; auto. now apply (wf_payment_seq0 p).
Qed.

Lemma confirm_booking_wf (env : Env) (b : Booking.t) (db : DB) :
  db_wf db -> In b (bookings db) -> db_wf (confirm_booking env b db).
Proof.
  intros Hwf Hin. destruct Hwf. unfold confirm_booking.
  set (b' := Booking_confirmed env b).
  constructor; simpl; auto.
  - intros q Hq. destruct (wf_payment_fk0 q Hq) as [s [Hs Hid]].
    destruct (Z.eq_dec (Booking.id s) (Booking.id b')) as [E|E].
    + exists b'. split; [|congruence]. now apply (In_replace_row_new _ Booking.id _ _ s).
    + exists s. split; [|assumption]. now apply In_replace_row_old.
  - now rewrite map_pk_replace_row.
  - apply unique_by_replace; auto. intros q Hq Hk. now apply (wf_booking_reference0 q b).
  - intros q Hq. apply In_replace_row in Hq.
    destruct Hq as [[-> _]|[Hq _]]; auto. now apply (wf_booking_has_reference0 b).
  - intros q Hq. apply In_replace_row in Hq.
    destruct Hq as [[-> _]|[Hq _]]; auto. now apply (wf_booking_fk0 b).
Qed.

Lemma get_after_mark (env : Env) (new_status : string) (payload : pyval)
    (t : string) (p : Payment.t) (db db' : DB) :
  db_wf db -> In p (payments db) -> Payment.chapa_transaction_id p = Some t ->
  payments db' = payments (mark_payment env new_status payload p db) ->
  Payment_objects_get t db' = (Ok (Payment_updated env new_status payload p), db').
Proof.
  intros Hwf Hin Ht Hdb'. unfold Payment_objects_get. rewrite Hdb'.
  rewrite (Payment_objects_get_stored t (Payment_updated env new_status payload p)).
  - reflexivity.
  - now apply mark_payment_wf.
  - simpl. now apply (In_replace_row_new _ Payment.id _ _ p).
  - exact Ht.
Qed.

Lemma booking_after_confirm (env : Env) (b : Booking.t) (p : Payment.t) (db : DB) :
  db_wf db -> In b (bookings db) -> Booking.id b = Payment.booking p ->
  Payment_booking p (confirm_booking env b db) =
  (Ok (Booking_confirmed env b), confirm_booking env b db).
Proof.
  intros Hwf Hin Hid. unfold Payment_booking.
  rewrite (filter_unique _ Booking.id _ _ (Booking_confirmed env b)); auto.
  - simpl. rewrite map_pk_replace_row. apply Hwf.
  - simpl. now apply (In_replace_row_new _ Booking.id _ _ b).
  - simpl. now apply Z.eqb_eq.
  - intros q _ Hq. apply Z.eqb_eq in Hq. simpl. congruence.
Qed.

(** * Facts about the serializers and the gateway client *)

Lemma verification_is_valid (t : string) (p : Payment.t) (db : DB) :
  db_wf db -> In p (payments db) -> Payment.chapa_transaction_id p = Some t ->
  t <> "" -> (String.length t <= 100)%nat ->
  PaymentVerificationSerializer.is_valid
    (PaymentVerificationSerializer.mk_data (Parsed t)) db = (Ok (inr t), db).
Proof.
  intros Hwf Hin Ht Hne Hlen.
  unfold PaymentVerificationSerializer.is_valid, run_field, try_except, bind, CharField.
  simpl. apply String.eqb_neq in Hne. rewrite Hne.
  apply Nat.ltb_ge in Hlen. rewrite Hlen.
  unfold PaymentVerificationSerializer.validate_transaction_id, try_except, bind,
    Payment_objects_get, ret.
  now rewrite (Payment_objects_get_stored t p db).
Qed.

Lemma verification_not_found (t : string) (db : DB) :
  filter (has_txid t) (payments db) = [] ->
  exists msg,
    PaymentVerificationSerializer.is_valid
      (PaymentVerificationSerializer.mk_data (Parsed t)) db
    = (Ok (inl [("transaction_id", PList [PStr msg])]), db)
    /\ (t <> "" -> (String.length t <= 100)%nat -> msg = "Transaction ID not found").
Proof.
  intros Hnone.
  unfold PaymentVerificationSerializer.is_valid, run_field, try_except, bind, CharField.
  simpl. destruct (t =? "") eqn:Eb.
  - unfold ret. simpl. eexists. split; [reflexivity|].
    intros Hne. apply String.eqb_eq in Eb. contradiction.
  - destruct (100 <? String.length t)%nat eqn:El.
    + unfold ret. simpl. eexists. split; [reflexivity|].
      intros _ Hlen. apply Nat.ltb_lt in El. lia.
    + unfold PaymentVerificationSerializer.validate_transaction_id, try_except, bind,
        Payment_objects_get, ret. rewrite Hnone. simpl. eexists. split; reflexivity.
Qed.

(** Unfolds the operations of the monad and reduces what is decided. *)
Ltac monad_simp :=
  cbv beta iota zeta delta [bind ret raise try_except lift write Exception].

(** The gateway client never raises and leaves the database alone. *)
Lemma ChapaPaymentAPI_verify_payment_total (env : Env) (t : string) :
  exists r, forall db, ChapaPaymentAPI_verify_payment env t db = (Ok r, db).
Proof.
  unfold ChapaPaymentAPI_verify_payment, requests_call.
  destruct (gateway env) as [msg|code text json]; monad_simp; [eauto|].
  destruct (code =? 200)%Z; monad_simp; [|eauto].
  unfold response_json. destruct json as [msg|response_data]; monad_simp; [eauto|].
  unfold data_get. monad_simp.
  destruct (py_get response_data "data" (PDict [])) as [d|e]; monad_simp; [|eauto].
  destruct (py_get d "status" PNone); monad_simp; [|eauto].
  destruct (py_get d "amount" PNone); monad_simp; [|eauto].
  destruct (py_get d "currency" PNone); monad_simp; eauto.
Qed.

Lemma ChapaPaymentAPI_initiate_payment_failed (env : Env) (booking : Booking.t)
    (payment_method currency : string) (db : DB) :
  gateway_failed env ->
  exists error details,
    ChapaPaymentAPI_initiate_payment env booking payment_method currency db
    = (Ok (InitiateFailed error details), db).
Proof.
  unfold gateway_failed. intros Hfail.
  unfold ChapaPaymentAPI_initiate_payment, requests_call, Booking_destination.
  monad_simp.
  destruct (get MDestination _) as [d|e].
  - destruct (gateway env) as [msg|code text json]; monad_simp; [eauto|].
    apply Z.eqb_neq in Hfail. rewrite Hfail. monad_simp. eauto.
  - destruct e; monad_simp; eauto.
Qed.

(** * Facts about the views *)

Lemma verify_payment_verified (env : Env) (u : User.t) (t : string) (p : Payment.t)
    (db : DB) (response_data st am cur : pyval) :
  db_wf db -> In p (payments db) -> Payment.chapa_transaction_id p = Some t ->
  t <> "" -> (String.length t <= 100)%nat ->
  ChapaPaymentAPI_verify_payment env t db = (Ok (Verified response_data st am cur), db) ->
  exists b, In b (bookings db) /\ Booking.id b = Payment.booking p
    /\ verify_payment env u (PaymentVerificationSerializer.mk_data (Parsed t)) db
       = (Ok (verified_response st p), verified_state env st response_data p b db).
Proof.
  intros Hwf Hin Ht Hne Hlen Hapi.
  destruct (Payment_booking_stored p db Hwf Hin) as [b [Hb [Hid Hget]]].
  exists b. split; [assumption|]. split; [assumption|].
  unfold verify_payment. monad_simp.
  rewrite (verification_is_valid t p db) by assumption.
  unfold verify_payment_try. monad_simp.
  rewrite (Payment_objects_get_stored t p db) by assumption.
  unfold get_object_or_404, get. rewrite Hapi.
  unfold verified_response, verified_state, local_status.
  destruct (eq_str st "success").
  - rewrite (Payment_update_status_stored env "completed" response_data p db) by assumption.
    rewrite (Hget (Payment_updated env "completed" response_data p)
               (mark_payment env "completed" response_data p db)) by reflexivity.
    rewrite (Booking_save_stored env b (mark_payment env "completed" response_data p db))
      by (try apply mark_payment_wf; assumption).
    reflexivity.
  - destruct (eq_str st "failed").
    + rewrite (Payment_update_status_stored env "failed" response_data p db) by assumption.
      reflexivity.
    + rewrite (Payment_update_status_stored env "processing" response_data p db)
        by assumption.
      reflexivity.
Qed.

Lemma bind_raises_left {A B : Type} (m : M A) (k : A -> M B) (db : DB) :
  raises m db -> raises (bind m k) db.
Proof.
  intros [e [db' H]]. exists e, db'. unfold bind. now rewrite H.
Qed.

Lemma bind_raises_right {A B : Type} (m : M A) (k : A -> M B) (db : DB) :
  (forall a db1, raises (k a) db1) -> raises (bind m k) db.
Proof.
  intros H. unfold raises, bind. destruct (m db) as [[a|e] db1]; [apply H|eauto].
Qed.

Lemma try_except_raises {A : Type} (m : M A) (catches : exn -> bool)
    (handler : exn -> M A) (db : DB) :
  raises m db -> (forall e db1, raises (handler e) db1) ->
  raises (try_except m catches handler) db.
Proof.
  intros [e [db' H]] Hh. unfold raises, try_except. rewrite H.
  destruct (catches e); [apply Hh|eauto].
Qed.

Lemma local_attr_raises (name : string) (local : option pyval) (attr : string) (db : DB) :
  raises (local_attr name local attr) db.
Proof.
  unfold raises, local_attr, raise. destruct local; eauto.
Qed.

(** Every path of the [try] block of the webhook ends in an attribute
    read on the local [status]. *)
Lemma chapa_webhook_try_raises (env : Env) (webhook_data transaction_id status : pyval)
    (db : DB) :
  raises (chapa_webhook_try env webhook_data transaction_id status) db.
Proof.
  unfold chapa_webhook_try. destruct (truthy transaction_id && truthy status).
  - apply try_except_raises.
    + apply bind_raises_right. intros payment db1.
      apply bind_raises_right. intros _ db2.
      apply bind_raises_left, local_attr_raises.
    + intros e db1. apply bind_raises_left, local_attr_raises.
  - apply bind_raises_left, local_attr_raises.
Qed.

Lemma chapa_webhook_raises (env : Env) (u : User.t) (webhook_data : pyval) (db : DB) :
  exists e db',
    chapa_webhook env u webhook_data db = (Raise e, db')
    /\ (e = UnboundLocalError "status" \/ exists msg, e = AttributeError msg).
Proof.
  unfold chapa_webhook. monad_simp.
  destruct (py_get webhook_data "id" PNone) as [transaction_id|e] eqn:Eid.
  - destruct (py_get webhook_data "status" PNone) as [status|e] eqn:Est.
    + destruct (chapa_webhook_try_raises env webhook_data transaction_id status db)
        as [e [db' H]].
      rewrite H. unfold local_attr, no_attribute. monad_simp. eauto 6.
    + destruct webhook_data; simpl in Eid, Est; discriminate.
  - destruct webhook_data; simpl in Eid; try discriminate;
      unfold local_attr; simpl; monad_simp; eauto 6.
Qed.

(** A delivery that names a stored payment: the state is written, then
    the handler fails on [status.HTTP_200_OK] and again on
    [status.HTTP_500_INTERNAL_SERVER_ERROR]. *)
Lemma chapa_webhook_stored (env : Env) (u : User.t) (kvs : list (string * pyval))
    (t : string) (status : pyval) (p : Payment.t) (db : DB) :
  db_wf db -> In p (payments db) -> Payment.chapa_transaction_id p = Some t ->
  t <> "" -> assoc "id" kvs = Some (PStr t) ->
  assoc "status" kvs = Some status -> truthy status = true ->
  exists b, In b (bookings db) /\ Booking.id b = Payment.booking p
    /\ chapa_webhook env u (PDict kvs) db
       = (Raise (no_attribute status "HTTP_500_INTERNAL_SERVER_ERROR"),
          webhook_state env status (PDict kvs) p b db).
Proof.
  intros Hwf Hin Ht Hne Hid Hst Htruthy.
  destruct (Payment_booking_stored p db Hwf Hin) as [b [Hb [Hbid Hget]]].
  exists b. split; [assumption|]. split; [assumption|].
  unfold chapa_webhook, py_get. rewrite Hid, Hst. monad_simp.
  unfold chapa_webhook_try.
  assert (Htid : truthy (PStr t) = true)
    by (simpl; apply negb_true_iff; now apply String.eqb_neq).
  rewrite Htid, Htruthy. cbn [andb py_str]. monad_simp.
  unfold Payment_objects_get at 1.
  rewrite (Payment_objects_get_stored t p db) by assumption.
  unfold get, webhook_state, local_attr. monad_simp.
  destruct (eq_str status "success").
  - rewrite (Payment_update_status_stored env "completed" (PDict kvs) p db) by assumption.
    rewrite (Hget (Payment_updated env "completed" (PDict kvs) p)
               (mark_payment env "completed" (PDict kvs) p db)) by reflexivity.
    rewrite (Booking_save_stored env b (mark_payment env "completed" (PDict kvs) p db))
      by (try apply mark_payment_wf; assumption).
    reflexivity.
  - destruct (eq_str status "failed").
    + rewrite (Payment_update_status_stored env "failed" (PDict kvs) p db) by assumption.
      reflexivity.
    + reflexivity.
Qed.

(** ** Payment initiation *)

(** [validate_booking_id] never returns: a booking of the caller either
    has no payment, and the accessor raises, or has one, and [exists] is
    missing on it. *)
Lemma validate_booking_id_raises (user : User.t) (value : Z) (db : DB) :
  exists e,
    PaymentInitiationSerializer.validate_booking_id user value db = (Raise e, db)
    /\ match e with
       | ValidationError msg => msg = "Booking not found"
       | RelatedObjectDoesNotExist MPayment _ | AttributeError _
       | MultipleObjectsReturned _ => True
       | _ => False
       end.
Proof.
  unfold PaymentInitiationSerializer.validate_booking_id, Booking_payment, Payment_exists.
  monad_simp.
  destruct (filter _ (bookings db)) as [|b [|b' l]]; simpl.
  - eexists. split; [reflexivity|]. reflexivity.
  - destruct (filter _ (payments db)) as [|p [|p' l]]; simpl;
      eexists; (split; [reflexivity|]); exact I.
  - eexists. split; [reflexivity|]. exact I.
Qed.

Lemma validates_required {T : Type} (f : field T) : validates (required f).
Proof.
  intros db. destruct f; simpl; unfold raise, ret; eauto.
Qed.

Lemma validates_CharField (max_length : option nat) (default : option string)
    (f : field string) : validates (CharField max_length default f).
Proof.
  intros db. unfold CharField.
  destruct f as [|msg|v]; [destruct default| |]; unfold raise, ret; eauto.
  destruct (v =? ""); eauto.
  destruct max_length as [n|]; eauto.
  destruct (n <? String.length v)%nat; eauto.
Qed.

Lemma validates_ChoiceField (choices : list string) (f : field string) :
  validates (ChoiceField choices f).
Proof.
  intros db. unfold ChoiceField, bind.
  destruct (validates_required f db) as [[v H]|[msg H]]; rewrite H; eauto.
  destruct (existsb (String.eqb v) choices); unfold raise, ret; eauto.
Qed.

Lemma run_field_validates {A : Type} (name : string) (m : M A) (db : DB) :
  validates m -> exists r, run_field name m db = (Ok r, db).
Proof.
  intros Hm. unfold run_field. monad_simp.
  destruct (Hm db) as [[v H]|[msg H]]; rewrite H; simpl; eauto.
Qed.

(** The serializer of the initiation accepts nothing and writes nothing. *)
Lemma initiation_is_valid_never (user : User.t) (d : PaymentInitiationSerializer.data)
    (db : DB) :
  (exists errors, PaymentInitiationSerializer.is_valid user d db = (Ok (inl errors), db))
  \/ (exists e, PaymentInitiationSerializer.is_valid user d db = (Raise e, db)
                /\ match e with
                   | RelatedObjectDoesNotExist MPayment _ | AttributeError _
                   | MultipleObjectsReturned _ => True
                   | _ => False
                   end).
Proof.
  unfold PaymentInitiationSerializer.is_valid.
  assert (H1 : (exists err, run_field "booking_id"
                    (v <- required (PaymentInitiationSerializer.booking_id d) ;;
                     PaymentInitiationSerializer.validate_booking_id user v) db
                  = (Ok (inl err), db))
               \/ (exists e, run_field "booking_id"
                    (v <- required (PaymentInitiationSerializer.booking_id d) ;;
                     PaymentInitiationSerializer.validate_booking_id user v) db
                  = (Raise e, db)
                  /\ match e with
                     | RelatedObjectDoesNotExist MPayment _ | AttributeError _
                     | MultipleObjectsReturned _ => True
                     | _ => False
                     end)).
  { unfold run_field. monad_simp.
    destruct (validates_required (PaymentInitiationSerializer.booking_id d) db)
      as [[v H]|[msg H]]; rewrite H; simpl; eauto.
    destruct (validate_booking_id_raises user v db) as [e [He Hkind]]. rewrite He.
    destruct e; try contradiction; simpl; eauto. }
  destruct H1 as [[err H1]|[e [H1 Hkind]]].
  - left. unfold bind at 1. rewrite H1.
    destruct (run_field_validates "payment_method"
                (ChoiceField Payment.PAYMENT_METHOD_CHOICES
                   (PaymentInitiationSerializer.payment_method d)) db
                (validates_ChoiceField _ _)) as [r2 H2].
    unfold bind at 1. rewrite H2.
    destruct (run_field_validates "currency"
                (CharField (Some 3%nat) (Some "NGN")
                   (PaymentInitiationSerializer.currency d)) db
                (validates_CharField _ _ _)) as [r3 H3].
    unfold bind at 1. rewrite H3. unfold ret. eauto.
  - right. exists e. split; [|assumption]. unfold bind at 1. now rewrite H1.
Qed.

(** No request to the initiation endpoint writes anything, and each one is
    answered by an error. *)
Lemma initiate_payment_writes_nothing (env : Env) (user : option User.t)
    (d : PaymentInitiationSerializer.data) (db : DB) :
  exists o, dispatch env user (POST_payments_initiate d) db = (o, db) /\ is_error o.
Proof.
  unfold dispatch, api_view, is_error. destruct user as [u|].
  - unfold initiate_payment, bind.
    destruct (initiation_is_valid_never u d db) as [[errors H]|[e [H Hkind]]]; rewrite H.
    + eexists. split; [reflexivity|]. simpl. unfold HTTP_400_BAD_REQUEST. lia.
    + destruct e; try contradiction;
        (eexists; split; [reflexivity|]; simpl; unfold HTTP_500_INTERNAL_SERVER_ERROR; lia).
  - eexists. split; [reflexivity|]. simpl.
    destruct (www_authenticate env);
      unfold HTTP_401_UNAUTHORIZED, HTTP_403_FORBIDDEN; lia.
Qed.

(** The guard of the view itself: [hasattr(booking, 'payment')]. *)
Lemma initiate_payment_try_existing (env : Env)
    (v : PaymentInitiationSerializer.validated_data) (b : Booking.t) (p : Payment.t)
    (db : DB) :
  db_wf db -> In b (bookings db) ->
  Booking.id b = PaymentInitiationSerializer.v_booking_id v ->
  In p (payments db) -> Payment.booking p = Booking.id b ->
  initiate_payment_try env v db =
  (Ok (mkResponse (PDict [("error", PStr "Payment already exists for this booking")])
                  HTTP_400_BAD_REQUEST), db).
Proof.
  intros Hwf Hb Hid Hp Hpb. unfold initiate_payment_try. monad_simp.
  rewrite (filter_unique _ Booking.id _ _ b); auto.
  - unfold get_object_or_404, get, hasattr_payment, Booking_payment. monad_simp.
    rewrite (filter_unique _ Payment.id _ _ p); auto.
    + apply Hwf.
    + now apply Z.eqb_eq.
    + intros q Hq Hqb. apply Z.eqb_eq in Hqb.
      apply (wf_payment_booking db Hwf q p); auto. congruence.
  - apply Hwf.
  - now apply Z.eqb_eq.
  - intros q _ Hq. apply Z.eqb_eq in Hq. congruence.
Qed.

(** With the gateway failing, the [try] block writes nothing, and what it
    returns is a 400. *)
Lemma initiate_payment_try_gateway_failed (env : Env)
    (v : PaymentInitiationSerializer.validated_data) (db : DB) :
  gateway_failed env ->
  exists res, initiate_payment_try env v db = (res, db)
              /\ forall r, res = Ok r -> status_code r = HTTP_400_BAD_REQUEST.
Proof.
  intros Hfail. unfold initiate_payment_try. monad_simp.
  destruct (get_object_or_404 MBooking _) as [b|e].
  - unfold hasattr_payment, Booking_payment. monad_simp.
    destruct (get MPayment _) as [p|e].
    + eexists. split; [reflexivity|]. intros r [= <-]. reflexivity.
    + assert (Hcases :
        (exists error details,
           ChapaPaymentAPI_initiate_payment env b
             (PaymentInitiationSerializer.v_payment_method v)
             (PaymentInitiationSerializer.v_currency v) db
           = (Ok (InitiateFailed error details), db)))
        by now apply ChapaPaymentAPI_initiate_payment_failed.
      destruct Hcases as [error [details Hapi]].
      destruct e; cbn [is_AttributeError];
        try (eexists; split; [reflexivity|]; intros r; discriminate).
      all: rewrite Hapi; eexists; (split; [reflexivity|]); intros r [= <-]; reflexivity.
  - eexists. split; [reflexivity|]. intros r. discriminate.
Qed.

Lemma initiate_payment_view_gateway_failed (env : Env)
    (v : PaymentInitiationSerializer.validated_data) (db : DB) :
  gateway_failed env ->
  exists r,
    try_except (initiate_payment_try env v) Exception
      (fun _ => ret internal_server_error) db = (Ok r, db)
    /\ 400 <= status_code r.
Proof.
  intros Hfail.
  destruct (initiate_payment_try_gateway_failed env v db Hfail) as [res [H Hr]].
  unfold try_except. rewrite H. destruct res as [r|e].
  - exists r. split; [reflexivity|]. rewrite (Hr r eq_refl).
    unfold HTTP_400_BAD_REQUEST. lia.
  - exists internal_server_error. split; [reflexivity|]. simpl.
    unfold HTTP_500_INTERNAL_SERVER_ERROR. lia.
Qed.

(** * A Hoare logic for the monad

    The state written before an exception is the state the exception
    leaves, so a postcondition speaks of both kinds of result. *)

Section HoareRules.
Context {A B : Type}.

Lemma hoare_conseq (P P' : DB -> Prop) (m : M A) (Q Q' : result A -> DB -> Prop) :
  hoare P' m Q' -> (forall db, P db -> P' db) ->
  (forall r db, Q' r db -> Q r db) -> hoare P m Q.
Proof.
  intros H HP HQ db Hdb. apply HQ, H, HP, Hdb.
Qed.

Lemma hoare_ret (P : DB -> Prop) (a : A) (Q : result A -> DB -> Prop) :
  (forall db, P db -> Q (Ok a) db) -> hoare P (ret a) Q.
Proof.
  intros H db Hdb. now apply H.
Qed.

Lemma hoare_raise (P : DB -> Prop) (e : exn) (Q : result A -> DB -> Prop) :
  (forall db, P db -> Q (Raise e) db) -> hoare P (raise e) Q.
Proof.
  intros H db Hdb. now apply H.
Qed.

Lemma hoare_bind (P : DB -> Prop) (m : M A) (R : result A -> DB -> Prop)
    (k : A -> M B) (Q : result B -> DB -> Prop) :
  hoare P m R ->
  (forall a, hoare (R (Ok a)) (k a) Q) ->
  (forall e db, R (Raise e) db -> Q (Raise e) db) ->
  hoare P (bind m k) Q.
Proof.
  intros Hm Hk He db Hdb. specialize (Hm db Hdb). unfold bind.
  destruct (m db) as [[a|e] db1]; simpl in *.
  - now apply Hk.
  - now apply He.
Qed.

Lemma hoare_try_except (P : DB -> Prop) (m : M A) (R : result A -> DB -> Prop)
    (catches : exn -> bool) (handler : exn -> M A) (Q : result A -> DB -> Prop) :
  hoare P m R ->
  (forall a db, R (Ok a) db -> Q (Ok a) db) ->
  (forall e, hoare (R (Raise e)) (handler e) Q) ->
  (forall e db, R (Raise e) db -> Q (Raise e) db) ->
  hoare P (try_except m catches handler) Q.
Proof.
  intros Hm Hok Hh He db Hdb. specialize (Hm db Hdb). unfold try_except.
  destruct (m db) as [[a|e] db1]; simpl in *.
  - now apply Hok.
  - destruct (catches e); [now apply Hh|now apply He].
Qed.

(** A computation that writes nothing keeps whatever holds. *)
Lemma hoare_pure (P : DB -> Prop) (m : M A) :
  pure m -> hoare P m (fun _ db => P db).
Proof.
  intros Hm db Hdb. now rewrite Hm.
Qed.

Lemma pure_ret (a : A) : pure (ret a).
Proof. intros db. reflexivity. Qed.

Lemma pure_raise (e : exn) : pure (@raise A e).
Proof. intros db. reflexivity. Qed.

Lemma pure_lift (r : result A) : pure (lift r).
Proof. intros db. reflexivity. Qed.

Lemma pure_read (f : DB -> result A) : pure (fun db => (f db, db)).
Proof. intros db. reflexivity. Qed.

Lemma pure_bind (m : M A) (k : A -> M B) :
  pure m -> (forall a, pure (k a)) -> pure (bind m k).
Proof.
  intros Hm Hk db. unfold bind. specialize (Hm db).
  destruct (m db) as [[a|e] db1]; simpl in *; subst; [apply Hk|reflexivity].
Qed.

Lemma pure_try_except (m : M A) (catches : exn -> bool) (handler : exn -> M A) :
  pure m -> (forall e, pure (handler e)) -> pure (try_except m catches handler).
Proof.
  intros Hm Hh db. unfold try_except. specialize (Hm db).
  destruct (m db) as [[a|e] db1]; simpl in *; subst; [reflexivity|].
  destruct (catches e); [apply Hh|reflexivity].
Qed.
End HoareRules.

Lemma get_In {R : Type} (m : model) (rows : list R) (r : R) :
  get m rows = Ok r -> In r rows.
Proof.
  destruct rows as [|a [|b l]]; simpl; try discriminate. intros [= ->]. now left.
Qed.

Lemma get_object_or_404_In {R : Type} (m : model) (rows : list R) (r : R) :
  get_object_or_404 m rows = Ok r -> In r rows.
Proof.
  unfold get_object_or_404. destruct (get m rows) as [a|e] eqn:E.
  - intros [= <-]. now apply (get_In m).
  - destruct e; discriminate.
Qed.

(** ** The constraints are kept by every request *)

Lemma keeps_wf_pure {A : Type} (m : M A) : pure m -> keeps_wf m.
Proof.
  intros H. now apply hoare_pure.
Qed.

Lemma hoare_Payment_objects_get (t : string) :
  hoare db_wf (Payment_objects_get t) stored_payment.
Proof.
  intros db Hwf. unfold Payment_objects_get, stored_payment. simpl.
  split; [assumption|]. intros p Hp. apply get_In in Hp.
  apply filter_In in Hp. tauto.
Qed.

Lemma hoare_Payment_update_status (env : Env) (new_status : string) (payload : pyval)
    (p : Payment.t) :
  hoare (fun db => db_wf db /\ In p (payments db))
        (Payment_update_status env new_status payload p) stored_payment.
Proof.
  intros db [Hwf Hin]. rewrite Payment_update_status_stored by assumption.
  unfold stored_payment. simpl. split.
  - now apply mark_payment_wf.
  - intros p' [= <-]. now apply (In_replace_row_new _ Payment.id _ _ p).
Qed.

Lemma hoare_Payment_booking (p : Payment.t) :
  hoare db_wf (Payment_booking p) stored_booking.
Proof.
  intros db Hwf. unfold Payment_booking, stored_booking.
  destruct (get MBooking _) as [b|e] eqn:E.
  - simpl. split; [assumption|]. intros b' [= <-]. apply get_In in E.
    apply filter_In in E. tauto.
  - destruct e; simpl; (split; [assumption|]); intros; discriminate.
Qed.

Lemma hoare_Booking_save_confirmed (env : Env) (b : Booking.t) :
  hoare (fun db => db_wf db /\ In b (bookings db))
        (Booking_save env (Booking.set_status "confirmed" b))
        (fun _ db => db_wf db).
Proof.
  intros db [Hwf Hin]. rewrite Booking_save_stored by assumption. simpl.
  now apply confirm_booking_wf.
Qed.

Lemma pure_ChapaPaymentAPI_verify_payment (env : Env) (t : string) :
  pure (ChapaPaymentAPI_verify_payment env t).
Proof.
  intros db. destruct (ChapaPaymentAPI_verify_payment_total env t) as [r H].
  now rewrite H.
Qed.

Lemma pure_validates {A : Type} (m : M A) : validates m -> pure m.
Proof.
  intros H db. destruct (H db) as [[a E]|[msg E]]; now rewrite E.
Qed.

Lemma pure_run_field {A : Type} (name : string) (m : M A) :
  pure m -> pure (run_field name m).
Proof.
  intros H. unfold run_field. apply pure_try_except.
  - apply pure_bind; [assumption|]. intros a. apply pure_ret.
  - intros e. apply pure_ret.
Qed.

Lemma pure_verification_is_valid (d : PaymentVerificationSerializer.data) :
  pure (PaymentVerificationSerializer.is_valid d).
Proof.
  unfold PaymentVerificationSerializer.is_valid. apply pure_bind.
  - apply pure_run_field. apply pure_bind.
    + apply pure_validates, validates_CharField.
    + intros v. unfold PaymentVerificationSerializer.validate_transaction_id.
      apply pure_try_except.
      * apply pure_bind; [|intros; apply pure_ret].
        unfold Payment_objects_get. apply pure_read.
      * intros e. apply pure_raise.
  - intros [e|t]; apply pure_ret.
Qed.

(** The two writes of a success: the payment, then its booking. *)
Lemma keeps_wf_complete {A : Type} (env : Env) (payload : pyval) (p : Payment.t)
    (k : Payment.t -> M A) :
  (forall p', pure (k p')) ->
  hoare (fun db => db_wf db /\ In p (payments db))
    (payment <- Payment_update_status env "completed" payload p ;;
     booking <- Payment_booking payment ;;
     Booking_save env (Booking.set_status "confirmed" booking) ;;;
     k payment)
    (fun _ db => db_wf db).
Proof.
  intros Hk.
  eapply hoare_bind; [apply hoare_Payment_update_status| |intros e db H; apply H].
  intros payment.
  eapply hoare_bind with (R := stored_booking).
  - eapply hoare_conseq; [apply hoare_Payment_booking| |auto].
    intros db H. apply H.
  - intros booking.
    eapply hoare_bind with (R := fun _ db => db_wf db).
    + eapply hoare_conseq; [apply hoare_Booking_save_confirmed| |auto].
      intros db [Hwf H]. auto.
    + intros _. apply hoare_pure, Hk.
    + auto.
  - intros e db H. apply H.
Qed.

Lemma keeps_wf_verify_payment (env : Env) (u : User.t)
    (d : PaymentVerificationSerializer.data) :
  keeps_wf (verify_payment env u d).
Proof.
  unfold keeps_wf, verify_payment.
  eapply hoare_bind with (R := fun _ db => db_wf db);
    [apply hoare_pure, pure_verification_is_valid| |auto].
  intros [errors|t]; [apply hoare_ret; auto|].
  eapply hoare_try_except with (R := fun _ db => db_wf db); auto;
    [|intros e; apply hoare_ret; auto].
  unfold verify_payment_try.
  eapply hoare_bind with (R := stored_payment); [| |intros e db H; apply H].
  - intros db Hwf. unfold stored_payment. simpl. split; [assumption|].
    intros p Hp. apply get_object_or_404_In in Hp. apply filter_In in Hp. tauto.
  - intros payment.
    eapply hoare_bind with (R := fun _ db => db_wf db /\ In payment (payments db)).
    + eapply hoare_conseq;
        [apply (hoare_pure (fun db => db_wf db /\ In payment (payments db)));
         apply pure_ChapaPaymentAPI_verify_payment| |auto].
      intros db [Hwf H]. auto.
    + intros [response_data chapa_status amount currency|error details];
        [|apply hoare_ret; tauto].
      destruct (eq_str chapa_status "success").
      * apply keeps_wf_complete. intros p'. apply pure_ret.
      * destruct (eq_str chapa_status "failed").
        -- eapply hoare_bind; [apply hoare_Payment_update_status| |intros e db H; apply H].
           intros p'. apply hoare_ret. intros db H. apply H.
        -- eapply hoare_bind; [apply hoare_Payment_update_status| |intros e db H; apply H].
           intros p'. apply hoare_ret. intros db H. apply H.
    + intros e db H. apply H.
Qed.

Lemma pure_local_attr (name : string) (local : option pyval) (attr : string) :
  pure (local_attr name local attr).
Proof.
  unfold local_attr. destruct local; apply pure_raise.
Qed.

Lemma keeps_wf_chapa_webhook_try (env : Env) (webhook_data transaction_id status : pyval) :
  keeps_wf (chapa_webhook_try env webhook_data transaction_id status).
Proof.
  unfold keeps_wf, chapa_webhook_try.
  destruct (truthy transaction_id && truthy status).
  - eapply hoare_try_except with (R := fun _ db => db_wf db); auto.
    + eapply hoare_bind; [apply hoare_Payment_objects_get| |intros e db H; apply H].
      intros payment.
      eapply hoare_bind with (R := fun _ db => db_wf db); auto.
      * eapply hoare_conseq with (P' := fun db => db_wf db /\ In payment (payments db))
                                 (Q' := fun _ db => db_wf db); auto.
        -- destruct (eq_str status "success").
           ++ apply keeps_wf_complete. intros p'. apply pure_ret.
           ++ destruct (eq_str status "failed").
              ** eapply hoare_bind;
                   [apply hoare_Payment_update_status| |intros e db H; apply H].
                 intros p'. apply hoare_ret. intros db H. apply H.
              ** apply hoare_ret. tauto.
        -- intros db [Hwf H]. auto.
      * intros _. apply hoare_pure.
        apply pure_bind; [apply pure_local_attr|intros; apply pure_ret].
    + intros e. apply hoare_pure.
      apply pure_bind; [apply pure_local_attr|intros; apply pure_ret].
  - apply hoare_pure.
    apply pure_bind; [apply pure_local_attr|intros; apply pure_ret].
Qed.

Lemma keeps_wf_chapa_webhook (env : Env) (u : User.t) (webhook_data : pyval) :
  keeps_wf (chapa_webhook env u webhook_data).
Proof.
  unfold keeps_wf, chapa_webhook.
  eapply hoare_try_except with (R := fun _ db => db_wf db); auto.
  - eapply hoare_bind with (R := fun _ db => db_wf db); auto.
    + apply hoare_pure, pure_lift.
    + intros transaction_id.
      eapply hoare_bind with (R := fun _ db => db_wf db); auto.
      * apply hoare_pure, pure_lift.
      * intros status. apply keeps_wf_chapa_webhook_try.
  - intros e. apply hoare_pure.
    apply pure_bind; [apply pure_local_attr|intros; apply pure_ret].
Qed.

Lemma pure_payment_status (env : Env) (u : User.t) (payment_id : Z) :
  pure (payment_status env u payment_id).
Proof.
  unfold payment_status. apply pure_try_except.
  - apply pure_bind; [apply pure_read|intros; apply pure_ret].
  - intros e. apply pure_ret.
Qed.

Lemma pure_initiate_payment (env : Env) (u : User.t) (d : PaymentInitiationSerializer.data) :
  pure (initiate_payment env u d).
Proof.
  intros db. unfold initiate_payment, bind.
  destruct (initiation_is_valid_never u d db) as [[errors H]|[e [H _]]];
    rewrite H; reflexivity.
Qed.

(** ** The review table *)

Lemma Review_objects_create_wf (env : Env) (user destination_id rating : Z)
    (comment : string) :
  keeps_wf (Review_objects_create env user destination_id rating comment).
Proof.
  intros db Hwf. unfold Review_objects_create.
  destruct (Review_violates_unique _ (reviews db)) eqn:Hv; simpl; [assumption|].
  destruct (fk_ok Destination.id destination_id (destinations db)); simpl; [|assumption].
  destruct Hwf. constructor; simpl; auto.
  - apply NoDup_pk_app; auto. intros q Hq. simpl. specialize (wf_review_seq0 q Hq). lia.
  - apply unique_by_app; auto. intros q Hq Hpair.
    destruct (Z.eq_dec (Review.id q) (review_seq db)) as [E|E]; [exact E|].
    exfalso. revert Hpair. now apply (proj1 (Review_violates_unique_false _ _) Hv).
  - intros r Hr. apply in_app_or in Hr. destruct Hr as [Hr|[<-|[]]]; simpl.
    + specialize (wf_review_seq0 r Hr). lia.
    + lia.
Qed.

Lemma Review_save_wf (env : Env) (r r' : Review.t) :
  Review.id r' = Review.id r ->
  hoare (fun db => db_wf db /\ In r (reviews db)) (Review_save env r')
        (fun _ db => db_wf db).
Proof.
  intros Hid db [Hwf Hin]. unfold Review_save.
  destruct (Review_violates_unique _ (reviews db)) eqn:Hv; simpl; [assumption|].
  destruct (fk_ok Destination.id _ (destinations db)); simpl; [|assumption].
  rewrite (upsert_present _ Review.id _ _ r) by (simpl; auto).
  destruct Hwf. constructor; simpl; auto.
  - now rewrite map_pk_replace_row.
  - apply unique_by_replace; auto. intros q Hq Hpair.
    destruct (Z.eq_dec (Review.id q) (Review.id r')) as [E|E]; [exact E|].
    exfalso. revert Hpair.
    apply (proj1 (Review_violates_unique_false _ _) Hv); assumption.
  - intros q Hq. apply In_replace_row in Hq.
    destruct Hq as [[-> _]|[Hq _]]; auto. simpl. rewrite Hid. auto.
Qed.

Lemma Review_delete_wf (r : Review.t) : keeps_wf (Review_delete r).
Proof.
  intros db Hwf. unfold Review_delete, write. simpl.
  assert (Hsub : forall q, In q (delete_row Review.id (Review.id r) (reviews db)) ->
                           In q (reviews db))
    by (intros q Hq; apply filter_In in Hq; tauto).
  destruct Hwf. constructor; simpl; auto.
  - now apply NoDup_pk_delete.
  - intros a b Ha Hb. apply wf_review_pair0; auto.
Qed.

Lemma hoare_Review_get_object (u : User.t) (pk : Z) :
  hoare db_wf (Review_get_object u pk) stored_review.
Proof.
  intros db Hwf. unfold Review_get_object, stored_review. simpl.
  split; [assumption|]. intros x Hx. apply get_object_or_404_In in Hx.
  apply filter_In in Hx. destruct Hx as [Hx _]. apply filter_In in Hx. tauto.
Qed.

Lemma pure_to_representation (u : User.t) (r : Review.t) :
  pure (ReviewSerializer.to_representation u r).
Proof.
  unfold ReviewSerializer.to_representation.
  apply pure_bind; [|intros; apply pure_ret].
  intros db. destruct (get MDestination _) as [d|e]; [reflexivity|].
  destruct e; reflexivity.
Qed.

Lemma validates_rating_field (f : field Z) : validates (ReviewSerializer.rating_field f).
Proof.
  intros db. unfold ReviewSerializer.rating_field, bind.
  destruct (validates_required f db) as [[v H]|[msg H]]; rewrite H; eauto.
  destruct ((1 <=? v) && (v <=? 5))%Z; unfold raise, ret; eauto.
Qed.

Lemma pure_run_field_partial {A : Type} (partial : bool) (name : string) (f : field A)
    (check : field A -> M A) :
  validates (check f) -> pure (ReviewSerializer.run_field_partial partial name f check).
Proof.
  intros H. unfold ReviewSerializer.run_field_partial.
  assert (Hrun : pure (run_field name (a <- check f ;; ret (Some a)))).
  { apply pure_run_field. apply pure_bind; [now apply pure_validates|].
    intros a. apply pure_ret. }
  destruct partial; [destruct f|]; try exact Hrun. apply pure_ret.
Qed.

Lemma pure_review_is_valid (partial : bool) (d : ReviewSerializer.data) :
  pure (ReviewSerializer.is_valid partial d).
Proof.
  unfold ReviewSerializer.is_valid.
  apply pure_bind; [apply pure_run_field_partial, validates_required|]. intros r1.
  apply pure_bind; [apply pure_run_field_partial, validates_rating_field|]. intros r2.
  apply pure_bind; [apply pure_run_field_partial, validates_CharField|]. intros r3.
  destruct r1, r2, r3; apply pure_ret.
Qed.

Lemma keeps_wf_review_post (env : Env) (u : User.t) (d : ReviewSerializer.data) :
  keeps_wf (ReviewListCreateView_post env u d).
Proof.
  unfold keeps_wf, ReviewListCreateView_post.
  eapply hoare_bind with (R := fun _ db => db_wf db);
    [apply hoare_pure, pure_review_is_valid| |auto].
  intros [errors|v]; [apply hoare_ret; auto|].
  eapply hoare_bind with (R := fun _ db => db_wf db); auto.
  - apply Review_objects_create_wf.
  - intros r. apply hoare_pure.
    apply pure_bind; [apply pure_to_representation|intros; apply pure_ret].
Qed.

Lemma keeps_wf_review_update (env : Env) (partial : bool) (u : User.t) (pk : Z)
    (d : ReviewSerializer.data) :
  keeps_wf (ReviewDetailView_update env partial u pk d).
Proof.
  unfold keeps_wf, ReviewDetailView_update.
  eapply hoare_bind; [apply hoare_Review_get_object| |intros e db H; apply H].
  intros instance.
  eapply hoare_bind with (R := fun _ db => db_wf db /\ In instance (reviews db)).
  - eapply hoare_conseq;
      [apply (hoare_pure (fun db => db_wf db /\ In instance (reviews db)));
       apply pure_review_is_valid| |auto].
    intros db [Hwf H]. auto.
  - intros [errors|v]; [apply hoare_ret; tauto|].
    eapply hoare_bind with (R := fun _ db => db_wf db); auto.
    + unfold ReviewSerializer.update. now apply (Review_save_wf env instance).
    + intros r. apply hoare_pure.
      apply pure_bind; [apply pure_to_representation|intros; apply pure_ret].
  - intros e db H. apply H.
Qed.

Lemma keeps_wf_review_delete (u : User.t) (pk : Z) :
  keeps_wf (ReviewDetailView_delete u pk).
Proof.
  unfold keeps_wf, ReviewDetailView_delete.
  eapply hoare_bind; [apply hoare_Review_get_object| |intros e db H; apply H].
  intros instance.
  eapply hoare_bind with (R := fun _ db => db_wf db).
  - eapply hoare_conseq; [apply Review_delete_wf| |auto]. intros db H. apply H.
  - intros _. apply hoare_ret. auto.
  - auto.
Qed.

Lemma pure_review_get (u : User.t) (pk : Z) : pure (ReviewDetailView_get u pk).
Proof.
  unfold ReviewDetailView_get.
  apply pure_bind; [unfold Review_get_object; apply pure_read|]. intros instance.
  apply pure_bind; [apply pure_to_representation|intros; apply pure_ret].
Qed.

(** Every request leaves a database that satisfies the constraints. *)
Lemma dispatch_wf (env : Env) (user : option User.t) (req : request) (db : DB) :
  db_wf db -> db_wf (snd (dispatch env user req db)).
Proof.
  intros Hwf. unfold dispatch, api_view. destruct user as [u|]; [|exact Hwf].
  assert (H : keeps_wf
                match req with
                | POST_payments_initiate d => initiate_payment env u d
                | POST_payments_verify d => verify_payment env u d
                | GET_payments_status payment_id => payment_status env u payment_id
                | POST_payments_webhook body => chapa_webhook env u body
                | POST_reviews d => ReviewListCreateView_post env u d
                | GET_reviews_pk pk => ReviewDetailView_get u pk
                | PUT_reviews_pk pk d => ReviewDetailView_update env false u pk d
                | PATCH_reviews_pk pk d => ReviewDetailView_update env true u pk d
                | DELETE_reviews_pk pk => ReviewDetailView_delete u pk
                end).
  { destruct req.
    - apply keeps_wf_pure, pure_initiate_payment.
    - apply keeps_wf_verify_payment.
    - apply keeps_wf_pure, pure_payment_status.
    - apply keeps_wf_chapa_webhook.
    - apply keeps_wf_review_post.
    - apply keeps_wf_pure, pure_review_get.
    - apply keeps_wf_review_update.
    - apply keeps_wf_review_update.
    - apply keeps_wf_review_delete. }
  specialize (H db Hwf). simpl in H.
  destruct (match req with
            | POST_payments_initiate d => initiate_payment env u d
            | POST_payments_verify d => verify_payment env u d
            | GET_payments_status payment_id => payment_status env u payment_id
            | POST_payments_webhook body => chapa_webhook env u body
            | POST_reviews d => ReviewListCreateView_post env u d
            | GET_reviews_pk pk => ReviewDetailView_get u pk
            | PUT_reviews_pk pk d => ReviewDetailView_update env false u pk d
            | PATCH_reviews_pk pk d => ReviewDetailView_update env true u pk d
            | DELETE_reviews_pk pk => ReviewDetailView_delete u pk
            end db) as [[r|e] db'].
  - exact H.
  - destruct e; exact H.
Qed.

Lemma run_wf (reqs : list (Env * option User.t * request)) (db : DB) :
  db_wf db -> db_wf (run reqs db).
Proof.
  revert db. induction reqs as [|[[env user] req] rest IH]; intros db Hwf; simpl.
  - exact Hwf.
  - apply IH. now apply dispatch_wf.
Qed.

(** * The example database satisfies the constraints *)

Ltac in_cases :=
  repeat match goal with
         | H : In _ (_ :: _) |- _ => destruct H as [<-|H]
         | H : In _ [] |- _ => destruct H
         | H : _ \/ _ |- _ => destruct H as [<-|H]
         | H : False |- _ => destruct H
         end.

Ltac wf_by_cases :=
  constructor; simpl;
  try (repeat constructor; simpl; intuition discriminate);
  try (intros q r Hq Hr; in_cases; simpl; try reflexivity; discriminate);
  try (intros q r t Hq Hr; in_cases; simpl; try reflexivity; discriminate);
  try (intros q Hq; in_cases;
       first [ vm_compute; reflexivity
             | vm_compute; discriminate
             | eexists; split; [left; reflexivity|reflexivity] ]).

Lemma db_paid_wf : db_wf db_paid.
Proof. wf_by_cases. Qed.

Lemma db_unpaid_wf : db_wf db_unpaid.
Proof. wf_by_cases. Qed.

(** * The claims *)

Lemma eq_str_true (v : pyval) (s : string) : eq_str v s = true <-> v = PStr s.
Proof.
  destruct v; simpl; split; try discriminate.
  - intros H. apply String.eqb_eq in H. now subst.
  - intros [= ->]. apply String.eqb_refl.
Qed.

Lemma eq_str_false (v : pyval) (s : string) : eq_str v s = false <-> v <> PStr s.
Proof.
  rewrite <- eq_str_true. destruct (eq_str v s); split; congruence.
Qed.

(** Reading back what a success wrote. *)
Lemma read_back_completed (env : Env) (payload : pyval) (t : string) (p : Payment.t)
    (b : Booking.t) (db : DB) :
  db_wf db -> In p (payments db) -> Payment.chapa_transaction_id p = Some t ->
  In b (bookings db) -> Booking.id b = Payment.booking p ->
  let db' := confirm_booking env b (mark_payment env "completed" payload p db) in
  Payment_objects_get t db' = (Ok (Payment_updated env "completed" payload p), db')
  /\ Payment_booking (Payment_updated env "completed" payload p) db'
     = (Ok (Booking_confirmed env b), db').
Proof.
  intros Hwf Hp Ht Hb Hid db'. split.
  - now apply (get_after_mark env "completed" payload t p db).
  - apply booking_after_confirm; auto. now apply mark_payment_wf.
Qed.

(** C1. When the gateway lookup for a stored payment succeeds, the status
    it reports is mapped to the local status: through the verify endpoint
    "success" gives "completed" and the booking "confirmed", "failed"
    gives "failed", anything else "processing"; through the webhook
    "success" gives "completed" and the booking "confirmed", and "failed"
    gives "failed". *)
Theorem gateway_status_mapping (env : Env) (u : User.t) (t : string) (p : Payment.t)
    (db : DB) :
  db_wf db -> In p (payments db) -> Payment.chapa_transaction_id p = Some t ->
  t <> "" -> (String.length t <= 100)%nat ->
  (forall response_data chapa_status amount currency,
      ChapaPaymentAPI_verify_payment env t db
      = (Ok (Verified response_data chapa_status amount currency), db) ->
      let db' := snd (dispatch env (Some u)
                        (POST_payments_verify
                           (PaymentVerificationSerializer.mk_data (Parsed t))) db) in
      exists p',
        Payment_objects_get t db' = (Ok p', db')
        /\ (chapa_status = PStr "success" ->
            Payment.status p' = "completed"
            /\ exists b', Payment_booking p' db' = (Ok b', db')
                          /\ Booking.status b' = "confirmed")
        /\ (chapa_status = PStr "failed" -> Payment.status p' = "failed")
        /\ (chapa_status <> PStr "success" -> chapa_status <> PStr "failed" ->
            Payment.status p' = "processing"))
  /\ (forall kvs,
         assoc "id" kvs = Some (PStr t) ->
         let db' := snd (dispatch env (Some u) (POST_payments_webhook (PDict kvs)) db) in
         (assoc "status" kvs = Some (PStr "success") ->
          exists p' b',
            Payment_objects_get t db' = (Ok p', db')
            /\ Payment.status p' = "completed"
            /\ Payment_booking p' db' = (Ok b', db')
            /\ Booking.status b' = "confirmed")
         /\ (assoc "status" kvs = Some (PStr "failed") ->
             exists p',
               Payment_objects_get t db' = (Ok p', db')
               /\ Payment.status p' = "failed")).
Proof.
  intros Hwf Hin Ht Hne Hlen. split.
  - intros response_data chapa_status amount currency Hapi db'.
    destruct (verify_payment_verified env u t p db response_data chapa_status amount
                currency Hwf Hin Ht Hne Hlen Hapi) as [b [Hb [Hid Hrun]]].
    assert (Hdb' : db' = verified_state env chapa_status response_data p b db).
    { unfold db', dispatch, api_view. now rewrite Hrun. }
    clearbody db'. subst db'. unfold verified_state, local_status.
    destruct (eq_str chapa_status "success") eqn:Es.
    + destruct (read_back_completed env response_data t p b db Hwf Hin Ht Hb Hid)
        as [Hget Hbooking].
      exists (Payment_updated env "completed" response_data p).
      split; [exact Hget|]. apply eq_str_true in Es. subst chapa_status.
      repeat split.
      * exists (Booking_confirmed env b). split; [exact Hbooking|reflexivity].
      * discriminate.
      * congruence.
    + apply eq_str_false in Es. destruct (eq_str chapa_status "failed") eqn:Ef.
      * exists (Payment_updated env "failed" response_data p).
        split; [now apply (get_after_mark env "failed" response_data t p db)|].
        apply eq_str_true in Ef. repeat split; congruence.
      * apply eq_str_false in Ef.
        exists (Payment_updated env "processing" response_data p).
        split; [now apply (get_after_mark env "processing" response_data t p db)|].
        repeat split; congruence.
  - intros kvs Hid db'. split.
    + intros Hst.
      destruct (chapa_webhook_stored env u kvs t (PStr "success") p db Hwf Hin Ht Hne
                  Hid Hst eq_refl) as [b [Hb [Hbid Hrun]]].
      assert (Hdb' : db' = webhook_state env (PStr "success") (PDict kvs) p b db).
      { unfold db', dispatch, api_view. now rewrite Hrun. }
      clearbody db'. subst db'. unfold webhook_state. cbn [eq_str String.eqb].
      destruct (read_back_completed env (PDict kvs) t p b db Hwf Hin Ht Hb Hbid)
        as [Hget Hbooking].
      exists (Payment_updated env "completed" (PDict kvs) p), (Booking_confirmed env b).
      repeat split; assumption.
    + intros Hst.
      destruct (chapa_webhook_stored env u kvs t (PStr "failed") p db Hwf Hin Ht Hne
                  Hid Hst eq_refl) as [b [Hb [Hbid Hrun]]].
      assert (Hdb' : db' = webhook_state env (PStr "failed") (PDict kvs) p b db).
      { unfold db', dispatch, api_view. now rewrite Hrun. }
      clearbody db'. subst db'. unfold webhook_state.
      exists (Payment_updated env "failed" (PDict kvs) p).
      split; [|reflexivity].
      now apply (get_after_mark env "failed" (PDict kvs) t p db).
Qed.

(** Bob verifies the transaction of Alice's payment and the gateway says
    "success"; a webhook delivery does the same. *)
Lemma gateway_status_mapping_witness :
  db_wf db_paid
  /\ In payment1 (payments db_paid)
  /\ (let db' := snd (dispatch (env_at 100 (gateway_says "success")) (Some bob)
                        (POST_payments_verify
                           (PaymentVerificationSerializer.mk_data (Parsed "TXN123")))
                        db_paid) in
      exists p' b',
        Payment_objects_get "TXN123" db' = (Ok p', db')
        /\ Payment.status p' = "completed"
        /\ Payment_booking p' db' = (Ok b', db')
        /\ Booking.status b' = "confirmed")
  /\ (let db' := snd (dispatch (env_at 100 gateway_down) (Some bob)
                        (POST_payments_webhook webhook_success) db_paid) in
      exists p' b',
        Payment_objects_get "TXN123" db' = (Ok p', db')
        /\ Payment.status p' = "completed"
        /\ Payment_booking p' db' = (Ok b', db')
        /\ Booking.status b' = "confirmed").
Proof.
  split; [exact db_paid_wf|]. split; [left; reflexivity|]. split.
  - destruct (gateway_status_mapping (env_at 100 (gateway_says "success")) bob "TXN123"
                payment1 db_paid db_paid_wf (or_introl eq_refl) eq_refl)
      as [Hverify _]; [discriminate|simpl; lia|].
    destruct (Hverify _ _ _ _ eq_refl) as [p' [Hget [Hsuccess _]]].
    destruct (Hsuccess eq_refl) as [Hstatus [b' [Hbooking Hconfirmed]]].
    exists p', b'. repeat split; assumption.
  - destruct (gateway_status_mapping (env_at 100 gateway_down) bob "TXN123"
                payment1 db_paid db_paid_wf (or_introl eq_refl) eq_refl)
      as [_ Hwebhook]; [discriminate|simpl; lia|].
    destruct (Hwebhook [("id", PStr "TXN123"); ("status", PStr "success")] eq_refl)
      as [Hsuccess _].
    exact (Hsuccess eq_refl).
Defined.

(** The serializer on a booking of the caller that is paid already: the
    one-to-one accessor returns the payment, and [exists] is read on it. *)
Lemma initiation_is_valid_paid (u : User.t) (b : Booking.t) (p : Payment.t)
    (d : PaymentInitiationSerializer.data) (db : DB) :
  db_wf db -> In b (bookings db) -> Booking.user b = User.id u ->
  In p (payments db) -> Payment.booking p = Booking.id b ->
  PaymentInitiationSerializer.booking_id d = Parsed (Booking.id b) ->
  PaymentInitiationSerializer.is_valid u d db
  = (Raise (AttributeError "'Payment' object has no attribute 'exists'"), db).
Proof.
  intros Hwf Hb Hu Hp Hpb Hd.
  unfold PaymentInitiationSerializer.is_valid, run_field. rewrite Hd.
  unfold PaymentInitiationSerializer.validate_booking_id, required, Booking_payment,
    Payment_exists.
  monad_simp.
  rewrite (filter_unique _ Booking.id _ _ b); auto.
  - unfold get.
    rewrite (filter_unique _ Payment.id _ _ p); auto.
    + apply Hwf.
    + now apply Z.eqb_eq.
    + intros q Hq Hqb. apply Z.eqb_eq in Hqb.
      apply (wf_payment_booking db Hwf q p); auto. congruence.
  - apply Hwf.
  - rewrite Z.eqb_refl. simpl. now apply Z.eqb_eq.
  - intros q _ Hq. apply andb_true_iff in Hq. destruct Hq as [Hq _].
    now apply Z.eqb_eq in Hq.
Qed.

(** The one-to-one column refuses a second payment for a booking. *)
Lemma Payment_objects_create_refused (env : Env) (b : Booking.t) (p : Payment.t)
    (amount : Z) (currency payment_method : string)
    (transaction_id reference payment_url : pyval) (status : string) (db : DB) :
  db_wf db -> In p (payments db) -> Payment.booking p = Booking.id b ->
  Payment_objects_create env b amount currency payment_method transaction_id reference
    payment_url status db = (Raise IntegrityError, db).
Proof.
  intros Hwf Hin Hpb. unfold Payment_objects_create.
  replace (Payment_violates_unique _ (payments db)) with true; [reflexivity|].
  symmetry. apply existsb_exists. exists p. split; [assumption|]. simpl.
  rewrite Hpb, Z.eqb_refl.
  assert (Hlt := wf_payment_seq db Hwf p Hin).
  replace (Payment.id p =? payment_seq db)%Z with false; [reflexivity|].
  symmetry. apply Z.eqb_neq. lia.
Qed.

(** C2. A payment-initiation request by the owner of a booking that has a
    payment already is answered by an error, and the database is left as it
    was.  The request does not get past the serializer, where reading
    [exists] on the payment fails (a server error); the guard of the view
    itself would answer 400; the one-to-one column refuses a second row;
    and over any sequence of requests a booking has at most one payment. *)
Theorem initiation_rejected_when_paid (env : Env) (u : User.t) (b : Booking.t)
    (p : Payment.t) (d : PaymentInitiationSerializer.data) (db : DB) :
  db_wf db -> In b (bookings db) -> Booking.user b = User.id u ->
  In p (payments db) -> Payment.booking p = Booking.id b ->
  PaymentInitiationSerializer.booking_id d = Parsed (Booking.id b) ->
  (dispatch env (Some u) (POST_payments_initiate d) db
   = (Uncaught (AttributeError "'Payment' object has no attribute 'exists'"), db)
   /\ is_error (fst (dispatch env (Some u) (POST_payments_initiate d) db)))
  /\ (forall v, PaymentInitiationSerializer.v_booking_id v = Booking.id b ->
                initiate_payment_try env v db
                = (Ok (mkResponse
                         (PDict [("error", PStr "Payment already exists for this booking")])
                         HTTP_400_BAD_REQUEST), db))
  /\ (forall amount currency payment_method transaction_id reference payment_url status,
         Payment_objects_create env b amount currency payment_method transaction_id
           reference payment_url status db = (Raise IntegrityError, db))
  /\ (forall reqs, NoDup (map Payment.booking (payments (run reqs db)))).
Proof.
  intros Hwf Hb Hu Hp Hpb Hd.
  assert (Hrun : dispatch env (Some u) (POST_payments_initiate d) db
                 = (Uncaught (AttributeError "'Payment' object has no attribute 'exists'"),
                    db)).
  { unfold dispatch, api_view, initiate_payment, bind.
    now rewrite (initiation_is_valid_paid u b p d db). }
  repeat split.
  - exact Hrun.
  - rewrite Hrun. unfold is_error. simpl. unfold HTTP_500_INTERNAL_SERVER_ERROR. lia.
  - intros v Hv. now apply (initiate_payment_try_existing env v b p db).
  - intros. now apply (Payment_objects_create_refused env b p).
  - intros reqs. assert (Hreqs := run_wf reqs db Hwf).
    apply (unique_by_NoDup _ Payment.id); apply Hreqs.
Qed.

(** Alice asks again for a payment on her paid booking. *)
Lemma initiation_rejected_when_paid_witness :
  db_wf db_paid
  /\ dispatch (env_at 100 (gateway_says "success")) (Some alice)
       (POST_payments_initiate
          (PaymentInitiationSerializer.mk_data (Parsed 1) (Parsed "card") Missing))
       db_paid
     = (Uncaught (AttributeError "'Payment' object has no attribute 'exists'"), db_paid)
  /\ is_error
       (fst (dispatch (env_at 100 (gateway_says "success")) (Some alice)
               (POST_payments_initiate
                  (PaymentInitiationSerializer.mk_data (Parsed 1) (Parsed "card") Missing))
               db_paid)).
Proof.
  split; [exact db_paid_wf|].
  exact (proj1 (initiation_rejected_when_paid (env_at 100 (gateway_says "success"))
                  alice booking1 payment1
                  (PaymentInitiationSerializer.mk_data (Parsed 1) (Parsed "card") Missing)
                  db_paid db_paid_wf (or_introl eq_refl) eq_refl (or_introl eq_refl)
                  eq_refl eq_refl)).
Defined.

(** With the gateway failing, a booking without a payment gets the 400 of
    the view. *)
Lemma initiate_payment_try_failed (env : Env)
    (v : PaymentInitiationSerializer.validated_data) (b : Booking.t) (db : DB) :
  gateway_failed env -> db_wf db -> In b (bookings db) ->
  Booking.id b = PaymentInitiationSerializer.v_booking_id v ->
  (forall p, In p (payments db) -> Payment.booking p <> Booking.id b) ->
  exists error,
    initiate_payment_try env v db
    = (Ok (mkResponse (PDict [("error", PStr "Failed to initiate payment");
                              ("details", PStr error)])
                      HTTP_400_BAD_REQUEST), db).
Proof.
  intros Hfail Hwf Hb Hid Hnone. unfold initiate_payment_try. monad_simp.
  rewrite (filter_unique _ Booking.id _ _ b); auto.
  - unfold get_object_or_404, get, hasattr_payment, Booking_payment. monad_simp.
    rewrite filter_none.
    + unfold get. cbv beta iota. cbn [is_AttributeError]. cbv beta iota.
      destruct (ChapaPaymentAPI_initiate_payment_failed env b
                  (PaymentInitiationSerializer.v_payment_method v)
                  (PaymentInitiationSerializer.v_currency v) db Hfail)
        as [error [details Hapi]].
      rewrite Hapi. now exists error.
    + intros q Hq. apply Z.eqb_neq. now apply Hnone.
  - apply Hwf.
  - now apply Z.eqb_eq.
  - intros q _ Hq. apply Z.eqb_eq in Hq. congruence.
Qed.

(** C3. When the call to the gateway fails (a transport error, or a
    response other than 200), a payment-initiation request is answered by
    an error and the database is left as it was: at the endpoint (where a
    request ends in the serializer), in the [try] block of the view on any
    validated data, and with the 400 of the view for a booking that has no
    payment. *)
Theorem initiation_gateway_failure (env : Env) (user : option User.t)
    (d : PaymentInitiationSerializer.data) (db : DB) :
  gateway_failed env ->
  (exists o, dispatch env user (POST_payments_initiate d) db = (o, db) /\ is_error o)
  /\ (forall v, exists r,
         try_except (initiate_payment_try env v) Exception
           (fun _ => ret internal_server_error) db = (Ok r, db)
         /\ 400 <= status_code r)
  /\ (forall v b,
         db_wf db -> In b (bookings db) ->
         Booking.id b = PaymentInitiationSerializer.v_booking_id v ->
         (forall p, In p (payments db) -> Payment.booking p <> Booking.id b) ->
         exists error,
           initiate_payment_try env v db
           = (Ok (mkResponse (PDict [("error", PStr "Failed to initiate payment");
                                     ("details", PStr error)])
                             HTTP_400_BAD_REQUEST), db)).
Proof.
  intros Hfail. repeat split.
  - apply initiate_payment_writes_nothing.
  - intros v. now apply initiate_payment_view_gateway_failed.
  - intros v b Hwf Hb Hid Hnone. now apply (initiate_payment_try_failed env v b db).
Qed.

(** The gateway is down while Alice asks for a payment on her unpaid
    booking. *)
Lemma initiation_gateway_failure_witness :
  gateway_failed (env_at 100 gateway_down)
  /\ (exists o,
        dispatch (env_at 100 gateway_down) (Some alice)
          (POST_payments_initiate
             (PaymentInitiationSerializer.mk_data (Parsed 1) (Parsed "card") Missing))
          db_unpaid = (o, db_unpaid)
        /\ is_error o)
  /\ (exists error,
        initiate_payment_try (env_at 100 gateway_down)
          (PaymentInitiationSerializer.mk 1 "card" "NGN") db_unpaid
        = (Ok (mkResponse (PDict [("error", PStr "Failed to initiate payment");
                                  ("details", PStr error)])
                          HTTP_400_BAD_REQUEST), db_unpaid)).
Proof.
  split; [exact I|].
  destruct (initiation_gateway_failure (env_at 100 gateway_down) (Some alice)
              (PaymentInitiationSerializer.mk_data (Parsed 1) (Parsed "card") Missing)
              db_unpaid I) as [Hendpoint [_ Hview]].
  split; [exact Hendpoint|].
  apply (Hview (PaymentInitiationSerializer.mk 1 "card" "NGN") booking1 db_unpaid_wf
           (or_introl eq_refl) eq_refl).
  intros p [].
Defined.

(** C4 as stated fails: an empty payload is supplied and not stored.  On
    the operation itself, and through the verify endpoint when the gateway
    answers 200 with an empty object. *)
Lemma update_status_skips_empty_payload :
  (exists p',
      fst (Payment_update_status (env_at 100 gateway_down) "processing" (PDict [])
             payment1 db_paid) = Ok p'
      /\ Payment.verification_response p' = PNone
      /\ Payment.verification_response p' <> PDict [])
  /\ (let db' := snd (dispatch (env_at 100 (HttpReply 200 "{}" (inr (PDict []))))
                        (Some alice)
                        (POST_payments_verify
                           (PaymentVerificationSerializer.mk_data (Parsed "TXN123")))
                        db_paid) in
      exists p',
        Payment_objects_get "TXN123" db' = (Ok p', db')
        /\ Payment.status p' = "processing"
        /\ Payment.verification_response p' = PNone).
Proof.
  split.
  - eexists. split; [reflexivity|]. split; [reflexivity|]. discriminate.
  - eexists. split; [reflexivity|]. split; reflexivity.
Qed.

(** C4, amended.  [update_status] on a stored payment writes the new
    status; the completion time is set to the current time exactly when the
    new status is "completed" and is left alone otherwise; a payload that is
    truthy is stored, and one that is empty, or none, leaves the stored
    response as it was. *)
Theorem update_status_spec (env : Env) (new_status : string) (chapa_response : pyval)
    (p : Payment.t) (db : DB) :
  db_wf db -> In p (payments db) ->
  exists p',
    Payment_update_status env new_status chapa_response p db
    = (Ok p', set_payments (replace_row Payment.id p' (payments db)) db)
    /\ Payment.status p' = new_status
    /\ (new_status = "completed" -> Payment.payment_date p' = Some (now env))
    /\ (new_status <> "completed" -> Payment.payment_date p' = Payment.payment_date p)
    /\ (truthy chapa_response = true -> Payment.verification_response p' = chapa_response)
    /\ (truthy chapa_response = false ->
        Payment.verification_response p' = Payment.verification_response p).
Proof.
  intros Hwf Hin. exists (Payment_updated env new_status chapa_response p).
  split; [now apply Payment_update_status_stored|].
  unfold Payment_updated. simpl. repeat split.
  - intros ->. reflexivity.
  - intros Hne. apply String.eqb_neq in Hne. now rewrite Hne.
  - intros ->. reflexivity.
  - intros ->. reflexivity.
Qed.

Lemma update_status_spec_witness :
  db_wf db_paid
  /\ exists p',
      Payment_update_status (env_at 100 gateway_down) "completed"
        (PDict [("status", PStr "success")]) payment1 db_paid
      = (Ok p', set_payments (replace_row Payment.id p' (payments db_paid)) db_paid)
      /\ Payment.status p' = "completed"
      /\ Payment.payment_date p' = Some 100
      /\ Payment.verification_response p' = PDict [("status", PStr "success")].
Proof.
  split; [exact db_paid_wf|].
  destruct (update_status_spec (env_at 100 gateway_down) "completed"
              (PDict [("status", PStr "success")]) payment1 db_paid db_paid_wf
              (or_introl eq_refl))
    as [p' [Hrun [Hstatus [Hdate [_ [Hstored _]]]]]].
  exists p'. repeat split; auto.
Defined.

(** C5 as stated fails: a delivery without credentials is turned away
    before the handler runs. *)
Lemma webhook_rejects_anonymous :
  dispatch (env_at 100 gateway_down) None (POST_payments_webhook webhook_success) db_paid
  = (Handled HTTP_403_FORBIDDEN NotAuthenticated, db_paid).
Proof. reflexivity. Qed.

(** C5, amended.  The webhook endpoint is behind [IsAuthenticated]: a
    delivery by an anonymous caller is refused, with 401 or 403 by the
    authentication scheme, whatever it carries, and writes nothing. *)
Theorem webhook_requires_authentication (env : Env) (webhook_data : pyval) (db : DB) :
  dispatch env None (POST_payments_webhook webhook_data) db
  = (Handled (if www_authenticate env then HTTP_401_UNAUTHORIZED else HTTP_403_FORBIDDEN)
       NotAuthenticated, db).
Proof. reflexivity. Qed.

(** C6 as stated fails: none of the three payment endpoints answers 404.
    A transaction id that matches nothing and a booking of another user are
    validation errors (400); the status of another user's payment is
    answered 500, the [Http404] being caught by the handler of the view. *)
Lemma unresolved_reference_is_not_404 :
  fst (dispatch (env_at 100 gateway_down) (Some alice)
         (POST_payments_verify (PaymentVerificationSerializer.mk_data (Parsed "TXN404")))
         db_paid)
  = Returned (mkResponse
                (PDict [("transaction_id", PList [PStr "Transaction ID not found"])])
                HTTP_400_BAD_REQUEST)
  /\ fst (dispatch (env_at 100 gateway_down) (Some bob)
            (POST_payments_initiate
               (PaymentInitiationSerializer.mk_data (Parsed 1) (Parsed "card") Missing))
            db_unpaid)
     = Returned (mkResponse (PDict [("booking_id", PList [PStr "Booking not found"])])
                            HTTP_400_BAD_REQUEST)
  /\ fst (dispatch (env_at 100 gateway_down) (Some bob) (GET_payments_status 1) db_paid)
     = Returned internal_server_error.
Proof. repeat split. Qed.

(** C6, amended.  A verify request whose transaction id matches no payment
    and an initiation request whose booking id matches no booking of the
    caller are answered 400 with the error of the field, and write
    nothing. *)
Theorem unresolved_reference_is_validation_error (env : Env) (u : User.t) (db : DB) :
  (forall t,
      filter (has_txid t) (payments db) = [] ->
      exists msg,
        dispatch env (Some u)
          (POST_payments_verify (PaymentVerificationSerializer.mk_data (Parsed t))) db
        = (Returned (mkResponse (PDict [("transaction_id", PList [PStr msg])])
                                HTTP_400_BAD_REQUEST), db)
        /\ (t <> "" -> (String.length t <= 100)%nat -> msg = "Transaction ID not found"))
  /\ (forall d v,
         PaymentInitiationSerializer.booking_id d = Parsed v ->
         filter (fun b => (Booking.id b =? v)%Z && (Booking.user b =? User.id u)%Z)
                (bookings db) = [] ->
         exists errors,
           dispatch env (Some u) (POST_payments_initiate d) db
           = (Returned (mkResponse
                          (PDict (("booking_id", PList [PStr "Booking not found"])
                                  :: errors))
                          HTTP_400_BAD_REQUEST), db)).
Proof.
  split.
  - intros t Hnone. destruct (verification_not_found t db Hnone) as [msg [Hrun Hmsg]].
    exists msg. split; [|exact Hmsg].
    unfold dispatch, api_view, verify_payment, bind. now rewrite Hrun.
  - intros d v Hd Hnone.
    assert (Hvalid : exists errors,
               PaymentInitiationSerializer.is_valid u d db
               = (Ok (inl (("booking_id", PList [PStr "Booking not found"]) :: errors)),
                  db)).
    { unfold PaymentInitiationSerializer.is_valid.
      assert (H1 : run_field "booking_id"
                     (v0 <- required (PaymentInitiationSerializer.booking_id d) ;;
                      PaymentInitiationSerializer.validate_booking_id u v0) db
                   = (Ok (inl ("booking_id", PList [PStr "Booking not found"])), db)).
      { unfold run_field, PaymentInitiationSerializer.validate_booking_id. rewrite Hd.
        monad_simp. cbn [required]. monad_simp. rewrite Hnone. reflexivity. }
      unfold bind at 1. rewrite H1.
      destruct (run_field_validates "payment_method"
                  (ChoiceField Payment.PAYMENT_METHOD_CHOICES
                     (PaymentInitiationSerializer.payment_method d)) db
                  (validates_ChoiceField _ _)) as [r2 H2].
      unfold bind at 1. rewrite H2.
      destruct (run_field_validates "currency"
                  (CharField (Some 3%nat) (Some "NGN")
                     (PaymentInitiationSerializer.currency d)) db
                  (validates_CharField _ _ _)) as [r3 H3].
      unfold bind at 1. rewrite H3. unfold ret. simpl. eexists. reflexivity. }
    destruct Hvalid as [errors Hvalid]. exists errors.
    unfold dispatch, api_view, initiate_payment, bind. now rewrite Hvalid.
Qed.

Lemma unresolved_reference_is_validation_error_witness :
  (exists msg,
      dispatch (env_at 100 gateway_down) (Some alice)
        (POST_payments_verify (PaymentVerificationSerializer.mk_data (Parsed "TXN404")))
        db_paid
      = (Returned (mkResponse (PDict [("transaction_id", PList [PStr msg])])
                              HTTP_400_BAD_REQUEST), db_paid)
      /\ msg = "Transaction ID not found")
  /\ (exists errors,
        dispatch (env_at 100 gateway_down) (Some bob)
          (POST_payments_initiate
             (PaymentInitiationSerializer.mk_data (Parsed 1) (Parsed "card") Missing))
          db_paid
        = (Returned (mkResponse
                       (PDict (("booking_id", PList [PStr "Booking not found"])
                               :: errors))
                       HTTP_400_BAD_REQUEST), db_paid)).
Proof.
  destruct (unresolved_reference_is_validation_error (env_at 100 gateway_down) alice
              db_paid) as [Hverify _].
  destruct (unresolved_reference_is_validation_error (env_at 100 gateway_down) bob
              db_paid) as [_ Hinitiate].
  split.
  - destruct (Hverify "TXN404" eq_refl) as [msg [Hrun Hmsg]].
    exists msg. split; [exact Hrun|]. apply Hmsg; [discriminate|simpl; lia].
  - exact (Hinitiate
             (PaymentInitiationSerializer.mk_data (Parsed 1) (Parsed "card") Missing)
             1 eq_refl eq_refl).
Defined.

(** C7: the code at the failing inputs.  The handler assigns the local
    [status] from the body, so no [Response] of the function can be built:
    every delivery by an authenticated caller ends in an exception that
    nothing handles, whether the transaction id matches a payment (the
    state is written first), matches none, or is missing. *)
Theorem webhook_answers_server_error :
  (forall env u webhook_data db,
      exists e, fst (dispatch env (Some u) (POST_payments_webhook webhook_data) db)
                = Uncaught e)
  /\ fst (dispatch (env_at 100 gateway_down) (Some alice)
            (POST_payments_webhook webhook_success) db_paid)
     = Uncaught (AttributeError
                   "'str' object has no attribute 'HTTP_500_INTERNAL_SERVER_ERROR'")
  /\ fst (dispatch (env_at 100 gateway_down) (Some alice)
            (POST_payments_webhook
               (PDict [("id", PStr "TXN404"); ("status", PStr "success")])) db_paid)
     = Uncaught (AttributeError
                   "'str' object has no attribute 'HTTP_500_INTERNAL_SERVER_ERROR'")
  /\ fst (dispatch (env_at 100 gateway_down) (Some alice)
            (POST_payments_webhook (PDict [("status", PStr "success")])) db_paid)
     = Uncaught (AttributeError
                   "'str' object has no attribute 'HTTP_500_INTERNAL_SERVER_ERROR'")
  /\ fst (dispatch (env_at 100 gateway_down) (Some alice)
            (POST_payments_webhook (PDict [("id", PStr "TXN123")])) db_paid)
     = Uncaught (AttributeError
                   "'NoneType' object has no attribute 'HTTP_500_INTERNAL_SERVER_ERROR'").
Proof.
  split; [|repeat split].
  intros env u webhook_data db. unfold dispatch, api_view.
  destruct (chapa_webhook_raises env u webhook_data db) as [e [db' [H Hkind]]].
  rewrite H. destruct Hkind as [->|[msg ->]]; eexists; reflexivity.
Qed.

Lemma truthy_dict_with (k : string) (kvs : list (string * pyval)) (v : pyval) :
  assoc k kvs = Some v -> truthy (PDict kvs) = true.
Proof.
  destruct kvs; [discriminate|reflexivity].
Qed.

(** C8 as stated fails: the second delivery writes the completion time
    again, so the payment is not as the first delivery left it. *)
Lemma webhook_replay_restamps :
  let db1 := snd (dispatch (env_at 100 gateway_down) (Some alice)
                    (POST_payments_webhook webhook_success) db_paid) in
  let db2 := snd (dispatch (env_at 200 gateway_down) (Some alice)
                    (POST_payments_webhook webhook_success) db1) in
  exists p1 p2,
    Payment_objects_get "TXN123" db1 = (Ok p1, db1)
    /\ Payment_objects_get "TXN123" db2 = (Ok p2, db2)
    /\ Payment.status p1 = "completed"
    /\ Payment.payment_date p1 = Some 100
    /\ Payment.payment_date p2 = Some 200
    /\ p2 <> p1.
Proof.
  do 2 eexists. repeat split; try reflexivity. discriminate.
Qed.

(** C8, amended.  A second delivery of the same success webhook leaves the
    payment "completed" and its booking "confirmed", and every column of
    the two rows as the first delivery left it, but for the completion time
    [payment_date] and the two [updated_at], which take the time of the
    second delivery. *)
Theorem webhook_replay (env1 env2 : Env) (u : User.t) (kvs : list (string * pyval))
    (t : string) (p : Payment.t) (db : DB) :
  db_wf db -> In p (payments db) -> Payment.chapa_transaction_id p = Some t ->
  t <> "" -> assoc "id" kvs = Some (PStr t) ->
  assoc "status" kvs = Some (PStr "success") ->
  let db1 := snd (dispatch env1 (Some u) (POST_payments_webhook (PDict kvs)) db) in
  let db2 := snd (dispatch env2 (Some u) (POST_payments_webhook (PDict kvs)) db1) in
  exists p1 b1,
    Payment_objects_get t db1 = (Ok p1, db1)
    /\ Payment_booking p1 db1 = (Ok b1, db1)
    /\ Payment.status p1 = "completed"
    /\ Booking.status b1 = "confirmed"
    /\ Payment_objects_get t db2
       = (Ok (Payment.set_updated_at (now env2)
                (Payment.set_payment_date (Some (now env2)) p1)), db2)
    /\ Payment_booking p1 db2 = (Ok (Booking.set_updated_at (now env2) b1), db2).
Proof.
  intros Hwf Hin Ht Hne Hid Hst db1 db2.
  assert (Htruthy : truthy (PDict kvs) = true) by now apply (truthy_dict_with "id" kvs (PStr t)).
  (* the first delivery *)
  destruct (chapa_webhook_stored env1 u kvs t (PStr "success") p db Hwf Hin Ht Hne
              Hid Hst eq_refl) as [b [Hb [Hbid Hrun1]]].
  set (p1 := Payment_updated env1 "completed" (PDict kvs) p).
  set (b1 := Booking_confirmed env1 b).
  assert (Hdb1 : db1 = confirm_booking env1 b (mark_payment env1 "completed" (PDict kvs) p db)).
  { unfold db1, dispatch, api_view. now rewrite Hrun1. }
  assert (Hwf1 : db_wf db1).
  { rewrite Hdb1. apply confirm_booking_wf; [now apply mark_payment_wf|assumption]. }
  assert (Hp1 : In p1 (payments db1)).
  { rewrite Hdb1. simpl. now apply (In_replace_row_new _ Payment.id _ _ p). }
  assert (Hb1 : In b1 (bookings db1)).
  { rewrite Hdb1. simpl. now apply (In_replace_row_new _ Booking.id _ _ b). }
  destruct (read_back_completed env1 (PDict kvs) t p b db Hwf Hin Ht Hb Hbid)
    as [Hget1 Hbooking1].
  (* the second delivery *)
  destruct (chapa_webhook_stored env2 u kvs t (PStr "success") p1 db1 Hwf1 Hp1 Ht Hne
              Hid Hst eq_refl) as [b1' [Hb1' [Hbid1 Hrun2]]].
  assert (Hsame : b1' = b1).
  { apply (pk_inj _ Booking.id (bookings db1)); auto; [apply Hwf1|].
    rewrite Hbid1. simpl. now symmetry. }
  subst b1'.
  assert (Hdb2 : db2 = confirm_booking env2 b1
                         (mark_payment env2 "completed" (PDict kvs) p1 db1)).
  { unfold db2, dispatch, api_view. fold db1. now rewrite Hrun2. }
  destruct (read_back_completed env2 (PDict kvs) t p1 b1 db1 Hwf1 Hp1 Ht Hb1 Hbid1)
    as [Hget2 Hbooking2].
  clearbody db2. clearbody db1. subst db2.
  exists p1, b1.
  split; [rewrite Hdb1; exact Hget1|]. split; [rewrite Hdb1; exact Hbooking1|].
  split; [reflexivity|]. split; [reflexivity|]. split.
  - rewrite Hget2. f_equal. f_equal.
    unfold p1, Payment_updated. cbn [Payment.verification_response]. rewrite Htruthy.
    reflexivity.
  - apply booking_after_confirm; auto. now apply mark_payment_wf.
Qed.

Lemma webhook_replay_witness :
  db_wf db_paid
  /\ (let db1 := snd (dispatch (env_at 100 gateway_down) (Some alice)
                        (POST_payments_webhook webhook_success) db_paid) in
      let db2 := snd (dispatch (env_at 200 gateway_down) (Some alice)
                        (POST_payments_webhook webhook_success) db1) in
      exists p1 b1,
        Payment_objects_get "TXN123" db1 = (Ok p1, db1)
        /\ Payment_booking p1 db1 = (Ok b1, db1)
        /\ Payment.status p1 = "completed"
        /\ Booking.status b1 = "confirmed"
        /\ Payment_objects_get "TXN123" db2
           = (Ok (Payment.set_updated_at 200 (Payment.set_payment_date (Some 200) p1)), db2)
        /\ Payment_booking p1 db2 = (Ok (Booking.set_updated_at 200 b1), db2)).
Proof.
  split; [exact db_paid_wf|].
  apply (webhook_replay (env_at 100 gateway_down) (env_at 200 gateway_down) alice
           [("id", PStr "TXN123"); ("status", PStr "success")] "TXN123" payment1 db_paid
           db_paid_wf (or_introl eq_refl) eq_refl);
    [discriminate|reflexivity|reflexivity].
Defined.

Lemma run_field_full {A : Type} (name : string) (f : field A) (check : field A -> M A)
    (db : DB) :
  validates (check f) ->
  (exists a, check f db = (Ok a, db)
             /\ ReviewSerializer.run_field_partial false name f check db
                = (Ok (inr (Some a)), db))
  \/ (exists e, ReviewSerializer.run_field_partial false name f check db
                = (Ok (inl e), db)).
Proof.
  intros Hcheck. unfold ReviewSerializer.run_field_partial, run_field. monad_simp.
  destruct (Hcheck db) as [[a H]|[msg H]]; rewrite H; simpl; eauto.
Qed.

(** The review serializer on a full body: errors, or the three members. *)
Lemma review_is_valid_full (d : ReviewSerializer.data) (dest : Z) (db : DB) :
  ReviewSerializer.destination_id d = Parsed dest ->
  (exists errors, ReviewSerializer.is_valid false d db = (Ok (inl errors), db))
  \/ (exists rating comment,
         ReviewSerializer.is_valid false d db
         = (Ok (inr (ReviewSerializer.mk (Some dest) (Some rating) (Some comment))), db)).
Proof.
  intros Hd. unfold ReviewSerializer.is_valid.
  destruct (run_field_full "destination_id" (ReviewSerializer.destination_id d) required
              db (validates_required _)) as [[a [Ha H1]]|[e H1]];
    destruct (run_field_full "rating" (ReviewSerializer.rating d)
                ReviewSerializer.rating_field db (validates_rating_field _))
      as [[rating [_ H2]]|[e2 H2]];
    destruct (run_field_full "comment" (ReviewSerializer.comment d)
                (CharField None None) db (validates_CharField _ _ _))
      as [[comment [_ H3]]|[e3 H3]];
    unfold bind; rewrite H1, H2, H3; unfold ret; eauto.
  right. rewrite Hd in Ha. simpl in Ha. unfold ret in Ha. inversion Ha; subst. eauto.
Qed.

(** C9. A review-creation request for a (user, destination) pair that has
    a review is refused with an error and writes nothing (the constraint of
    the table raises [IntegrityError], a server error, unless the body is
    rejected first with a 400), and over any sequence of requests no two
    reviews share a pair. *)
Theorem one_review_per_pair (env : Env) (u : User.t) (d : ReviewSerializer.data)
    (r : Review.t) (db : DB) :
  db_wf db -> In r (reviews db) -> Review.user r = User.id u ->
  ReviewSerializer.destination_id d = Parsed (Review.destination r) ->
  (exists o, dispatch env (Some u) (POST_reviews d) db = (o, db)
             /\ is_error o
             /\ (o = Uncaught IntegrityError
                 \/ exists errors,
                      o = Returned (mkResponse (PDict errors) HTTP_400_BAD_REQUEST)))
  /\ (forall reqs, NoDup (map Review.pair (reviews (run reqs db)))).
Proof.
  intros Hwf Hin Hu Hd. split.
  - unfold dispatch, api_view, ReviewListCreateView_post, bind.
    destruct (review_is_valid_full d (Review.destination r) db Hd)
      as [[errors H]|[rating [comment H]]]; rewrite H.
    + eexists. split; [reflexivity|]. split; [|right; eexists; reflexivity].
      unfold is_error. simpl. unfold HTTP_400_BAD_REQUEST. lia.
    + unfold ReviewSerializer.create, Review_objects_create. cbn [ReviewSerializer.or_else
        ReviewSerializer.v_destination_id ReviewSerializer.v_rating
        ReviewSerializer.v_comment].
      replace (Review_violates_unique _ (reviews db)) with true.
      * eexists. split; [reflexivity|]. split; [|left; reflexivity].
        unfold is_error. simpl. unfold HTTP_500_INTERNAL_SERVER_ERROR. lia.
      * symmetry. apply existsb_exists. exists r. split; [assumption|]. simpl.
        rewrite Hu, !Z.eqb_refl.
        assert (Hlt := wf_review_seq db Hwf r Hin).
        replace (Review.id r =? review_seq db)%Z with false; [reflexivity|].
        symmetry. apply Z.eqb_neq. lia.
  - intros reqs. assert (Hrun := run_wf reqs db Hwf).
    apply (unique_by_NoDup _ Review.id); apply Hrun.
Qed.

(** Alice reviews Lagos a second time, then tries to move things around. *)
Lemma one_review_per_pair_witness :
  db_wf db_paid
  /\ (exists o,
        dispatch (env_at 100 gateway_down) (Some alice)
          (POST_reviews (ReviewSerializer.mk_data (Parsed 1) (Parsed 4) (Parsed "Again")))
          db_paid = (o, db_paid)
        /\ is_error o
        /\ (o = Uncaught IntegrityError
            \/ exists errors,
                 o = Returned (mkResponse (PDict errors) HTTP_400_BAD_REQUEST)))
  /\ NoDup (map Review.pair
              (reviews
                 (run [(env_at 100 gateway_down, Some alice,
                        POST_reviews
                          (ReviewSerializer.mk_data (Parsed 1) (Parsed 4) (Parsed "Again")));
                       (env_at 101 gateway_down, Some bob,
                        POST_reviews
                          (ReviewSerializer.mk_data (Parsed 1) (Parsed 3) (Parsed "Fine")));
                       (env_at 102 gateway_down, Some bob,
                        POST_reviews
                          (ReviewSerializer.mk_data (Parsed 1) (Parsed 2) (Parsed "Hm")))]
                    db_paid))).
Proof.
  split; [exact db_paid_wf|].
  destruct (one_review_per_pair (env_at 100 gateway_down) alice
              (ReviewSerializer.mk_data (Parsed 1) (Parsed 4) (Parsed "Again"))
              review1 db_paid db_paid_wf (or_introl eq_refl) eq_refl eq_refl)
    as [Hrejected Hunique].
  split; [exact Hrejected|apply Hunique].
Defined.

(** C10. The verify endpoint does not read the caller: two authenticated
    users sending the same request get the same answer and leave the same
    state, whoever owns the booking of the payment. *)
Theorem verify_not_scoped_to_caller (env : Env) (u1 u2 : User.t)
    (d : PaymentVerificationSerializer.data) (db : DB) :
  dispatch env (Some u1) (POST_payments_verify d) db
  = dispatch env (Some u2) (POST_payments_verify d) db.
Proof. reflexivity. Qed.

(** * Further properties of the code *)

(** ** Payment initiation *)

(** X1. No request to the initiation endpoint creates a payment: whoever
    calls, whatever the body and whatever the gateway would answer, the
    request is answered by an error and the database is as before. *)
Theorem initiation_never_creates_payment (env : Env) (user : option User.t)
    (d : PaymentInitiationSerializer.data) (db : DB) :
  exists o, dispatch env user (POST_payments_initiate d) db = (o, db) /\ is_error o.
Proof.
  apply initiate_payment_writes_nothing.
Qed.

(** The serializer on a booking of the caller that has no payment: the
    one-to-one accessor raises. *)
Lemma initiation_is_valid_unpaid (u : User.t) (b : Booking.t)
    (d : PaymentInitiationSerializer.data) (db : DB) :
  db_wf db -> In b (bookings db) -> Booking.user b = User.id u ->
  (forall p, In p (payments db) -> Payment.booking p <> Booking.id b) ->
  PaymentInitiationSerializer.booking_id d = Parsed (Booking.id b) ->
  PaymentInitiationSerializer.is_valid u d db
  = (Raise (RelatedObjectDoesNotExist MPayment "Booking has no payment."), db).
Proof.
  intros Hwf Hb Hu Hnone Hd.
  unfold PaymentInitiationSerializer.is_valid, run_field. rewrite Hd.
  unfold PaymentInitiationSerializer.validate_booking_id, required, Booking_payment.
  monad_simp.
  rewrite (filter_unique _ Booking.id _ _ b); auto.
  - unfold get. rewrite filter_none; [reflexivity|].
    intros q Hq. apply Z.eqb_neq. now apply Hnone.
  - apply Hwf.
  - rewrite Z.eqb_refl. simpl. now apply Z.eqb_eq.
  - intros q _ Hq. apply andb_true_iff in Hq. destruct Hq as [Hq _].
    now apply Z.eqb_eq in Hq.
Qed.

(** X2. The intended path of the initiation endpoint fails: for a booking
    of the caller that has no payment yet, the request ends in the
    exception of the missing one-to-one object, which nothing handles, and
    nothing is written; the gateway is not called. *)
Theorem initiation_of_unpaid_booking_fails (env : Env) (u : User.t) (b : Booking.t)
    (d : PaymentInitiationSerializer.data) (db : DB) :
  db_wf db -> In b (bookings db) -> Booking.user b = User.id u ->
  (forall p, In p (payments db) -> Payment.booking p <> Booking.id b) ->
  PaymentInitiationSerializer.booking_id d = Parsed (Booking.id b) ->
  dispatch env (Some u) (POST_payments_initiate d) db
  = (Uncaught (RelatedObjectDoesNotExist MPayment "Booking has no payment."), db).
Proof.
  intros Hwf Hb Hu Hnone Hd.
  unfold dispatch, api_view, initiate_payment, bind.
  now rewrite (initiation_is_valid_unpaid u b d db).
Qed.

Lemma initiation_of_unpaid_booking_fails_witness :
  db_wf db_unpaid
  /\ dispatch (env_at 100 (gateway_says "success")) (Some alice)
       (POST_payments_initiate
          (PaymentInitiationSerializer.mk_data (Parsed 1) (Parsed "card") (Parsed "NGN")))
       db_unpaid
     = (Uncaught (RelatedObjectDoesNotExist MPayment "Booking has no payment."), db_unpaid).
Proof.
  split; [exact db_unpaid_wf|].
  apply (initiation_of_unpaid_booking_fails (env_at 100 (gateway_says "success")) alice
           booking1 _ db_unpaid db_unpaid_wf (or_introl eq_refl) eq_refl);
    [intros p []|reflexivity].
Defined.

Lemma unique_opt_app {R : Type} (pk : R -> Z) (key : R -> option string) (r : R)
    (rows : list R) :
  unique_opt pk key rows ->
  (forall q t, In q rows -> key q = Some t -> key r = Some t -> pk q = pk r) ->
  unique_opt pk key (rows ++ [r]).
Proof.
  intros Hu Hr a b t Ha Hb Hka Hkb.
  apply in_app_or in Ha. apply in_app_or in Hb. simpl in Ha, Hb.
  destruct Ha as [Ha|[<-|[]]], Hb as [Hb|[<-|[]]]; eauto.
  symmetry. eapply Hr; eauto.
Qed.

Lemma fresh_in_no_clash (key : Payment.t -> option string) (v : option string) (db : DB)
    (q : Payment.t) (t : string) :
  fresh_in key v db -> In q (payments db) -> key q = Some t -> v = Some t -> False.
Proof.
  intros Hfresh Hq Hk Hv. specialize (Hfresh q Hq).
  assert (Hc : opt_clash (key q) v = true) by (apply opt_clash_true; eauto).
  congruence.
Qed.

(** Creating the payment of a booking that has none, under fresh gateway
    ids, succeeds and keeps the constraints. *)
Lemma Payment_objects_create_fresh (env : Env) (b : Booking.t)
    (currency payment_method : string) (transaction_id reference payment_url : pyval)
    (db : DB) :
  db_wf db -> In b (bookings db) ->
  (forall p, In p (payments db) -> Payment.booking p <> Booking.id b) ->
  fresh_in Payment.chapa_transaction_id (to_python env transaction_id) db ->
  fresh_in Payment.chapa_reference (to_python env reference) db ->
  let p := Payment_created env b currency payment_method transaction_id reference
             payment_url db in
  Payment_objects_create env b (Booking.total_amount b) currency payment_method
    transaction_id reference payment_url "pending" db = (Ok p, add_payment p db)
  /\ db_wf (add_payment p db).
Proof.
  intros Hwf Hb Hnone Htid Href p. split.
  - assert (Hv : Payment_violates_unique p (payments db) = false).
    { apply Payment_violates_unique_false. intros q Hq _. repeat split.
      - simpl. now apply Hnone.
      - now apply Htid.
      - now apply Href. }
    assert (Hfk : fk_ok Booking.id (Payment.booking p) (bookings db) = true).
    { apply fk_ok_iff. exists b. split; [assumption|reflexivity]. }
    unfold Payment_objects_create. cbv zeta.
    unfold p, Payment_created in Hv, Hfk |- *. rewrite Hv, Hfk. reflexivity.
  - destruct Hwf. unfold add_payment. constructor; simpl; auto.
    + apply NoDup_pk_app; auto. intros q Hq. simpl.
      specialize (wf_payment_seq0 q Hq). lia.
    + apply unique_by_app; auto. intros q Hq Hk. simpl in Hk.
      exfalso. now apply (Hnone q).
    + apply unique_opt_app; auto. intros q t Hq H1 H2. exfalso.
      now apply (fresh_in_no_clash Payment.chapa_transaction_id
                   (to_python env transaction_id) db q t).
    + apply unique_opt_app; auto. intros q t Hq H1 H2. exfalso.
      now apply (fresh_in_no_clash Payment.chapa_reference
                   (to_python env reference) db q t).
    + intros q Hq. apply in_app_or in Hq. destruct Hq as [Hq|[<-|[]]]; auto.
      exists b. split; [assumption|reflexivity].
    + intros q Hq. apply in_app_or in Hq. destruct Hq as [Hq|[<-|[]]]; simpl.
      * specialize (wf_payment_seq0 q Hq). lia.
      * lia.
Qed.

(** X3. The [try] block of the initiation view, when the gateway accepts:
    for a booking without payment and gateway ids that no stored payment
    carries, exactly one payment is created, "pending", for the booking's
    total amount and with the ids of the reply; the answer is 201; the
    constraints hold afterwards, and running the block again on the new
    state is answered 400 by the guard of the view. *)
Theorem initiation_block_creates_pending_payment (env env' : Env)
    (v : PaymentInitiationSerializer.validated_data) (b : Booking.t) (db : DB)
    (response_data payment_url reference transaction_id : pyval) :
  db_wf db -> In b (bookings db) ->
  Booking.id b = PaymentInitiationSerializer.v_booking_id v ->
  (forall p, In p (payments db) -> Payment.booking p <> Booking.id b) ->
  ChapaPaymentAPI_initiate_payment env b (PaymentInitiationSerializer.v_payment_method v)
    (PaymentInitiationSerializer.v_currency v) db
  = (Ok (Initiated response_data payment_url reference transaction_id), db) ->
  fresh_in Payment.chapa_transaction_id (to_python env transaction_id) db ->
  fresh_in Payment.chapa_reference (to_python env reference) db ->
  let p := Payment_created env b (PaymentInitiationSerializer.v_currency v)
             (PaymentInitiationSerializer.v_payment_method v) transaction_id reference
             payment_url db in
  initiate_payment_try env v db
  = (Ok (mkResponse
           (PDict [("message", PStr "Payment initiated successfully");
                   ("payment_id", PInt (payment_seq db));
                   ("payment_url", payment_url);
                   ("transaction_id", transaction_id);
                   ("reference", reference)])
           HTTP_201_CREATED),
     add_payment p db)
  /\ db_wf (add_payment p db)
  /\ Booking_payment b (add_payment p db) = (Ok p, add_payment p db)
  /\ initiate_payment_try env' v (add_payment p db)
     = (Ok (mkResponse (PDict [("error", PStr "Payment already exists for this booking")])
                       HTTP_400_BAD_REQUEST), add_payment p db).
Proof.
  intros Hwf Hb Hid Hnone Hapi Htid Href p.
  destruct (Payment_objects_create_fresh env b (PaymentInitiationSerializer.v_currency v)
              (PaymentInitiationSerializer.v_payment_method v) transaction_id reference
              payment_url db Hwf Hb Hnone Htid Href) as [Hcreate Hwf'].
  fold p in Hcreate, Hwf'.
  assert (Hp : In p (payments (add_payment p db)))
    by (simpl; apply in_or_app; right; now left).
  assert (Hb' : In b (bookings (add_payment p db))) by exact Hb.
  split; [|split; [exact Hwf'|split]].
  - unfold initiate_payment_try. monad_simp.
    rewrite (filter_unique _ Booking.id _ _ b); auto.
    + unfold get_object_or_404, get, hasattr_payment, Booking_payment. monad_simp.
      rewrite filter_none.
      * unfold get. cbv beta iota. cbn [is_AttributeError]. cbv beta iota.
        rewrite Hapi. cbv beta iota. rewrite Hcreate. reflexivity.
      * intros q Hq. apply Z.eqb_neq. now apply Hnone.
    + apply Hwf.
    + now apply Z.eqb_eq.
    + intros q _ Hq. apply Z.eqb_eq in Hq. congruence.
  - unfold Booking_payment.
    rewrite (filter_unique _ Payment.id _ _ p); auto.
    + apply Hwf'.
    + now apply Z.eqb_eq.
    + intros q Hq Hqb. apply Z.eqb_eq in Hqb.
      apply (wf_payment_booking _ Hwf' q p); auto.
  - now apply (initiate_payment_try_existing env' v b p (add_payment p db)).
Qed.

Lemma initiation_block_creates_pending_payment_witness :
  db_wf db_unpaid
  /\ (let env := env_at 100
                   (HttpReply 200 ""
                      (inr (PDict [("data",
                                    PDict [("checkout_url", PStr "https://checkout.chapa.co/9");
                                           ("reference", PStr "CHAPA-REF-9");
                                           ("id", PStr "TXN9")])]))) in
      let v := PaymentInitiationSerializer.mk 1 "card" "NGN" in
      let p := Payment_created env booking1 "NGN" "card" (PStr "TXN9") (PStr "CHAPA-REF-9")
                 (PStr "https://checkout.chapa.co/9") db_unpaid in
      fst (initiate_payment_try env v db_unpaid)
      = Ok (mkResponse
              (PDict [("message", PStr "Payment initiated successfully");
                      ("payment_id", PInt 1);
                      ("payment_url", PStr "https://checkout.chapa.co/9");
                      ("transaction_id", PStr "TXN9");
                      ("reference", PStr "CHAPA-REF-9")])
              HTTP_201_CREATED)
      /\ payments (snd (initiate_payment_try env v db_unpaid)) = [p]
      /\ Payment.status p = "pending").
Proof.
  split; [exact db_unpaid_wf|]. cbv zeta.
  destruct (initiation_block_creates_pending_payment
              (env_at 100
                 (HttpReply 200 ""
                    (inr (PDict [("data",
                                  PDict [("checkout_url", PStr "https://checkout.chapa.co/9");
                                         ("reference", PStr "CHAPA-REF-9");
                                         ("id", PStr "TXN9")])]))))
              (env_at 100 gateway_down)
              (PaymentInitiationSerializer.mk 1 "card" "NGN") booking1 db_unpaid
              _ _ _ _ db_unpaid_wf (or_introl eq_refl) eq_refl
              (fun p (H : In p []) => match H with end) eq_refl
              (fun q (H : In q []) => match H with end)
              (fun q (H : In q []) => match H with end)) as [Hrun _].
  rewrite Hrun. repeat split.
Defined.

(** ** The gateway client *)

Lemma data_get_object (kvs : list (string * pyval)) (k : string) (db : DB) :
  data_get (PDict kvs) k db
  = match assoc "data" kvs with
    | None => (Ok PNone, db)
    | Some (PDict d) => (Ok (member k d), db)
    | Some v => (Raise (no_attribute v "get"), db)
    end.
Proof.
  unfold data_get, py_get, member. monad_simp.
  destruct (assoc "data" kvs) as [v|]; [|reflexivity].
  destruct v; reflexivity.
Qed.

(** The replies of the gateway, case by case. *)
Lemma ChapaPaymentAPI_verify_payment_cases (env : Env) (transaction_id : string) (db : DB) :
  exists r,
    ChapaPaymentAPI_verify_payment env transaction_id db = (Ok r, db)
    /\ ((exists response_data status amount currency,
            r = Verified response_data status amount currency) <-> gateway_accepts env)
    /\ (forall text kvs,
           gateway env = HttpReply 200 text (inr (PDict kvs)) ->
           assoc "data" kvs = None ->
           r = Verified (PDict kvs) PNone PNone PNone)
    /\ (forall text kvs d,
           gateway env = HttpReply 200 text (inr (PDict kvs)) ->
           assoc "data" kvs = Some (PDict d) ->
           r = Verified (PDict kvs) (member "status" d) (member "amount" d)
                 (member "currency" d)).
Proof.
  unfold ChapaPaymentAPI_verify_payment, requests_call, gateway_accepts.
  destruct (gateway env) as [msg|code text json] eqn:Eg; monad_simp.
  - eexists. split; [reflexivity|]. split; [|split; intros; discriminate].
    split; [intros (? & ? & ? & ? & H); discriminate|].
    intros (? & ? & H & _). discriminate.
  - destruct (code =? 200)%Z eqn:Ec; monad_simp.
    + apply Z.eqb_eq in Ec. subst code. unfold response_json.
      destruct json as [msg|response_data]; monad_simp.
      * eexists. split; [reflexivity|]. split; [|split; intros; discriminate].
        split; [intros (? & ? & ? & ? & H); discriminate|].
        intros (? & ? & H & _). discriminate.
      * destruct response_data as [| | | |xs|kvs| |];
          try (unfold data_get, py_get; monad_simp;
               eexists; split; [reflexivity|];
               split; [|split; intros; discriminate];
               split; [intros (? & ? & ? & ? & H); discriminate|];
               intros (? & ? & H & _); discriminate).
        destruct (assoc "data" kvs) as [v|] eqn:Ed;
          [destruct v as [| | | |xs|d| |]|];
          repeat (rewrite data_get_object, Ed; cbv beta iota).
        1-5, 7-8:
             try (eexists; split; [reflexivity|];
                  split; [|split; intros ? ? ? H; inversion H; subst; congruence];
                  split; [intros (? & ? & ? & ? & H); discriminate|];
                  intros (? & ? & H & [H'|[? H']]); inversion H; subst; congruence).
        -- eexists. split; [reflexivity|]. split; [|split].
           ++ split; [intros _|intros _; eauto].
              exists text, kvs. split; [reflexivity|]. right. eauto.
           ++ intros ? ? H H'. inversion H; subst. congruence.
           ++ intros ? ? ? H H'. inversion H; subst.
              rewrite Ed in H'. inversion H'; subst. reflexivity.
        -- eexists. split; [reflexivity|]. split; [|split].
           ++ split; [intros _|intros _; eauto].
              exists text, kvs. split; [reflexivity|]. now left.
           ++ intros ? ? H _. inversion H; subst. reflexivity.
           ++ intros ? ? ? H H'. inversion H; subst. congruence.
    + apply Z.eqb_neq in Ec.
      eexists. split; [reflexivity|]. split; [|split].
      * split; [intros (? & ? & ? & ? & H); discriminate|].
        intros (? & ? & H & _). inversion H; subst. contradiction.
      * intros ? ? H. inversion H; subst. contradiction.
      * intros ? ? ? H. inversion H; subst. contradiction.
Qed.

(** X4. [ChapaPaymentAPI.verify_payment] never raises and never writes: a
    transport error, a reply other than 200, a body that is not JSON or not
    an object are all reported as a failure.  It reports a success exactly
    when the reply is 200 with a JSON object whose "data" is an object or
    is absent; the status, amount and currency are the members of "data",
    and all three are [None] when "data" or the member is missing. *)
Theorem gateway_verification_result (env : Env) (transaction_id : string) (db : DB) :
  exists r,
    ChapaPaymentAPI_verify_payment env transaction_id db = (Ok r, db)
    /\ ((exists response_data status amount currency,
            r = Verified response_data status amount currency) <-> gateway_accepts env)
    /\ (forall text kvs,
           gateway env = HttpReply 200 text (inr (PDict kvs)) ->
           assoc "data" kvs = None ->
           r = Verified (PDict kvs) PNone PNone PNone)
    /\ (forall text kvs d,
           gateway env = HttpReply 200 text (inr (PDict kvs)) ->
           assoc "data" kvs = Some (PDict d) ->
           r = Verified (PDict kvs) (member "status" d) (member "amount" d)
                 (member "currency" d)).
Proof.
  apply ChapaPaymentAPI_verify_payment_cases.
Qed.

(** X5. [ChapaPaymentAPI.initiate_payment] never raises and never writes.
    For a booking whose destination resolves it reports a success exactly
    when the gateway accepts (200, a JSON object, "data" an object or
    absent), with the checkout url, the reference and the transaction id
    read from "data"; each of them is [None] when the reply does not carry
    it, and the success is reported all the same. *)
Theorem gateway_initiation_result (env : Env) (booking : Booking.t)
    (payment_method currency : string) (db : DB) :
  exists r,
    ChapaPaymentAPI_initiate_payment env booking payment_method currency db = (Ok r, db)
    /\ (forall dest,
           Booking_destination booking db = (Ok dest, db) ->
           ((exists response_data payment_url reference transaction_id,
                r = Initiated response_data payment_url reference transaction_id)
            <-> gateway_accepts env)
           /\ (forall text kvs,
                  gateway env = HttpReply 200 text (inr (PDict kvs)) ->
                  assoc "data" kvs = None ->
                  r = Initiated (PDict kvs) PNone PNone PNone)
           /\ (forall text kvs d,
                  gateway env = HttpReply 200 text (inr (PDict kvs)) ->
                  assoc "data" kvs = Some (PDict d) ->
                  r = Initiated (PDict kvs) (member "checkout_url" d)
                        (member "reference" d) (member "id" d))).
Proof.
  unfold ChapaPaymentAPI_initiate_payment, requests_call, gateway_accepts.
  unfold bind at 1. unfold try_except.
  destruct (Booking_destination booking db) as [[dest0|e] db0] eqn:Edest.
  - assert (Hdb0 : db0 = db).
    { unfold Booking_destination in Edest.
      destruct (get MDestination _) as [x|e]; [|destruct e]; now inversion Edest. }
    subst db0.
    destruct (gateway env) as [msg|code text json] eqn:Eg; monad_simp.
    + eexists. split; [reflexivity|]. intros dest _.
      split; [|split; intros; discriminate].
      split; [intros (? & ? & ? & ? & H); discriminate|].
      intros (? & ? & H & _). discriminate.
    + destruct (code =? 200)%Z eqn:Ec; monad_simp.
      * apply Z.eqb_eq in Ec. subst code. unfold response_json.
        destruct json as [msg|response_data]; monad_simp.
        -- eexists. split; [reflexivity|]. intros dest _.
           split; [|split; intros; discriminate].
           split; [intros (? & ? & ? & ? & H); discriminate|].
           intros (? & ? & H & _). discriminate.
        -- destruct response_data as [| | | |xs|kvs| |];
             try (unfold data_get, py_get; monad_simp;
                  eexists; split; [reflexivity|]; intros dest _;
                  split; [|split; intros; discriminate];
                  split; [intros (? & ? & ? & ? & H); discriminate|];
                  intros (? & ? & H & _); discriminate).
           destruct (assoc "data" kvs) as [v|] eqn:Ed;
             [destruct v as [| | | |xs|d| |]|];
             repeat (rewrite data_get_object, Ed; cbv beta iota).
           1-5, 7-8:
             try (eexists; split; [reflexivity|]; intros dest _;
                  split; [|split; intros ? ? ? H; inversion H; subst; congruence];
                  split; [intros (? & ? & ? & ? & H); discriminate|];
                  intros (? & ? & H & [H'|[? H']]); inversion H; subst; congruence).
           ++ eexists. split; [reflexivity|]. intros dest _. split; [|split].
              ** split; [intros _|intros _; eauto].
                 exists text, kvs. split; [reflexivity|]. right. eauto.
              ** intros ? ? H H'. inversion H; subst. congruence.
              ** intros ? ? ? H H'. inversion H; subst.
                 rewrite Ed in H'. inversion H'; subst. reflexivity.
           ++ eexists. split; [reflexivity|]. intros dest _. split; [|split].
              ** split; [intros _|intros _; eauto].
                 exists text, kvs. split; [reflexivity|]. now left.
              ** intros ? ? H _. inversion H; subst. reflexivity.
              ** intros ? ? ? H H'. inversion H; subst. congruence.
      * apply Z.eqb_neq in Ec.
        eexists. split; [reflexivity|]. intros dest _. split; [|split].
        -- split; [intros (? & ? & ? & ? & H); discriminate|].
           intros (? & ? & H & _). inversion H; subst. contradiction.
        -- intros ? ? H. inversion H; subst. contradiction.
        -- intros ? ? ? H. inversion H; subst. contradiction.
  - assert (Hdb0 : db0 = db).
    { unfold Booking_destination in Edest.
      destruct (get MDestination _) as [x|e0]; [|destruct e0]; now inversion Edest. }
    subst db0. unfold Exception. eexists. split; [reflexivity|].
    intros dest H. discriminate.
Qed.

(** ** The verify endpoint *)

(** X6. A verify request for a stored payment that the gateway does not
    answer with a success (a transport error, a status other than 200, a
    body that is not a JSON object) is answered 400 "Payment verification
    failed" and writes nothing: the payment keeps its status.  For a status
    other than 200 the details name the status. *)
Theorem verification_refused_by_gateway (env : Env) (u : User.t) (t : string)
    (p : Payment.t) (db : DB) :
  db_wf db -> In p (payments db) -> Payment.chapa_transaction_id p = Some t ->
  t <> "" -> (String.length t <= 100)%nat -> ~ gateway_accepts env ->
  exists error,
    dispatch env (Some u)
      (POST_payments_verify (PaymentVerificationSerializer.mk_data (Parsed t))) db
    = (Returned (mkResponse
                   (PDict [("error", PStr "Payment verification failed");
                           ("details", PStr error)])
                   HTTP_400_BAD_REQUEST), db)
    /\ (forall code text json,
           gateway env = HttpReply code text json -> code <> 200 ->
           error = "Verification failed: " ++ str_int code)
    /\ (forall msg,
           gateway env = TransportError msg ->
           error = "Payment verification failed: " ++ msg).
Proof.
  intros Hwf Hin Ht Hne Hlen Hno.
  destruct (ChapaPaymentAPI_verify_payment_cases env t db) as [r [Hr [Hiff _]]].
  destruct r as [response_data st am cur|error details].
  - exfalso. apply Hno, Hiff. eauto.
  - exists error. split.
    + unfold dispatch, api_view, verify_payment. monad_simp.
      rewrite (verification_is_valid t p db) by assumption.
      unfold verify_payment_try. monad_simp.
      rewrite (Payment_objects_get_stored t p db) by assumption.
      unfold get_object_or_404, get. rewrite Hr. reflexivity.
    + split.
      * intros code text json Hg Hcode.
        unfold ChapaPaymentAPI_verify_payment, requests_call in Hr. rewrite Hg in Hr.
        apply Z.eqb_neq in Hcode. revert Hr. monad_simp. rewrite Hcode.
        intros Hr. now inversion Hr.
      * intros msg Hg.
        unfold ChapaPaymentAPI_verify_payment, requests_call in Hr. rewrite Hg in Hr.
        revert Hr. monad_simp. intros Hr. now inversion Hr.
Qed.

Lemma verification_refused_by_gateway_witness :
  db_wf db_paid
  /\ exists error,
       dispatch (env_at 100 gateway_down) (Some alice)
         (POST_payments_verify (PaymentVerificationSerializer.mk_data (Parsed "TXN123")))
         db_paid
       = (Returned (mkResponse
                      (PDict [("error", PStr "Payment verification failed");
                              ("details", PStr error)])
                      HTTP_400_BAD_REQUEST), db_paid)
       /\ error = "Payment verification failed: Connection refused".
Proof.
  split; [exact db_paid_wf|].
  destruct (verification_refused_by_gateway (env_at 100 gateway_down) alice "TXN123"
              payment1 db_paid db_paid_wf (or_introl eq_refl) eq_refl)
    as [error [Hrun [_ Hmsg]]].
  - discriminate.
  - simpl. lia.
  - intros (text & kvs & H & _). discriminate.
  - exists error. split; [exact Hrun|]. now apply Hmsg.
Defined.

(** ** The webhook *)

(** [process_payment_webhook] on any body. *)
Lemma process_payment_webhook_cases (webhook_data : pyval) (db : DB) :
  process_payment_webhook webhook_data db
  = (Ok (match webhook_data with
         | PDict kvs => truthy (member "id" kvs) && truthy (member "status" kvs)
         | _ => false
         end), db).
Proof.
  unfold process_payment_webhook, py_get, member. monad_simp.
  destruct webhook_data as [| | | |xs|kvs| |]; try reflexivity.
  destruct (truthy match assoc "id" kvs with Some v => v | None => PNone end),
    (truthy match assoc "status" kvs with Some v => v | None => PNone end); reflexivity.
Qed.

(** X7. [process_payment_webhook] never raises and writes nothing.  It
    answers [True] exactly when the body is an object whose "id" and
    "status" are both present and truthy; a body that is not an object is
    answered [False], the missing [get] being caught. *)
Theorem process_payment_webhook_accepts (webhook_data : pyval) (db : DB) :
  exists ok,
    process_payment_webhook webhook_data db = (Ok ok, db)
    /\ (ok = true <->
        exists kvs,
          webhook_data = PDict kvs
          /\ truthy (member "id" kvs) = true
          /\ truthy (member "status" kvs) = true).
Proof.
  rewrite process_payment_webhook_cases. eexists. split; [reflexivity|].
  destruct webhook_data as [| | | |xs|kvs| |];
    try (split; [discriminate|intros (kvs' & H & _); discriminate]).
  split.
  - intros H. apply andb_true_iff in H. exists kvs. tauto.
  - intros (kvs' & H & Hid & Hst). inversion H; subst.
    now rewrite Hid, Hst.
Qed.

(** X8. What the webhook does not write.  A delivery leaves the database
    as it was when [process_payment_webhook] would answer [False] for its
    body, when no payment carries the transaction id of the body, and when
    the status of the body is neither "success" nor "failed". *)
Theorem webhook_ignored_delivery (env : Env) (u : User.t) (webhook_data : pyval)
    (db : DB) :
  (process_payment_webhook webhook_data db = (Ok false, db) ->
   snd (dispatch env (Some u) (POST_payments_webhook webhook_data) db) = db)
  /\ (forall kvs,
         webhook_data = PDict kvs ->
         filter (has_txid (py_str env (member "id" kvs))) (payments db) = [] ->
         snd (dispatch env (Some u) (POST_payments_webhook webhook_data) db) = db)
  /\ (forall kvs,
         webhook_data = PDict kvs ->
         member "status" kvs <> PStr "success" ->
         member "status" kvs <> PStr "failed" ->
         snd (dispatch env (Some u) (POST_payments_webhook webhook_data) db) = db).
Proof.
  assert (Hout : forall (r : result Response * DB),
             snd (match r with
                  | (Ok x, db') => (Returned x, db')
                  | (Raise Http404, db') => (Handled HTTP_404_NOT_FOUND Http404, db')
                  | (Raise (ValidationError msg), db') =>
                      (Handled HTTP_400_BAD_REQUEST (ValidationError msg), db')
                  | (Raise e, db') => (Uncaught e, db')
                  end) = snd r).
  { intros [[x|e] db']; [reflexivity|destruct e; reflexivity]. }
  unfold dispatch, api_view. rewrite Hout. clear Hout.
  split; [|split].
  - rewrite process_payment_webhook_cases. intros H.
    destruct webhook_data as [| | | |xs|kvs| |];
      try (unfold chapa_webhook, py_get, local_attr; monad_simp; reflexivity).
    assert (Hb : truthy (member "id" kvs) && truthy (member "status" kvs) = false)
      by congruence.
    unfold chapa_webhook, py_get. monad_simp. fold (member "id" kvs).
    fold (member "status" kvs). unfold chapa_webhook_try. rewrite Hb.
    unfold local_attr. monad_simp. reflexivity.
  - intros kvs -> Hnone.
    unfold chapa_webhook, py_get. monad_simp. fold (member "id" kvs).
    fold (member "status" kvs). unfold chapa_webhook_try.
    destruct (truthy (member "id" kvs) && truthy (member "status" kvs)).
    + unfold Payment_objects_get. monad_simp. rewrite Hnone.
      unfold get, local_attr. monad_simp. reflexivity.
    + unfold local_attr. monad_simp. reflexivity.
  - intros kvs -> Hs Hf.
    apply eq_str_false in Hs. apply eq_str_false in Hf.
    unfold chapa_webhook, py_get. monad_simp. fold (member "id" kvs).
    fold (member "status" kvs). unfold chapa_webhook_try.
    destruct (truthy (member "id" kvs) && truthy (member "status" kvs)).
    + unfold Payment_objects_get. monad_simp. rewrite Hs, Hf.
      destruct (get MPayment _) as [p|e]; [|destruct e as [| |m|m msg| | | | | | |]];
        unfold local_attr; monad_simp; try reflexivity;
        cbn [is_DoesNotExist]; try reflexivity;
        destruct (model_eqb MPayment m); reflexivity.
    + unfold local_attr. monad_simp. reflexivity.
Qed.

(** ** The status endpoint *)



(** ** No status is final *)

(** X10. A "failed" delivery for a payment that a "success" delivery has
    completed marks the payment "failed" and stores the new body, while the
    completion time of the first delivery stays on the payment and its
    booking stays "confirmed": nothing undoes the confirmation. *)
Theorem failed_delivery_after_success (env1 env2 : Env) (u : User.t)
    (kvs1 kvs2 : list (string * pyval)) (t : string) (p : Payment.t) (db : DB) :
  db_wf db -> In p (payments db) -> Payment.chapa_transaction_id p = Some t ->
  t <> "" ->
  assoc "id" kvs1 = Some (PStr t) -> assoc "status" kvs1 = Some (PStr "success") ->
  assoc "id" kvs2 = Some (PStr t) -> assoc "status" kvs2 = Some (PStr "failed") ->
  let db1 := snd (dispatch env1 (Some u) (POST_payments_webhook (PDict kvs1)) db) in
  let db2 := snd (dispatch env2 (Some u) (POST_payments_webhook (PDict kvs2)) db1) in
  exists p2 b2,
    Payment_objects_get t db2 = (Ok p2, db2)
    /\ Payment_booking p2 db2 = (Ok b2, db2)
    /\ Payment.status p2 = "failed"
    /\ Payment.payment_date p2 = Some (now env1)
    /\ Payment.verification_response p2 = PDict kvs2
    /\ Booking.status b2 = "confirmed".
Proof.
  intros Hwf Hin Ht Hne Hid1 Hst1 Hid2 Hst2 db1 db2.
  assert (Htruthy : truthy (PDict kvs2) = true)
    by now apply (truthy_dict_with "id" kvs2 (PStr t)).
  destruct (chapa_webhook_stored env1 u kvs1 t (PStr "success") p db Hwf Hin Ht Hne
              Hid1 Hst1 eq_refl) as [b [Hb [Hbid Hrun1]]].
  set (p1 := Payment_updated env1 "completed" (PDict kvs1) p).
  set (b1 := Booking_confirmed env1 b).
  assert (Hdb1 : db1 = confirm_booking env1 b
                         (mark_payment env1 "completed" (PDict kvs1) p db)).
  { unfold db1, dispatch, api_view. now rewrite Hrun1. }
  assert (Hwf1 : db_wf db1).
  { rewrite Hdb1. apply confirm_booking_wf; [now apply mark_payment_wf|assumption]. }
  assert (Hp1 : In p1 (payments db1)).
  { rewrite Hdb1. simpl. now apply (In_replace_row_new _ Payment.id _ _ p). }
  assert (Hb1 : In b1 (bookings db1)).
  { rewrite Hdb1. simpl. now apply (In_replace_row_new _ Booking.id _ _ b). }
  destruct (chapa_webhook_stored env2 u kvs2 t (PStr "failed") p1 db1 Hwf1 Hp1 Ht Hne
              Hid2 Hst2 eq_refl) as [b1' [_ [_ Hrun2]]].
  assert (Hdb2 : db2 = mark_payment env2 "failed" (PDict kvs2) p1 db1).
  { unfold db2, dispatch, api_view. fold db1. now rewrite Hrun2. }
  destruct (Payment_booking_stored p1 db1 Hwf1 Hp1) as [b1'' [Hb1'' [Hbid1 Hget]]].
  assert (Hsame : b1'' = b1).
  { apply (pk_inj _ Booking.id (bookings db1)); auto; [apply Hwf1|].
    rewrite Hbid1. simpl. now symmetry. }
  subst b1''.
  clearbody db2. clearbody db1. subst db2.
  exists (Payment_updated env2 "failed" (PDict kvs2) p1), b1.
  split; [now apply (get_after_mark env2 "failed" (PDict kvs2) t p1 db1)|].
  split; [now apply Hget|].
  split; [reflexivity|]. split; [reflexivity|]. split; [|reflexivity].
  cbn [Payment_updated Payment.verification_response]. now rewrite Htruthy.
Qed.

Lemma failed_delivery_after_success_witness :
  db_wf db_paid
  /\ (let db1 := snd (dispatch (env_at 100 gateway_down) (Some alice)
                        (POST_payments_webhook webhook_success) db_paid) in
      let db2 := snd (dispatch (env_at 200 gateway_down) (Some alice)
                        (POST_payments_webhook
                           (PDict [("id", PStr "TXN123"); ("status", PStr "failed")]))
                        db1) in
      exists p2 b2,
        Payment_objects_get "TXN123" db2 = (Ok p2, db2)
        /\ Payment_booking p2 db2 = (Ok b2, db2)
        /\ Payment.status p2 = "failed"
        /\ Payment.payment_date p2 = Some 100
        /\ Payment.verification_response p2
           = PDict [("id", PStr "TXN123"); ("status", PStr "failed")]
        /\ Booking.status b2 = "confirmed").
Proof.
  split; [exact db_paid_wf|].
  apply (failed_delivery_after_success (env_at 100 gateway_down) (env_at 200 gateway_down)
           alice [("id", PStr "TXN123"); ("status", PStr "success")]
           [("id", PStr "TXN123"); ("status", PStr "failed")] "TXN123" payment1 db_paid
           db_paid_wf (or_introl eq_refl) eq_refl);
    [discriminate|reflexivity|reflexivity|reflexivity|reflexivity].
Defined.

(** ** The review views *)

Lemma filter_twice {R : Type} (P Q : R -> bool) (rows : list R) :
  filter P (filter Q rows) = filter (fun x => Q x && P x) rows.
Proof.
  induction rows as [|a rows IH]; simpl; [reflexivity|].
  destruct (Q a); simpl; [destruct (P a)|]; now rewrite IH.
Qed.

(** [get_object] on a review of the caller. *)
Lemma Review_get_object_own (u : User.t) (r : Review.t) (db : DB) :
  db_wf db -> In r (reviews db) -> Review.user r = User.id u ->
  Review_get_object u (Review.id r) db = (Ok r, db).
Proof.
  intros Hwf Hin Hu. unfold Review_get_object.
  rewrite filter_twice, (filter_unique _ Review.id _ _ r); auto.
  - apply Hwf.
  - apply andb_true_iff. split; now apply Z.eqb_eq.
  - intros q _ Hq. apply andb_true_iff in Hq. destruct Hq as [_ Hq].
    now apply Z.eqb_eq.
Qed.

(** [get_object] on a key that no review of the caller has. *)
Lemma Review_get_object_missing (u : User.t) (pk : Z) (db : DB) :
  (forall q, In q (reviews db) -> Review.user q = User.id u -> Review.id q <> pk) ->
  Review_get_object u pk db = (Raise Http404, db).
Proof.
  intros Hnone. unfold Review_get_object.
  rewrite filter_twice, filter_none; [reflexivity|].
  intros q Hq. destruct (Review.user q =? User.id u)%Z eqn:E; [|reflexivity].
  apply Z.eqb_eq in E. cbn [andb]. apply Z.eqb_neq. now apply Hnone.
Qed.

(** X11. The review views are scoped to the caller: reading, replacing,
    patching or deleting a review of another user is answered 404, as if
    the review did not exist, and writes nothing. *)
Theorem reviews_scoped_to_caller (env : Env) (u : User.t) (r : Review.t)
    (d : ReviewSerializer.data) (db : DB) :
  db_wf db -> In r (reviews db) -> Review.user r <> User.id u ->
  forall req,
    In req [GET_reviews_pk (Review.id r); PUT_reviews_pk (Review.id r) d;
            PATCH_reviews_pk (Review.id r) d; DELETE_reviews_pk (Review.id r)] ->
    dispatch env (Some u) req db = (Handled HTTP_404_NOT_FOUND Http404, db).
Proof.
  intros Hwf Hin Hu req Hreq.
  assert (Hget : Review_get_object u (Review.id r) db = (Raise Http404, db)).
  { apply Review_get_object_missing. intros q Hq Hqu Hid.
    assert (q = r) by (apply (pk_inj _ Review.id (reviews db)); auto; apply Hwf).
    subst q. contradiction. }
  simpl in Hreq. destruct Hreq as [<-|[<-|[<-|[<-|[]]]]];
    unfold dispatch, api_view, ReviewDetailView_get, ReviewDetailView_update,
      ReviewDetailView_delete, bind; now rewrite Hget.
Qed.

Lemma reviews_scoped_to_caller_witness :
  db_wf db_paid
  /\ dispatch (env_at 100 gateway_down) (Some bob) (DELETE_reviews_pk 1) db_paid
     = (Handled HTTP_404_NOT_FOUND Http404, db_paid).
Proof.
  split; [exact db_paid_wf|].
  apply (reviews_scoped_to_caller (env_at 100 gateway_down) bob review1
           (ReviewSerializer.mk_data Missing Missing Missing) db_paid db_paid_wf
           (or_introl eq_refl)).
  - discriminate.
  - simpl. tauto.
Defined.

(** The review serializer on a body that carries the three members. *)
Lemma review_is_valid_ok (partial : bool) (d : ReviewSerializer.data) (dest v : Z)
    (c : string) (db : DB) :
  ReviewSerializer.destination_id d = Parsed dest ->
  ReviewSerializer.rating d = Parsed v -> 1 <= v <= 5 ->
  ReviewSerializer.comment d = Parsed c -> c <> "" ->
  ReviewSerializer.is_valid partial d db
  = (Ok (inr (ReviewSerializer.mk (Some dest) (Some v) (Some c))), db).
Proof.
  intros Hd Hr Hv Hc Hne. unfold ReviewSerializer.is_valid. rewrite Hd, Hr, Hc.
  assert (Hrange : ((1 <=? v) && (v <=? 5))%Z = true).
  { apply andb_true_iff. split; apply Z.leb_le; lia. }
  apply String.eqb_neq in Hne.
  unfold ReviewSerializer.run_field_partial, run_field,
    ReviewSerializer.rating_field, CharField, required.
  destruct partial; monad_simp; rewrite Hrange; monad_simp; rewrite Hne; reflexivity.
Qed.

Lemma to_representation_found (u : User.t) (r : Review.t) (dest : Destination.t)
    (db : DB) :
  destination_at (Review.destination r) dest db ->
  ReviewSerializer.to_representation u r db = (Ok (Review_data u dest r), db).
Proof.
  unfold destination_at, ReviewSerializer.to_representation, Review_data. intros H.
  monad_simp. rewrite H. reflexivity.
Qed.

Lemma destination_at_fk_ok (k : Z) (dest : Destination.t) (db : DB) :
  destination_at k dest db -> fk_ok Destination.id k (destinations db) = true.
Proof.
  unfold destination_at. intros H. apply fk_ok_iff.
  assert (Hin : In dest (filter (fun d => (Destination.id d =? k)%Z) (destinations db)))
    by (rewrite H; now left).
  apply filter_In in Hin. destruct Hin as [Hin Hk]. apply Z.eqb_eq in Hk. eauto.
Qed.

(** A creation request that passes the checks. *)
Lemma ReviewListCreateView_post_created (env : Env) (u : User.t)
    (d : ReviewSerializer.data) (dest v : Z) (c : string) (dst : Destination.t)
    (db : DB) :
  ReviewSerializer.destination_id d = Parsed dest ->
  ReviewSerializer.rating d = Parsed v -> 1 <= v <= 5 ->
  ReviewSerializer.comment d = Parsed c -> c <> "" ->
  destination_at dest dst db ->
  (forall q, In q (reviews db) -> Review.pair q <> (User.id u, dest)) ->
  let r := Review.mk (review_seq db) (User.id u) dest v c (now env) (now env) in
  dispatch env (Some u) (POST_reviews d) db
  = (Returned (mkResponse (Review_data u dst r) HTTP_201_CREATED), add_review r db).
Proof.
  intros Hd Hr Hv Hc Hne Hdst Hfree r.
  unfold dispatch, api_view, ReviewListCreateView_post. monad_simp.
  rewrite (review_is_valid_ok false d dest v c db) by assumption.
  unfold ReviewSerializer.create, Review_objects_create.
  cbn [ReviewSerializer.or_else ReviewSerializer.v_destination_id
         ReviewSerializer.v_rating ReviewSerializer.v_comment].
  fold r.
  replace (Review_violates_unique r (reviews db)) with false
    by (symmetry; apply Review_violates_unique_false; intros q Hq _; now apply Hfree).
  rewrite (destination_at_fk_ok dest dst db Hdst). cbn [orb negb]. fold (add_review r db).
  rewrite (to_representation_found u r dst (add_review r db)) by exact Hdst.
  reflexivity.
Qed.



(** The review serializer on a rating that is not a choice. *)
Lemma review_is_valid_bad_rating (partial : bool) (d : ReviewSerializer.data) (v : Z)
    (db : DB) :
  ReviewSerializer.rating d = Parsed v -> ~ (1 <= v <= 5) ->
  exists errors,
    ReviewSerializer.is_valid partial d db = (Ok (inl errors), db)
    /\ assoc "rating" errors
       = Some (PList [PStr (dquote ++ str_int v ++ dquote ++ " is not a valid choice.")]).
Proof.
  intros Hr Hv.
  assert (Hrange : ((1 <=? v) && (v <=? 5))%Z = false).
  { apply andb_false_iff. destruct (Z.leb_spec 1 v); [right|left; reflexivity].
    apply Z.leb_gt. lia. }
  destruct d as [f1 f2 f3]. simpl in Hr. subst f2.
  unfold ReviewSerializer.is_valid.
  cbn [ReviewSerializer.destination_id ReviewSerializer.rating ReviewSerializer.comment].
  unfold ReviewSerializer.run_field_partial, run_field,
    ReviewSerializer.rating_field, CharField, required.
  destruct partial, f1 as [|m1|v1], f3 as [|m3|c]; monad_simp; rewrite Hrange; monad_simp;
    try (destruct (c =? ""); monad_simp);
    eexists; (split; [reflexivity|reflexivity]).
Qed.

(** X13. A rating outside 1..5 never reaches the table: a creation request
    that carries one is answered 400 with the error of the field, a
    replacement or a patch that carries one is answered by an error, and
    none of them writes. *)
Theorem review_rating_out_of_range (env : Env) (u : User.t)
    (d : ReviewSerializer.data) (v pk : Z) (db : DB) :
  ReviewSerializer.rating d = Parsed v -> ~ (1 <= v <= 5) ->
  (exists errors,
      dispatch env (Some u) (POST_reviews d) db
      = (Returned (mkResponse (PDict errors) HTTP_400_BAD_REQUEST), db)
      /\ assoc "rating" errors
         = Some (PList [PStr (dquote ++ str_int v ++ dquote
                              ++ " is not a valid choice.")]))
  /\ (forall req,
         In req [PUT_reviews_pk pk d; PATCH_reviews_pk pk d] ->
         exists o, dispatch env (Some u) req db = (o, db) /\ is_error o).
Proof.
  intros Hr Hv. split.
  - destruct (review_is_valid_bad_rating false d v db Hr Hv) as [errors [Hvalid Herr]].
    exists errors. split; [|exact Herr].
    unfold dispatch, api_view, ReviewListCreateView_post, bind. now rewrite Hvalid.
  - intros req Hreq.
    assert (Hupd : forall partial,
               exists o,
                 api_view env (Some u)
                   (fun u0 => ReviewDetailView_update env partial u0 pk d) db = (o, db)
                 /\ is_error o).
    { intros partial. unfold api_view, ReviewDetailView_update, bind.
      unfold Review_get_object at 1.
      destruct (get_object_or_404 MReview _) as [instance|e].
      - destruct (review_is_valid_bad_rating partial d v db Hr Hv)
          as [errors [Hvalid _]].
        rewrite Hvalid. eexists. split; [reflexivity|].
        unfold is_error, http_status, ret. cbn [status_code].
        unfold HTTP_400_BAD_REQUEST. lia.
      - destruct e; eexists; (split; [reflexivity|]);
          unfold is_error, http_status, HTTP_500_INTERNAL_SERVER_ERROR,
            HTTP_404_NOT_FOUND, HTTP_400_BAD_REQUEST; lia. }
    simpl in Hreq. destruct Hreq as [<-|[<-|[]]]; apply Hupd.
Qed.

Lemma review_rating_out_of_range_witness :
  exists errors,
    dispatch (env_at 100 gateway_down) (Some bob)
      (POST_reviews (ReviewSerializer.mk_data (Parsed 1) (Parsed 6) (Parsed "Lovely")))
      db_unpaid
    = (Returned (mkResponse (PDict errors) HTTP_400_BAD_REQUEST), db_unpaid)
    /\ assoc "rating" errors
       = Some (PList [PStr (dquote ++ str_int 6 ++ dquote ++ " is not a valid choice.")]).
Proof.
  apply (review_rating_out_of_range (env_at 100 gateway_down) bob
           (ReviewSerializer.mk_data (Parsed 1) (Parsed 6) (Parsed "Lovely")) 6 1
           db_unpaid eq_refl).
  lia.
Defined.

(** Saving a stored review whose pair is left alone. *)
Lemma Review_save_stored (env : Env) (r r' : Review.t) (dst : Destination.t) (db : DB) :
  db_wf db -> In r (reviews db) ->
  Review.id r' = Review.id r -> Review.pair r' = Review.pair r ->
  destination_at (Review.destination r') dst db ->
  let saved :=
    Review.mk (Review.id r') (Review.user r') (Review.destination r') (Review.rating r')
      (Review.comment r') (Review.created_at r') (now env) in
  Review_save env r' db
  = (Ok saved, set_reviews (replace_row Review.id saved (reviews db)) db).
Proof.
  intros Hwf Hin Hid Hpair Hdst saved. unfold Review_save. fold saved.
  replace (Review_violates_unique saved (reviews db)) with false.
  - replace (Review.destination saved) with (Review.destination r') by reflexivity.
    rewrite (destination_at_fk_ok _ dst db Hdst). cbn [orb negb].
    now rewrite (upsert_present _ Review.id saved (reviews db) r).
  - symmetry. apply Review_violates_unique_false. intros q Hq Hne Hq'.
    apply Hne. replace (Review.id saved) with (Review.id r) by (symmetry; exact Hid).
    apply (wf_review_pair db Hwf q r Hq Hin). rewrite <- Hpair. exact Hq'.
Qed.

(** X14. A patch that carries only a rating changes the rating and the
    modification time of the caller's review and nothing else: its user,
    destination, comment and creation time stay, and so does every other
    row.  The same body sent as a replacement is refused with 400, the two
    other members being required, and writes nothing. *)
Theorem patch_changes_supplied_fields_only (env : Env) (u : User.t) (r : Review.t)
    (v : Z) (dst : Destination.t) (db : DB) :
  db_wf db -> In r (reviews db) -> Review.user r = User.id u -> 1 <= v <= 5 ->
  destination_at (Review.destination r) dst db ->
  let d := ReviewSerializer.mk_data Missing (Parsed v) Missing in
  let r' :=
    Review.mk (Review.id r) (Review.user r) (Review.destination r) v (Review.comment r)
      (Review.created_at r) (now env) in
  dispatch env (Some u) (PATCH_reviews_pk (Review.id r) d) db
  = (Returned (mkResponse (Review_data u dst r') HTTP_200_OK),
     set_reviews (replace_row Review.id r' (reviews db)) db)
  /\ dispatch env (Some u) (PUT_reviews_pk (Review.id r) d) db
     = (Returned
          (mkResponse
             (PDict [("destination_id", PList [PStr "This field is required."]);
                     ("comment", PList [PStr "This field is required."])])
             HTTP_400_BAD_REQUEST), db).
Proof.
  intros Hwf Hin Hu Hv Hdst d r'.
  assert (Hrange : ((1 <=? v) && (v <=? 5))%Z = true).
  { apply andb_true_iff. split; apply Z.leb_le; lia. }
  split.
  - unfold dispatch, api_view, ReviewDetailView_update. unfold bind at 1.
    rewrite (Review_get_object_own u r db) by assumption.
    assert (Hvalid : ReviewSerializer.is_valid true d db
                     = (Ok (inr (ReviewSerializer.mk None (Some v) None)), db)).
    { unfold ReviewSerializer.is_valid, d.
      cbn [ReviewSerializer.destination_id ReviewSerializer.rating
             ReviewSerializer.comment].
      unfold ReviewSerializer.run_field_partial, run_field,
        ReviewSerializer.rating_field, required.
      monad_simp. rewrite Hrange. reflexivity. }
    unfold bind at 1. rewrite Hvalid. unfold bind at 1.
    unfold ReviewSerializer.update.
    cbn [ReviewSerializer.or_else ReviewSerializer.v_destination_id
           ReviewSerializer.v_rating ReviewSerializer.v_comment].
    set (r0 := Review.mk (Review.id r) (Review.user r) (Review.destination r) v
                 (Review.comment r) (Review.created_at r) (Review.updated_at r)).
    rewrite (Review_save_stored env r r0 dst db Hwf Hin eq_refl eq_refl Hdst).
    unfold r0.
    cbn [Review.id Review.user Review.destination Review.rating Review.comment
           Review.created_at].
    fold r'. unfold bind.
    rewrite (to_representation_found u r' dst
               (set_reviews (replace_row Review.id r' (reviews db)) db)) by exact Hdst.
    reflexivity.
  - unfold dispatch, api_view, ReviewDetailView_update. unfold bind at 1.
    rewrite (Review_get_object_own u r db) by assumption.
    assert (Hvalid : ReviewSerializer.is_valid false d db
                     = (Ok (inl [("destination_id", PList [PStr "This field is required."]);
                                 ("comment", PList [PStr "This field is required."])]),
                        db)).
    { unfold ReviewSerializer.is_valid, d.
      cbn [ReviewSerializer.destination_id ReviewSerializer.rating
             ReviewSerializer.comment].
      unfold ReviewSerializer.run_field_partial, run_field,
        ReviewSerializer.rating_field, CharField, required.
      monad_simp. rewrite Hrange. reflexivity. }
    unfold bind. rewrite Hvalid. reflexivity.
Qed.

Lemma patch_changes_supplied_fields_only_witness :
  db_wf db_paid
  /\ (let d := ReviewSerializer.mk_data Missing (Parsed 3) Missing in
      let r' := Review.mk 1 1 1 3 "Great" 7 100 in
      dispatch (env_at 100 gateway_down) (Some alice) (PATCH_reviews_pk 1 d) db_paid
      = (Returned (mkResponse (Review_data alice lagos r') HTTP_200_OK),
         set_reviews [r'] db_paid)
      /\ dispatch (env_at 100 gateway_down) (Some alice) (PUT_reviews_pk 1 d) db_paid
         = (Returned
              (mkResponse
                 (PDict [("destination_id", PList [PStr "This field is required."]);
                         ("comment", PList [PStr "This field is required."])])
                 HTTP_400_BAD_REQUEST), db_paid)).
Proof.
  split; [exact db_paid_wf|].
  apply (patch_changes_supplied_fields_only (env_at 100 gateway_down) alice review1 3
           lagos db_paid db_paid_wf (or_introl eq_refl) eq_refl);
    [lia|reflexivity].
Defined.

Lemma db_reviews_wf : db_wf db_reviews.
Proof. wf_by_cases. Qed.

(** X15. Moving a review to a destination the caller has reviewed already
    is not caught by the serializer: the replacement or patch passes
    validation, the constraint of the table raises [IntegrityError], the
    request ends in a server error, and nothing is written. *)
Theorem review_update_to_taken_pair (env : Env) (u : User.t) (r1 r2 : Review.t)
    (d : ReviewSerializer.data) (v : Z) (c : string) (db : DB) :
  db_wf db -> In r1 (reviews db) -> In r2 (reviews db) ->
  Review.user r1 = User.id u -> Review.user r2 = User.id u ->
  Review.id r1 <> Review.id r2 ->
  ReviewSerializer.destination_id d = Parsed (Review.destination r2) ->
  ReviewSerializer.rating d = Parsed v -> 1 <= v <= 5 ->
  ReviewSerializer.comment d = Parsed c -> c <> "" ->
  forall req,
    In req [PUT_reviews_pk (Review.id r1) d; PATCH_reviews_pk (Review.id r1) d] ->
    dispatch env (Some u) req db = (Uncaught IntegrityError, db).
Proof.
  intros Hwf H1 H2 Hu1 Hu2 Hne Hd Hr Hv Hc Hcne req Hreq.
  assert (Hupd : forall partial,
             api_view env (Some u)
               (fun u0 => ReviewDetailView_update env partial u0 (Review.id r1) d) db
             = (Uncaught IntegrityError, db)).
  { intros partial. unfold api_view, ReviewDetailView_update. unfold bind at 1.
    rewrite (Review_get_object_own u r1 db) by assumption.
    unfold bind at 1.
    rewrite (review_is_valid_ok partial d (Review.destination r2) v c db) by assumption.
    unfold bind at 1. unfold ReviewSerializer.update, Review_save.
    cbn [ReviewSerializer.or_else ReviewSerializer.v_destination_id
           ReviewSerializer.v_rating ReviewSerializer.v_comment].
    replace (Review_violates_unique _ (reviews db)) with true; [reflexivity|].
    symmetry. apply existsb_exists. exists r2. split; [assumption|].
    cbn [Review.id Review.user Review.destination].
    apply andb_true_iff. split; [apply andb_true_iff; split|].
    - apply negb_true_iff, Z.eqb_neq. congruence.
    - apply Z.eqb_eq. congruence.
    - apply Z.eqb_refl. }
  simpl in Hreq. destruct Hreq as [<-|[<-|[]]]; apply Hupd.
Qed.

Lemma review_update_to_taken_pair_witness :
  db_wf db_reviews
  /\ dispatch (env_at 100 gateway_down) (Some alice)
       (PATCH_reviews_pk 1 (ReviewSerializer.mk_data (Parsed 2) (Parsed 5) (Parsed "Moved")))
       db_reviews
     = (Uncaught IntegrityError, db_reviews).
Proof.
  split; [exact db_reviews_wf|].
  apply (review_update_to_taken_pair (env_at 100 gateway_down) alice review1 review2
           (ReviewSerializer.mk_data (Parsed 2) (Parsed 5) (Parsed "Moved")) 5 "Moved"
           db_reviews db_reviews_wf (or_introl eq_refl) (or_intror (or_introl eq_refl))
           eq_refl eq_refl);
    [discriminate|reflexivity|reflexivity|lia|reflexivity|discriminate|simpl; tauto].
Defined.

(** X16. Deleting a review of the caller is answered 204 and removes that
    review and no other row; the key then answers 404, and the pair is free
    again: the caller can review the destination anew. *)
Theorem review_delete_frees_the_pair (env env' : Env) (u : User.t) (r : Review.t)
    (dst : Destination.t) (d : ReviewSerializer.data) (v : Z) (c : string) (db : DB) :
  db_wf db -> In r (reviews db) -> Review.user r = User.id u ->
  destination_at (Review.destination r) dst db ->
  ReviewSerializer.destination_id d = Parsed (Review.destination r) ->
  ReviewSerializer.rating d = Parsed v -> 1 <= v <= 5 ->
  ReviewSerializer.comment d = Parsed c -> c <> "" ->
  exists db',
    dispatch env (Some u) (DELETE_reviews_pk (Review.id r)) db
    = (Returned (mkResponse PNone HTTP_204_NO_CONTENT), db')
    /\ (forall q, In q (reviews db') <-> In q (reviews db) /\ q <> r)
    /\ destinations db' = destinations db /\ bookings db' = bookings db
    /\ payments db' = payments db
    /\ dispatch env' (Some u) (GET_reviews_pk (Review.id r)) db'
       = (Handled HTTP_404_NOT_FOUND Http404, db')
    /\ exists body db'',
         dispatch env' (Some u) (POST_reviews d) db'
         = (Returned (mkResponse body HTTP_201_CREATED), db'')
         /\ exists r', In r' (reviews db'') /\ Review.pair r' = Review.pair r.
Proof.
  intros Hwf Hin Hu Hdst Hd Hr Hv Hc Hcne.
  set (db' := set_reviews (delete_row Review.id (Review.id r) (reviews db)) db).
  assert (Hdel : dispatch env (Some u) (DELETE_reviews_pk (Review.id r)) db
                 = (Returned (mkResponse PNone HTTP_204_NO_CONTENT), db')).
  { unfold dispatch, api_view, ReviewDetailView_delete. unfold bind at 1.
    now rewrite (Review_get_object_own u r db). }
  assert (Hrows : forall q, In q (reviews db') <-> In q (reviews db) /\ q <> r).
  { intros q. unfold db', delete_row. cbn [reviews set_reviews].
    rewrite filter_In. split.
    - intros [Hq Hk]. split; [assumption|]. intros ->.
      rewrite Z.eqb_refl in Hk. discriminate.
    - intros [Hq Hk]. split; [assumption|]. apply negb_true_iff, Z.eqb_neq.
      intros Heq. apply Hk. apply (pk_inj _ Review.id (reviews db)); auto. apply Hwf. }
  assert (Hwf' : db_wf db').
  { replace db' with (snd (dispatch env (Some u) (DELETE_reviews_pk (Review.id r)) db))
      by now rewrite Hdel.
    now apply dispatch_wf. }
  exists db'. split; [exact Hdel|]. split; [exact Hrows|].
  split; [reflexivity|]. split; [reflexivity|]. split; [reflexivity|]. split.
  - unfold dispatch, api_view, ReviewDetailView_get. unfold bind at 1.
    rewrite (Review_get_object_missing u (Review.id r) db'); [reflexivity|].
    intros q Hq _ Hid. apply Hrows in Hq. destruct Hq as [Hq Hneq]. apply Hneq.
    apply (pk_inj _ Review.id (reviews db)); auto. apply Hwf.
  - assert (Hfree : forall q, In q (reviews db') ->
                              Review.pair q <> (User.id u, Review.destination r)).
    { intros q Hq Hpair. apply Hrows in Hq. destruct Hq as [Hq Hneq]. apply Hneq.
      apply (pk_inj _ Review.id (reviews db)); auto; [apply Hwf|].
      apply (wf_review_pair db Hwf q r Hq Hin). rewrite Hpair.
      unfold Review.pair. now rewrite Hu. }
    assert (Hpost := ReviewListCreateView_post_created env' u d (Review.destination r)
                        v c dst db' Hd Hr Hv Hc Hcne Hdst Hfree).
    cbv zeta in Hpost.
    do 2 eexists. split; [exact Hpost|].
    eexists. split; [cbn [reviews add_review]; apply in_or_app; right; now left|].
    unfold Review.pair. cbn [Review.user Review.destination]. now rewrite Hu.
Qed.

Lemma review_delete_frees_the_pair_witness :
  db_wf db_paid
  /\ exists db',
       dispatch (env_at 100 gateway_down) (Some alice) (DELETE_reviews_pk 1) db_paid
       = (Returned (mkResponse PNone HTTP_204_NO_CONTENT), db')
       /\ dispatch (env_at 200 gateway_down) (Some alice) (GET_reviews_pk 1) db'
          = (Handled HTTP_404_NOT_FOUND Http404, db')
       /\ exists body db'',
            dispatch (env_at 200 gateway_down) (Some alice)
              (POST_reviews
                 (ReviewSerializer.mk_data (Parsed 1) (Parsed 2) (Parsed "Again"))) db'
            = (Returned (mkResponse body HTTP_201_CREATED), db'').
Proof.
  split; [exact db_paid_wf|].
  destruct (review_delete_frees_the_pair (env_at 100 gateway_down)
              (env_at 200 gateway_down) alice review1 lagos
              (ReviewSerializer.mk_data (Parsed 1) (Parsed 2) (Parsed "Again")) 2 "Again"
              db_paid db_paid_wf (or_introl eq_refl) eq_refl eq_refl eq_refl eq_refl)
    as [db' [Hdel [_ [_ [_ [_ [Hget [body [db'' [Hpost _]]]]]]]]]].
  - lia.
  - reflexivity.
  - discriminate.
  - exists db'. split; [exact Hdel|]. split; [exact Hget|].
    exists body, db''. exact Hpost.
Defined.

(** ** Deleting bookings and destinations *)

Lemma NoDup_map_filter {R K : Type} (key : R -> K) (P : R -> bool) (rows : list R) :
  NoDup (map key rows) -> NoDup (map key (filter P rows)).
Proof.
  induction rows as [|a rows IH]; simpl; [auto|].
  intros Hnd. inversion Hnd as [|? ? Hnotin Hnd']; subst.
  destruct (P a); simpl; auto.
  constructor; auto. intros Hin. apply Hnotin.
  apply in_map_iff in Hin. destruct Hin as [q [Hq Hin]].
  apply filter_In in Hin. rewrite <- Hq. apply in_map. tauto.
Qed.

(** The constraints survive the removal of rows, as long as the foreign
    keys of the rows that stay still resolve. *)
Lemma db_wf_sub (db db' : DB) :
  db_wf db ->
  (forall x, In x (payments db') -> In x (payments db)) ->
  NoDup (map Payment.id (payments db')) ->
  (forall x, In x (bookings db') -> In x (bookings db)) ->
  NoDup (map Booking.id (bookings db')) ->
  (forall x, In x (reviews db') -> In x (reviews db)) ->
  NoDup (map Review.id (reviews db')) ->
  payment_seq db' = payment_seq db -> review_seq db' = review_seq db ->
  resolves Payment.booking Booking.id (payments db') (bookings db') ->
  resolves Booking.destination Destination.id (bookings db') (destinations db') ->
  db_wf db'.
Proof.
  intros Hwf Hp Hpn Hb Hbn Hr Hrn Hps Hrs Hpf Hbf. destruct Hwf.
  constructor; auto.
  - intros q r Hq Hr'. apply wf_payment_booking0; auto.
  - intros q r t Hq Hr'. apply wf_payment_txid0; auto.
  - intros q r t Hq Hr'. apply wf_payment_reference0; auto.
  - intros p Hin. rewrite Hps. auto.
  - intros q r Hq Hr'. apply wf_booking_reference0; auto.
  - intros q r Hq Hr'. apply wf_review_pair0; auto.
  - intros r Hin. rewrite Hrs. auto.
Qed.

Lemma Booking_delete_wf (b : Booking.t) : keeps_wf (Booking_delete b).
Proof.
  intros db Hwf. unfold Booking_delete, write. cbn [fst snd].
  apply (db_wf_sub db); cbn [payments bookings reviews destinations payment_seq review_seq];
    auto; try apply Hwf.
  - intros x Hx. apply filter_In in Hx. tauto.
  - apply NoDup_map_filter, Hwf.
  - intros x Hx. apply filter_In in Hx. tauto.
  - apply NoDup_pk_delete, Hwf.
  - intros p Hp. apply filter_In in Hp. destruct Hp as [Hp Hk].
    apply negb_true_iff, Z.eqb_neq in Hk.
    destruct (wf_payment_fk db Hwf p Hp) as [s [Hs Hid]].
    exists s. split; [|assumption]. apply filter_In. split; [assumption|].
    apply negb_true_iff, Z.eqb_neq. congruence.
  - intros q Hq. apply filter_In in Hq. destruct Hq as [Hq _].
    apply (wf_booking_fk db Hwf q Hq).
Qed.

Lemma Destination_delete_wf (dst : Destination.t) : keeps_wf (Destination_delete dst).
Proof.
  intros db Hwf. unfold Destination_delete, write. cbn [fst snd].
  apply (db_wf_sub db); cbn [payments bookings reviews destinations payment_seq review_seq];
    auto.
  - intros x Hx. apply filter_In in Hx. tauto.
  - apply NoDup_map_filter, Hwf.
  - intros x Hx. apply filter_In in Hx. tauto.
  - apply NoDup_map_filter, Hwf.
  - intros x Hx. apply filter_In in Hx. tauto.
  - apply NoDup_map_filter, Hwf.
  - intros p Hp. apply filter_In in Hp. destruct Hp as [Hp Hk].
    apply negb_true_iff in Hk.
    destruct (wf_payment_fk db Hwf p Hp) as [s [Hs Hid]].
    exists s. split; [|assumption]. apply filter_In. split; [assumption|].
    assert (Hx := existsb_false_In _ _ s Hk Hs). cbn beta in Hx.
    apply Z.eqb_eq in Hid. rewrite Hid, andb_true_r in Hx. now rewrite Hx.
  - intros q Hq. apply filter_In in Hq. destruct Hq as [Hq Hk].
    apply negb_true_iff in Hk. unfold booked_at in Hk. apply Z.eqb_neq in Hk.
    destruct (wf_booking_fk db Hwf q Hq) as [s [Hs Hid]].
    exists s. split; [|assumption]. unfold delete_row. apply filter_In.
    split; [assumption|]. apply negb_true_iff, Z.eqb_neq. congruence.
Qed.

(** [get_object] on a booking of the caller. *)
Lemma Booking_get_object_own (u : User.t) (b : Booking.t) (db : DB) :
  db_wf db -> In b (bookings db) -> Booking.user b = User.id u ->
  Booking_get_object u (Booking.id b) db = (Ok b, db).
Proof.
  intros Hwf Hin Hu. unfold Booking_get_object.
  rewrite filter_twice, (filter_unique _ Booking.id _ _ b); auto.
  - apply Hwf.
  - apply andb_true_iff. split; now apply Z.eqb_eq.
  - intros q _ Hq. apply andb_true_iff in Hq. destruct Hq as [_ Hq].
    now apply Z.eqb_eq.
Qed.

Lemma Booking_get_object_other (u : User.t) (b : Booking.t) (db : DB) :
  db_wf db -> In b (bookings db) -> Booking.user b <> User.id u ->
  Booking_get_object u (Booking.id b) db = (Raise Http404, db).
Proof.
  intros Hwf Hin Hu. unfold Booking_get_object.
  rewrite filter_twice, filter_none; [reflexivity|].
  intros q Hq. destruct (Booking.user q =? User.id u)%Z eqn:E; [|reflexivity].
  apply Z.eqb_eq in E. cbn [andb]. apply Z.eqb_neq. intros Hid.
  assert (q = b) by (apply (pk_inj _ Booking.id (bookings db)); auto; apply Hwf).
  subst q. contradiction.
Qed.

(** X17. Deleting a booking of the caller is answered 204 and removes the
    booking together with its payment; every other booking and payment,
    the reviews and the destinations stay, and the constraints of the
    schema still hold.  A booking of another user is answered 404 and
    nothing is removed. *)
Theorem booking_delete_cascades (env : Env) (u : User.t) (b : Booking.t) (db : DB) :
  db_wf db -> In b (bookings db) ->
  (Booking.user b = User.id u ->
   exists db',
     dispatch_resource env (Some u) (DELETE_bookings_pk (Booking.id b)) db
     = (Returned (mkResponse PNone HTTP_204_NO_CONTENT), db')
     /\ (forall q, In q (bookings db') <-> In q (bookings db) /\ q <> b)
     /\ (forall p, In p (payments db') <->
                   In p (payments db) /\ Payment.booking p <> Booking.id b)
     /\ reviews db' = reviews db /\ destinations db' = destinations db
     /\ db_wf db')
  /\ (Booking.user b <> User.id u ->
      dispatch_resource env (Some u) (DELETE_bookings_pk (Booking.id b)) db
      = (Handled HTTP_404_NOT_FOUND Http404, db)).
Proof.
  intros Hwf Hin. split; intros Hu.
  - exists (mkDB (destinations db)
                 (delete_row Booking.id (Booking.id b) (bookings db))
                 (filter (fun p => negb (Payment.booking p =? Booking.id b)%Z)
                         (payments db))
                 (reviews db) (payment_seq db) (review_seq db)).
    split; [|split; [|split; [|split; [reflexivity|split; [reflexivity|]]]]].
    + unfold dispatch_resource, api_view, BookingDetailView_delete. unfold bind at 1.
      rewrite (Booking_get_object_own u b db) by assumption. reflexivity.
    + intros q. unfold delete_row. cbn [bookings]. rewrite filter_In. split.
      * intros [Hq Hk]. split; [assumption|]. intros ->.
        rewrite Z.eqb_refl in Hk. discriminate.
      * intros [Hq Hk]. split; [assumption|]. apply negb_true_iff, Z.eqb_neq.
        intros Heq. apply Hk. apply (pk_inj _ Booking.id (bookings db)); auto.
        apply Hwf.
    + intros p. cbn [payments]. rewrite filter_In, negb_true_iff, Z.eqb_neq. tauto.
    + apply (Booking_delete_wf b db Hwf).
  - unfold dispatch_resource, api_view, BookingDetailView_delete. unfold bind at 1.
    now rewrite (Booking_get_object_other u b db).
Qed.

Lemma booking_delete_cascades_witness :
  db_wf db_paid
  /\ dispatch_resource (env_at 100 gateway_down) (Some alice) (DELETE_bookings_pk 1) db_paid
     = (Returned (mkResponse PNone HTTP_204_NO_CONTENT),
        mkDB [lagos] [] [] [review1] 2 2)
  /\ dispatch_resource (env_at 100 gateway_down) (Some bob) (DELETE_bookings_pk 1) db_paid
     = (Handled HTTP_404_NOT_FOUND Http404, db_paid).
Proof.
  split; [exact db_paid_wf|].
  destruct (booking_delete_cascades (env_at 100 gateway_down) bob booking1 db_paid
              db_paid_wf (or_introl eq_refl)) as [_ Hother].
  split; [reflexivity|]. apply Hother. discriminate.
Defined.

(** X18. Any authenticated caller can delete a destination, whoever booked
    it: the request is answered 204 and removes the destination with every
    booking of it, the payments of those bookings and every review of it,
    of all users; the rows of other destinations stay, and the constraints
    of the schema still hold. *)
Theorem destination_delete_cascades (env : Env) (u : User.t) (dst : Destination.t)
    (db : DB) :
  db_wf db -> destination_at (Destination.id dst) dst db ->
  exists db',
    dispatch_resource env (Some u) (DELETE_destinations_pk (Destination.id dst)) db
    = (Returned (mkResponse PNone HTTP_204_NO_CONTENT), db')
    /\ (forall x, In x (destinations db') <->
                  In x (destinations db) /\ Destination.id x <> Destination.id dst)
    /\ (forall b, In b (bookings db') <->
                  In b (bookings db) /\ Booking.destination b <> Destination.id dst)
    /\ (forall p, In p (payments db') <->
                  In p (payments db)
                  /\ forall b, In b (bookings db) -> Booking.id b = Payment.booking p ->
                               Booking.destination b <> Destination.id dst)
    /\ (forall r, In r (reviews db') <->
                  In r (reviews db) /\ Review.destination r <> Destination.id dst)
    /\ db_wf db'.
Proof.
  intros Hwf Hdst.
  exists (snd (Destination_delete dst db)).
  split; [|split; [|split; [|split; [|split]]]].
  - unfold dispatch_resource, api_view, DestinationDetailView_delete. unfold bind at 1.
    unfold Destination_get_object. unfold destination_at in Hdst. rewrite Hdst.
    reflexivity.
  - intros x. unfold Destination_delete, write, delete_row. cbn [snd destinations].
    rewrite filter_In, negb_true_iff, Z.eqb_neq. tauto.
  - intros b. unfold Destination_delete, write, booked_at. cbn [snd bookings].
    rewrite filter_In, negb_true_iff, Z.eqb_neq. tauto.
  - intros p. unfold Destination_delete, write, booked_at. cbn [snd payments].
    rewrite filter_In, negb_true_iff. split.
    + intros [Hp Hk]. split; [assumption|]. intros b Hb Hid Hd.
      assert (Hx := existsb_false_In _ _ b Hk Hb). cbn beta in Hx.
      apply Z.eqb_eq in Hid, Hd. rewrite Hid, Hd in Hx. discriminate.
    + intros [Hp Hk]. split; [assumption|]. apply not_true_is_false. intros Hex.
      apply existsb_exists in Hex. destruct Hex as [b [Hb Hx]].
      apply andb_true_iff in Hx. destruct Hx as [Hd Hid].
      apply Z.eqb_eq in Hid, Hd. now apply (Hk b).
  - intros r. unfold Destination_delete, write. cbn [snd reviews].
    rewrite filter_In, negb_true_iff, Z.eqb_neq. tauto.
  - apply (Destination_delete_wf dst db Hwf).
Qed.

Lemma destination_delete_cascades_witness :
  db_wf db_paid
  /\ exists db',
       dispatch_resource (env_at 100 gateway_down) (Some bob) (DELETE_destinations_pk 1)
         db_paid
       = (Returned (mkResponse PNone HTTP_204_NO_CONTENT), db')
       /\ (forall b, In b (bookings db') <->
                     In b (bookings db_paid) /\ Booking.destination b <> 1)
       /\ db_wf db'.
Proof.
  split; [exact db_paid_wf|].
  destruct (destination_delete_cascades (env_at 100 gateway_down) bob lagos db_paid
              db_paid_wf eq_refl) as [db' [Hrun [_ [Hb [_ [_ Hwf']]]]]].
  exists db'. split; [exact Hrun|]. split; [exact Hb|exact Hwf'].
Defined.

(** ** The constraints over all the routes *)

Lemma dispatch_resource_wf (env : Env) (user : option User.t) (req : resource_request)
    (db : DB) :
  db_wf db -> db_wf (snd (dispatch_resource env user req db)).
Proof.
  intros Hwf. unfold dispatch_resource, api_view. destruct user as [u|]; [|exact Hwf].
  destruct req as [pk|pk].
  - unfold BookingDetailView_delete, bind, Booking_get_object.
    destruct (get_object_or_404 MBooking _) as [b|e].
    + apply (Booking_delete_wf b db Hwf).
    + destruct e; exact Hwf.
  - unfold DestinationDetailView_delete, bind, Destination_get_object.
    destruct (get_object_or_404 MDestination _) as [d|e].
    + apply (Destination_delete_wf d db Hwf).
    + destruct e; exact Hwf.
Qed.

(** X19. The constraints of the schema hold after any sequence of requests
    on the payment, review and delete routes, whoever sends them and
    whatever the gateway answers: keys are unique, a booking has at most one
    payment, transaction ids and references are not shared, a user has at
    most one review for a destination, and the booking of every payment and
    the destination of every booking exist. *)
Theorem constraints_hold_over_all_routes
    (reqs : list (Env * option User.t * (request + resource_request))) (db : DB) :
  db_wf db -> db_wf (run_all reqs db).
Proof.
  revert db. induction reqs as [|[[env user] [req|req]] rest IH]; intros db Hwf; simpl.
  - exact Hwf.
  - apply IH. now apply dispatch_wf.
  - apply IH. now apply dispatch_resource_wf.
Qed.

Lemma constraints_hold_over_all_routes_witness :
  db_wf db_paid
  /\ db_wf (run_all [(env_at 100 (gateway_says "success"), Some bob,
                      inl (POST_payments_verify
                             (PaymentVerificationSerializer.mk_data (Parsed "TXN123"))));
                     (env_at 200 gateway_down, Some alice, inr (DELETE_bookings_pk 1))]
              db_paid).
Proof.
  split; [exact db_paid_wf|].
  apply constraints_hold_over_all_routes. exact db_paid_wf.
Defined.

(** ** What a verification leaves alone *)

Lemma In_replace_row_other {R : Type} (pk : R -> Z) (r q : R) (rows : list R) :
  pk q <> pk r -> (In q (replace_row pk r rows) <-> In q rows).
Proof.
  intros Hne. split.
  - intros Hin. apply In_replace_row in Hin. destruct Hin as [[-> _]|[Hin _]]; tauto.
  - intros Hin. now apply In_replace_row_old.
Qed.

(** X20. Whatever the gateway answers to a verify request for a stored
    payment, the payment is still found under its transaction id with its
    key, booking, amount, currency, method, reference, checkout url and
    creation time as before: the amount and the currency the gateway
    reports are neither compared with nor written to the payment.  Every
    other payment, every booking but the payment's own, the destinations
    and the reviews are as before. *)
Theorem verification_touches_one_payment (env : Env) (u : User.t) (t : string)
    (p : Payment.t) (db : DB) :
  db_wf db -> In p (payments db) -> Payment.chapa_transaction_id p = Some t ->
  t <> "" -> (String.length t <= 100)%nat ->
  let db' := snd (dispatch env (Some u)
                    (POST_payments_verify
                       (PaymentVerificationSerializer.mk_data (Parsed t))) db) in
  exists p',
    Payment_objects_get t db' = (Ok p', db')
    /\ Payment.id p' = Payment.id p /\ Payment.booking p' = Payment.booking p
    /\ Payment.amount p' = Payment.amount p /\ Payment.currency p' = Payment.currency p
    /\ Payment.payment_method p' = Payment.payment_method p
    /\ Payment.chapa_reference p' = Payment.chapa_reference p
    /\ Payment.chapa_payment_url p' = Payment.chapa_payment_url p
    /\ Payment.created_at p' = Payment.created_at p
    /\ (forall q, Payment.id q <> Payment.id p ->
                  (In q (payments db') <-> In q (payments db)))
    /\ (forall b, Booking.id b <> Payment.booking p ->
                  (In b (bookings db') <-> In b (bookings db)))
    /\ destinations db' = destinations db /\ reviews db' = reviews db.
Proof.
  intros Hwf Hin Ht Hne Hlen db'.
  destruct (ChapaPaymentAPI_verify_payment_cases env t db) as [r [Hr _]].
  destruct r as [response_data st am cur|error details].
  - destruct (verify_payment_verified env u t p db response_data st am cur
                Hwf Hin Ht Hne Hlen Hr) as [b [Hb [Hbid Hrun]]].
    assert (Hdb' : db' = verified_state env st response_data p b db).
    { unfold db', dispatch, api_view. now rewrite Hrun. }
    clearbody db'. subst db'.
    exists (Payment_updated env (local_status st) response_data p).
    split.
    { apply (get_after_mark env (local_status st) response_data t p db); auto.
      unfold verified_state, local_status. destruct (eq_str st "success"); reflexivity. }
    do 8 (split; [reflexivity|]).
    unfold verified_state, local_status.
    destruct (eq_str st "success").
    + split; [|split; [|split; reflexivity]].
      * intros q Hq. cbn [payments confirm_booking set_bookings mark_payment set_payments].
        now apply In_replace_row_other.
      * intros b0 Hb0.
        cbn [bookings confirm_booking set_bookings mark_payment set_payments].
        apply In_replace_row_other. unfold Booking_confirmed. simpl. congruence.
    + split; [|split; [|split; reflexivity]].
      * intros q Hq. cbn [payments mark_payment set_payments].
        now apply In_replace_row_other.
      * intros b0 Hb0. reflexivity.
  - assert (Hdb' : db' = db).
    { unfold db', dispatch, api_view, verify_payment. monad_simp.
      rewrite (verification_is_valid t p db) by assumption.
      unfold verify_payment_try. monad_simp.
      rewrite (Payment_objects_get_stored t p db) by assumption.
      unfold get_object_or_404, get. rewrite Hr. reflexivity. }
    clearbody db'. subst db'.
    exists p. split.
    { unfold Payment_objects_get.
      now rewrite (Payment_objects_get_stored t p db). }
    do 8 (split; [reflexivity|]).
    split; [|split; [|split; reflexivity]]; intros; reflexivity.
Qed.

Lemma verification_touches_one_payment_witness :
  db_wf db_paid
  /\ (let db' := snd (dispatch (env_at 100 (gateway_says "success")) (Some bob)
                        (POST_payments_verify
                           (PaymentVerificationSerializer.mk_data (Parsed "TXN123")))
                        db_paid) in
      exists p',
        Payment_objects_get "TXN123" db' = (Ok p', db')
        /\ Payment.amount p' = 50000 /\ Payment.currency p' = "NGN"
        /\ reviews db' = [review1]).
Proof.
  split; [exact db_paid_wf|].
  destruct (verification_touches_one_payment (env_at 100 (gateway_says "success")) bob
              "TXN123" payment1 db_paid db_paid_wf (or_introl eq_refl) eq_refl)
    as [p' [Hget [_ [_ [Ham [Hcur [_ [_ [_ [_ [_ [_ [_ Hrev]]]]]]]]]]]]].
  - discriminate.
  - simpl. lia.
  - exists p'. split; [exact Hget|]. split; [exact Ham|]. split; [exact Hcur|exact Hrev].
Defined.
